(** * Rizon backend: magic-link login, session issuance and feedback

    A shallow embedding of the Go sources

      - internal/models       (AuthToken, User, Feedback)
      - internal/repository   (AuthTokenRepo, UserRepo, FeedbackRepo)
      - internal/handlers     (AuthHandler, FeedbackHandler, UserHandler)
      - internal/slack        (Notifier, MockSlack)
      - main                  (the index set-up at start-up)

    Every call that leaves the process (the MongoDB collections, the clock,
    the environment, the logger, the mail API, the JWT signer, the goroutine
    launched for the Slack message) is an operation of the signature [Op];
    a handler is a program over that signature.  Programs are run in two
    ways: sequentially ([run]) and interleaved with other requests, one store
    operation at a time ([sched]). *)

From Stdlib Require Import ZArith NArith List String Ascii Bool Lia.
From ExtLib Require Import Structures.Monad.
Import ListNotations.
Import MonadNotation.
Local Open Scope monad_scope.
Local Open Scope string_scope.
Local Open Scope Z_scope.

Set Implicit Arguments.

(* ------------------------------------------------------------------ *)
(** ** Time *)

(** [time.Time] as nanoseconds since the Unix epoch, [time.Duration] as
    nanoseconds. *)
Definition Time := Z.
Definition Duration := Z.

Definition Nanosecond : Duration := 1.
Definition Millisecond : Duration := 1000000 * Nanosecond.
Definition Second : Duration := 1000000000 * Nanosecond.
Definition Minute : Duration := 60 * Second.
Definition Hour : Duration := 60 * Minute.

(** [t.Add(d)], [t.After(u)], [t.Unix()]. *)
Definition Add (t : Time) (d : Duration) : Time := t + d.
Definition After (t u : Time) : bool := u <? t.
Definition Unix (t : Time) : Z := t / Second.

(** [bson.DateTime]: the driver writes a [time.Time] as the whole
    milliseconds since the epoch ([bson.NewDateTimeFromTime]: seconds times
    1000 plus nanoseconds over 1e6, which rounds down), and reads one back
    as the time of that many milliseconds ([DateTime.Time]).
    [through_bson t] is what comes back of [t]. *)
Definition NewDateTimeFromTime (t : Time) : Z := t / Millisecond.
Definition DateTime_Time (d : Z) : Time := d * Millisecond.
Definition through_bson (t : Time) : Time := DateTime_Time (NewDateTimeFromTime t).

Arguments through_bson t : simpl never.

(* ------------------------------------------------------------------ *)
(** ** Strings *)

Definition bytes (l : list nat) : string :=
  fold_right (fun n s => String (ascii_of_nat n) s) EmptyString l.

(** The double quote and the line feed, for the literals that hold them. *)
Definition dq : string := bytes [34%nat].
Definition lf : string := bytes [10%nat].

(* ------------------------------------------------------------------ *)
(** ** bson.ObjectID *)

(** Twelve bytes, kept as the number they spell. *)
Definition ObjectID := N.

Definition NilObjectID : ObjectID := 0%N.

Definition hex_digit (d : N) : ascii :=
  nth (N.to_nat d) (list_ascii_of_string "0123456789abcdef") "0"%char.

Fixpoint hex_fixed (digits : nat) (x : N) (acc : string) : string :=
  match digits with
  | O => acc
  | S k => hex_fixed k (x / 16)%N (String (hex_digit (x mod 16)%N) acc)
  end.

(** [id.Hex()]: 24 lower-case hexadecimal digits. *)
Definition Hex (id : ObjectID) : string := hex_fixed 24 id EmptyString.

Definition hex_value (c : ascii) : option N :=
  let n := N_of_ascii c in
  if ((48 <=? n) && (n <=? 57))%N then Some (n - 48)%N
  else if ((97 <=? n) && (n <=? 102))%N then Some (n - 87)%N
  else if ((65 <=? n) && (n <=? 70))%N then Some (n - 55)%N
  else None.

Fixpoint parse_hex (s : string) (acc : N) : option N :=
  match s with
  | EmptyString => Some acc
  | String c rest =>
      match hex_value c with
      | Some d => parse_hex rest (16 * acc + d)%N
      | None => None
      end
  end.

(* ------------------------------------------------------------------ *)
(** ** Errors *)

Inductive error : Type :=
| ErrNoDocuments                       (* mongo.ErrNoDocuments *)
| ErrDuplicateKey (index : string)     (* E11000, a unique index rejected the write *)
| ErrServer (msg : string)             (* the store could not serve the request *)
| ErrInvalidHex                        (* bson.ErrInvalidHex *)
| ErrExternal (msg : string)           (* an error of the mail API or the signer *)
| Errorf (prefix : string) (cause : error).   (* fmt.Errorf("...: %w", err) *)

Fixpoint Error (e : error) : string :=
  match e with
  | ErrNoDocuments => "mongo: no documents in result"
  | ErrDuplicateKey index => "E11000 duplicate key error index: " ++ index
  | ErrServer msg => msg
  | ErrInvalidHex => "the provided hex string is not a valid ObjectID"
  | ErrExternal msg => msg
  | Errorf prefix cause => prefix ++ Error cause
  end.

Definition error_eqb_NoDocuments (e : error) : bool :=
  match e with ErrNoDocuments => true | _ => false end.

(** [bson.ObjectIDFromHex]. *)
Definition ObjectIDFromHex (s : string) : error + ObjectID :=
  if (String.length s =? 24)%nat then
    match parse_hex s 0%N with
    | Some id => inr id
    | None => inl ErrInvalidHex
    end
  else inl ErrInvalidHex.

(* ------------------------------------------------------------------ *)
(** ** internal/models *)

Module AuthToken.
Record t : Type := mk {
  ID : ObjectID;
  Email : string;
  Token : string;
  ExpiresAt : Time;
  IsUsed : bool;
  CreatedAt : Time
}.
Definition withID (v : ObjectID) (a : t) : t :=
  mk v (Email a) (Token a) (ExpiresAt a) (IsUsed a) (CreatedAt a).
Definition withIsUsed (v : bool) (a : t) : t :=
  mk (ID a) (Email a) (Token a) (ExpiresAt a) v (CreatedAt a).
Definition withCreatedAt (v : Time) (a : t) : t :=
  mk (ID a) (Email a) (Token a) (ExpiresAt a) (IsUsed a) v.
(** The struct as the collection holds it: the two times in milliseconds. *)
Definition bson (a : t) : t :=
  mk (ID a) (Email a) (Token a) (through_bson (ExpiresAt a)) (IsUsed a)
     (through_bson (CreatedAt a)).
End AuthToken.

Module User.
Record t : Type := mk {
  ID : ObjectID;
  Email : string;
  OnboardingCompleted : bool;
  CreatedAt : Time;
  UpdatedAt : Time
}.
Definition withID (v : ObjectID) (u : t) : t :=
  mk v (Email u) (OnboardingCompleted u) (CreatedAt u) (UpdatedAt u).
Definition withCreatedAt (v : Time) (u : t) : t :=
  mk (ID u) (Email u) (OnboardingCompleted u) v (UpdatedAt u).
Definition withUpdatedAt (v : Time) (u : t) : t :=
  mk (ID u) (Email u) (OnboardingCompleted u) (CreatedAt u) v.
(** The struct as the collection holds it: the two times in milliseconds. *)
Definition bson (u : t) : t :=
  mk (ID u) (Email u) (OnboardingCompleted u) (through_bson (CreatedAt u))
     (through_bson (UpdatedAt u)).
End User.

Module Feedback.
Record t : Type := mk {
  ID : ObjectID;
  UserID : ObjectID;
  Text : string;
  Rating : Z;
  IdempotencyKey : string;
  CreatedAt : Time
}.
Definition withID (v : ObjectID) (f : t) : t :=
  mk v (UserID f) (Text f) (Rating f) (IdempotencyKey f) (CreatedAt f).
Definition withCreatedAt (v : Time) (f : t) : t :=
  mk (ID f) (UserID f) (Text f) (Rating f) (IdempotencyKey f) v.
(** The struct as the collection holds it: the time in milliseconds. *)
Definition bson (f : t) : t :=
  mk (ID f) (UserID f) (Text f) (Rating f) (IdempotencyKey f)
     (through_bson (CreatedAt f)).
End Feedback.

(* ------------------------------------------------------------------ *)
(** ** What the handlers exchange with the outside *)

(** [jwt.MapClaims] with the four entries VerifyToken puts in. *)
Record MapClaims : Type := mkClaims {
  claim_user_id : string;
  claim_email : string;
  claim_exp : Z;
  claim_iat : Z
}.

(** [resend.SendEmailRequest]. *)
Record SendEmailRequest : Type := mkSendEmailRequest {
  From : string;
  To : list string;
  Subject : string;
  Html : string
}.

Record VerifyResponse : Type := mkVerifyResponse {
  Token : string;
  User : User.t
}.

(** The value handed to [writeJSON]. *)
Inductive Payload : Type :=
| JSONStrings (fields : list (string * string))        (* map[string]string *)
| JSONVerify (v : VerifyResponse)
| JSONFeedback (message : string) (feedback : Feedback.t).

Record Response : Type := mkResponse {
  status : Z;
  payload : Payload
}.

Definition StatusOK : Z := 200.
Definition StatusCreated : Z := 201.
Definition StatusBadRequest : Z := 400.
Definition StatusUnauthorized : Z := 401.
Definition StatusNotFound : Z := 404.
Definition StatusTooManyRequests : Z := 429.
Definition StatusInternalServerError : Z := 500.

(* ------------------------------------------------------------------ *)
(** ** The world outside the handlers *)

(** The three MongoDB collections in their natural order, the indexes
    EnsureIndexes declares on them, the counter behind the driver's fresh
    ObjectIDs, and the availability of the server: [faults] holds, for the
    requests to come, whether the server fails to serve them ([true]); once
    the list is used up the server serves every request.

    A document is held as the driver writes it: its times are BSON
    datetimes, whole milliseconds, so what a lookup returns of a struct
    that was inserted is the struct with its times rounded down to the
    millisecond; the bound of a comparison on a time goes the same way.

    The TTL index on [expires_at] is recorded as declared; the purge it
    schedules runs in the server, outside the requests modelled here. *)
Record Store : Type := mkStore {
  auth_tokens : list AuthToken.t;
  users : list User.t;
  feedbacks : list Feedback.t;
  unique_token : bool;
  ttl_expires_at : bool;
  unique_email : bool;
  unique_idempotency_key : bool;
  oid_counter : N;
  faults : list bool
}.

Definition set_auth_tokens (v : list AuthToken.t) (s : Store) : Store :=
  mkStore v (users s) (feedbacks s) (unique_token s) (ttl_expires_at s)
          (unique_email s) (unique_idempotency_key s) (oid_counter s) (faults s).
Definition set_users (v : list User.t) (s : Store) : Store :=
  mkStore (auth_tokens s) v (feedbacks s) (unique_token s) (ttl_expires_at s)
          (unique_email s) (unique_idempotency_key s) (oid_counter s) (faults s).
Definition set_feedbacks (v : list Feedback.t) (s : Store) : Store :=
  mkStore (auth_tokens s) (users s) v (unique_token s) (ttl_expires_at s)
          (unique_email s) (unique_idempotency_key s) (oid_counter s) (faults s).
Definition set_token_indexes (s : Store) : Store :=
  mkStore (auth_tokens s) (users s) (feedbacks s) true true
          (unique_email s) (unique_idempotency_key s) (oid_counter s) (faults s).
Definition set_user_indexes (s : Store) : Store :=
  mkStore (auth_tokens s) (users s) (feedbacks s) (unique_token s) (ttl_expires_at s)
          true (unique_idempotency_key s) (oid_counter s) (faults s).
Definition set_feedback_indexes (s : Store) : Store :=
  mkStore (auth_tokens s) (users s) (feedbacks s) (unique_token s) (ttl_expires_at s)
          (unique_email s) true (oid_counter s) (faults s).
Definition set_oid_counter (v : N) (s : Store) : Store :=
  mkStore (auth_tokens s) (users s) (feedbacks s) (unique_token s) (ttl_expires_at s)
          (unique_email s) (unique_idempotency_key s) v (faults s).
Definition set_faults (v : list bool) (s : Store) : Store :=
  mkStore (auth_tokens s) (users s) (feedbacks s) (unique_token s) (ttl_expires_at s)
          (unique_email s) (unique_idempotency_key s) (oid_counter s) v.

(** The process and its surroundings.  [ticks] holds the time that passes
    before each of the coming readings of the clock; [entropy] and [drawn]
    stand for the random source behind [uuid.New]; [resend] and [signer] are
    the mail API and [jwt.Token.SignedString], both outside the repository;
    [goroutines] collects the Slack messages handed to background
    goroutines. *)
Record World : Type := mkWorld {
  clock : Time;
  ticks : list N;
  entropy : nat -> string;
  drawn : nat;
  environ : string -> string;
  resend : string -> SendEmailRequest -> error + string;
  signer : MapClaims -> string -> error + string;
  store : Store;
  log : list string;
  outbox : list SendEmailRequest;
  goroutines : list string
}.

Definition set_clock (t : Time) (ds : list N) (w : World) : World :=
  mkWorld t ds (entropy w) (drawn w) (environ w) (resend w) (signer w)
          (store w) (log w) (outbox w) (goroutines w).
Definition set_drawn (v : nat) (w : World) : World :=
  mkWorld (clock w) (ticks w) (entropy w) v (environ w) (resend w) (signer w)
          (store w) (log w) (outbox w) (goroutines w).
Definition set_store (v : Store) (w : World) : World :=
  mkWorld (clock w) (ticks w) (entropy w) (drawn w) (environ w) (resend w) (signer w)
          v (log w) (outbox w) (goroutines w).
Definition set_log (v : list string) (w : World) : World :=
  mkWorld (clock w) (ticks w) (entropy w) (drawn w) (environ w) (resend w) (signer w)
          (store w) v (outbox w) (goroutines w).
Definition set_outbox (v : list SendEmailRequest) (w : World) : World :=
  mkWorld (clock w) (ticks w) (entropy w) (drawn w) (environ w) (resend w) (signer w)
          (store w) (log w) v (goroutines w).
Definition set_goroutines (v : list string) (w : World) : World :=
  mkWorld (clock w) (ticks w) (entropy w) (drawn w) (environ w) (resend w) (signer w)
          (store w) (log w) (outbox w) v.

(* ------------------------------------------------------------------ *)
(** ** Collection primitives *)

Section Collections.
Variable Doc : Type.

(** The first document that matches, as [FindOne] returns it. *)
Fixpoint find_first (p : Doc -> bool) (l : list Doc) : option Doc :=
  match l with
  | [] => None
  | d :: rest => if p d then Some d else find_first p rest
  end.

(** [UpdateOne]: the first document that matches is rewritten, the others
    are left as they are; without a match nothing changes. *)
Fixpoint update_first (p : Doc -> bool) (f : Doc -> Doc) (l : list Doc) : list Doc :=
  match l with
  | [] => []
  | d :: rest => if p d then f d :: rest else d :: update_first p f rest
  end.

(** [CountDocuments]. *)
Definition count_docs (p : Doc -> bool) (l : list Doc) : Z :=
  Z.of_nat (List.length (filter p l)).

(** Whether a unique index on [key] can be built over [l]. *)
Fixpoint distinct_keys (key : Doc -> string) (l : list Doc) : bool :=
  match l with
  | [] => true
  | d :: rest =>
      negb (existsb (fun d' => String.eqb (key d') (key d)) rest)
      && distinct_keys key rest
  end.
End Collections.

Definition by_token (token : string) (a : AuthToken.t) : bool :=
  String.eqb (AuthToken.Token a) token.
Definition recent_for (email : string) (since : Time) (a : AuthToken.t) : bool :=
  String.eqb (AuthToken.Email a) email && (since <=? AuthToken.CreatedAt a).
Definition by_email (email : string) (u : User.t) : bool :=
  String.eqb (User.Email u) email.
Definition by_idempotency_key (key : string) (f : Feedback.t) : bool :=
  String.eqb (Feedback.IdempotencyKey f) key.

(** Every request to the server first learns whether the server serves it. *)
Definition next_fault (s : Store) : bool * Store :=
  (hd false (faults s), set_faults (tl (faults s)) s).

Definition unavailable : error := ErrServer "server selection error: context deadline exceeded".

(** The driver's fresh [_id] for a document inserted with a zero ID
    ([bson:"_id,omitempty"]). *)
Definition fresh_oid (s : Store) : ObjectID * Store :=
  let id := N.succ (oid_counter s) in (id, set_oid_counter id s).

(* ------------------------------------------------------------------ *)
(** ** Operations *)

(** One constructor per call that leaves the handler; the index is the type
    of what the call returns.  A Go result [(v, err)] is a sum with the
    error on the left, a lone [error] is an [option]. *)
Inductive Op : Type -> Type :=
| time_Now : Op Time
| os_Getenv (key : string) : Op string
| log_Printf (line : string) : Op unit
| uuid_New : Op string
(* collection auth_tokens *)
| tokens_InsertOne (doc : AuthToken.t) : Op (error + ObjectID)
| tokens_FindOne (token : string) : Op (error + AuthToken.t)
| tokens_UpdateOne_set_is_used (token : string) : Op (option error)
| tokens_CountDocuments (email : string) (since : Time) : Op (error + Z)
| tokens_Indexes_CreateMany : Op (option error)
(* collection users *)
| users_InsertOne (doc : User.t) : Op (error + ObjectID)
| users_FindOne (email : string) : Op (error + User.t)
| users_Indexes_CreateOne : Op (option error)
(* collection feedbacks *)
| feedbacks_InsertOne (doc : Feedback.t) : Op (error + ObjectID)
| feedbacks_FindOne (idempotency_key : string) : Op (error + Feedback.t)
| feedbacks_Indexes_CreateMany : Op (option error)
(* collaborators *)
| resend_Emails_Send (apiKey : string) (params : SendEmailRequest) : Op (error + string)
| jwt_SignedString (claims : MapClaims) (key : string) : Op (error + string)
| go_Publish (message : string) : Op unit.

Section InsertOne.
Variables (Doc : Type) (id_of : Doc -> ObjectID) (with_id : ObjectID -> Doc -> Doc).
(** What marshalling to BSON and back makes of a document. *)
Variable (bson : Doc -> Doc).
Variables (docs : Store -> list Doc) (set_docs : list Doc -> Store -> Store).
(** The unique index of the collection beside [_id]: whether it is
    declared, its name, and the key it is on. *)
Variables (declared : Store -> bool) (index : string) (key : Doc -> string).

Definition insert_one (doc : Doc) (s0 : Store) : (error + ObjectID) * Store :=
  let (down, s) := next_fault s0 in
  if down then (inl unavailable, s)
  else
    let (id, s1) :=
      if (id_of doc =? NilObjectID)%N then fresh_oid s else (id_of doc, s) in
    if existsb (fun d => (id_of d =? id)%N) (docs s1) then
      (inl (ErrDuplicateKey "_id_"), s)
    else if declared s1 && existsb (fun d => String.eqb (key d) (key doc)) (docs s1) then
      (inl (ErrDuplicateKey index), s)
    else (inr id, set_docs (docs s1 ++ [with_id id (bson doc)]) s1).

Definition find_one (p : Doc -> bool) (s0 : Store) : (error + Doc) * Store :=
  let (down, s) := next_fault s0 in
  if down then (inl unavailable, s)
  else match find_first p (docs s) with
       | Some d => (inr d, s)
       | None => (inl ErrNoDocuments, s)
       end.

Definition create_unique_index (declare : Store -> Store) (s0 : Store)
  : option error * Store :=
  let (down, s) := next_fault s0 in
  if down then (Some unavailable, s)
  else if distinct_keys key (docs s) then (None, declare s)
  else (Some (ErrDuplicateKey index), s).
End InsertOne.

Definition on_store (X : Type) (f : Store -> X * Store) (w : World) : X * World :=
  (fst (f (store w)), set_store (snd (f (store w))) w).

Definition exec (X : Type) (op : Op X) (w : World) : X * World :=
  match op in Op T return T * World with
  | time_Now =>
      let t := clock w + Z.of_N (hd 0%N (ticks w)) in
      (t, set_clock t (tl (ticks w)) w)
  | os_Getenv key => (environ w key, w)
  | log_Printf line => (tt, set_log (log w ++ [line]) w)
  | uuid_New => (entropy w (drawn w), set_drawn (S (drawn w)) w)
  | tokens_InsertOne doc =>
      on_store (insert_one AuthToken.ID AuthToken.withID AuthToken.bson
                           auth_tokens set_auth_tokens
                           unique_token "token_1" AuthToken.Token doc) w
  | tokens_FindOne token =>
      on_store (find_one auth_tokens (by_token token)) w
  | tokens_UpdateOne_set_is_used token =>
      on_store (fun s0 =>
        let (down, s) := next_fault s0 in
        if down then (Some unavailable, s)
        else (None, set_auth_tokens
                      (update_first (by_token token) (AuthToken.withIsUsed true)
                                    (auth_tokens s)) s)) w
  | tokens_CountDocuments email since =>
      on_store (fun s0 =>
        let (down, s) := next_fault s0 in
        if down then (inl unavailable, s)
        else (inr (count_docs (recent_for email (through_bson since)) (auth_tokens s)),
              s)) w
  | tokens_Indexes_CreateMany =>
      on_store (create_unique_index auth_tokens "token_1" AuthToken.Token
                                    set_token_indexes) w
  | users_InsertOne doc =>
      on_store (insert_one User.ID User.withID User.bson users set_users
                           unique_email "email_1" User.Email doc) w
  | users_FindOne email =>
      on_store (find_one users (by_email email)) w
  | users_Indexes_CreateOne =>
      on_store (create_unique_index users "email_1" User.Email set_user_indexes) w
  | feedbacks_InsertOne doc =>
      on_store (insert_one Feedback.ID Feedback.withID Feedback.bson
                           feedbacks set_feedbacks
                           unique_idempotency_key "idempotency_key_1"
                           Feedback.IdempotencyKey doc) w
  | feedbacks_FindOne key =>
      on_store (find_one feedbacks (by_idempotency_key key)) w
  | feedbacks_Indexes_CreateMany =>
      on_store (create_unique_index feedbacks "idempotency_key_1"
                                    Feedback.IdempotencyKey set_feedback_indexes) w
  | resend_Emails_Send apiKey params =>
      let r := resend w apiKey params in
      (r, set_outbox (match r with
                      | inl _ => outbox w
                      | inr _ => outbox w ++ [params]
                      end) w)
  | jwt_SignedString claims key => (signer w claims key, w)
  | go_Publish message => (tt, set_goroutines (goroutines w ++ [message]) w)
  end.

(* ------------------------------------------------------------------ *)
(** ** Programs *)

Inductive Prog (A : Type) : Type :=
| Ret (a : A)
| Vis (X : Type) (op : Op X) (k : X -> Prog A).

Arguments Ret {A} a.
Arguments Vis {A X} op k.

Fixpoint pbind (A B : Type) (p : Prog A) (f : A -> Prog B) : Prog B :=
  match p with
  | Ret a => f a
  | Vis op k => Vis op (fun x => pbind (k x) f)
  end.

#[global] Instance Monad_Prog : Monad Prog :=
  {| ret := fun _ a => Ret a; bind := fun _ _ p f => pbind p f |}.

Definition call (X : Type) (op : Op X) : Prog X := Vis op (fun x => Ret x).

(** A request served alone, from its first operation to its response. *)
Fixpoint run (A : Type) (p : Prog A) (w : World) : A * World :=
  match p with
  | Ret a => (a, w)
  | Vis op k => let (x, w') := exec op w in run (k x) w'
  end.

(** One operation of a program. *)
Definition step (A : Type) (p : Prog A) (w : World) : Prog A * World :=
  match p with
  | Ret a => (Ret a, w)
  | Vis op k => let (x, w') := exec op w in (k x, w')
  end.

Definition finished (A : Type) (p : Prog A) : option A :=
  match p with
  | Ret a => Some a
  | Vis _ _ => None
  end.

Fixpoint step_nth (A : Type) (i : nat) (pool : list (Prog A)) (w : World)
  : list (Prog A) * World :=
  match pool with
  | [] => ([], w)
  | p :: rest =>
      match i with
      | O => let (p', w') := step p w in (p' :: rest, w')
      | S j => let (rest', w') := step_nth j rest w in (p :: rest', w')
      end
  end.

(** Requests in flight together against the one world: [order] names, step
    after step, the request whose next operation the world serves. *)
Fixpoint sched (A : Type) (order : list nat) (pool : list (Prog A)) (w : World)
  : list (Prog A) * World :=
  match order with
  | [] => (pool, w)
  | i :: rest => let (pool', w') := step_nth i pool w in sched rest pool' w'
  end.

Definition outcomes (A : Type) (pool : list (Prog A)) : list (option A) :=
  map (@finished A) pool.

(* ------------------------------------------------------------------ *)
(** ** internal/models: methods *)

(** [func (t *AuthToken) IsExpired() bool]. *)
Definition IsExpired (t : AuthToken.t) : Prog bool :=
  now <- call time_Now ;;
  ret (After now (AuthToken.ExpiresAt t)).

(** The zero [time.Time], January 1 of year 1. *)
Definition zeroTime : Time := - 62135596800 * Second.

(* ------------------------------------------------------------------ *)
(** ** internal/repository *)

(** A repository method that takes a pointer and fills it in returns here
    the struct as the caller sees it afterwards, next to the error. *)

Module AuthTokenRepo.

Definition Create (token : AuthToken.t) : Prog (AuthToken.t * option error) :=
  now <- call time_Now ;;
  let token := AuthToken.withCreatedAt now token in
  result <- call (tokens_InsertOne token) ;;
  match result with
  | inl err => ret (token, Some err)
  | inr id => ret (AuthToken.withID id token, None)
  end.

Definition FindByToken (token : string) : Prog (error + option AuthToken.t) :=
  r <- call (tokens_FindOne token) ;;
  match r with
  | inl err =>
      if error_eqb_NoDocuments err then ret (inr None)
      else ret (inl err)
  | inr authToken => ret (inr (Some authToken))
  end.

Definition MarkUsed (token : string) : Prog (option error) :=
  call (tokens_UpdateOne_set_is_used token).

Definition CountRecentByEmail (email : string) (duration : Duration)
  : Prog (error + Z) :=
  now <- call time_Now ;;
  let since := Add now (- duration) in
  call (tokens_CountDocuments email since).

Definition EnsureIndexes : Prog (option error) :=
  call tokens_Indexes_CreateMany.

End AuthTokenRepo.

Module UserRepo.

Definition FindByEmail (email : string) : Prog (error + option User.t) :=
  r <- call (users_FindOne email) ;;
  match r with
  | inl err =>
      if error_eqb_NoDocuments err then ret (inr None)
      else ret (inl err)
  | inr user => ret (inr (Some user))
  end.

Definition Create (user : User.t) : Prog (User.t * option error) :=
  created <- call time_Now ;;
  let user := User.withCreatedAt created user in
  updated <- call time_Now ;;
  let user := User.withUpdatedAt updated user in
  result <- call (users_InsertOne user) ;;
  match result with
  | inl err => ret (user, Some err)
  | inr id => ret (User.withID id user, None)
  end.

Definition FindOrCreate (email : string) : Prog (error + User.t) :=
  r <- FindByEmail email ;;
  match r with
  | inl err => ret (inl err)
  | inr (Some user) => ret (inr user)
  | inr None =>
      let newUser := User.mk NilObjectID email false zeroTime zeroTime in
      '(newUser, err) <- Create newUser ;;
      match err with
      | Some err => ret (inl err)
      | None => ret (inr newUser)
      end
  end.

Definition EnsureIndexes : Prog (option error) :=
  call users_Indexes_CreateOne.

End UserRepo.

Module FeedbackRepo.

Definition Create (feedback : Feedback.t) : Prog (Feedback.t * option error) :=
  now <- call time_Now ;;
  let feedback := Feedback.withCreatedAt now feedback in
  result <- call (feedbacks_InsertOne feedback) ;;
  match result with
  | inl err => ret (feedback, Some err)
  | inr id => ret (Feedback.withID id feedback, None)
  end.

Definition FindByIdempotencyKey (key : string) : Prog (error + option Feedback.t) :=
  r <- call (feedbacks_FindOne key) ;;
  match r with
  | inl err =>
      if error_eqb_NoDocuments err then ret (inr None)
      else ret (inl err)
  | inr feedback => ret (inr (Some feedback))
  end.

Definition EnsureIndexes : Prog (option error) :=
  call feedbacks_Indexes_CreateMany.

End FeedbackRepo.

(* ------------------------------------------------------------------ *)
(** ** internal/slack *)

(** [type Notifier interface { Publish(ctx, message string) error }]. *)
Class Notifier (T : Type) : Type := {
  Publish : T -> string -> Prog (option error)
}.

Inductive MockSlack : Type := NewMockSlack.

#[global] Instance MockSlack_Notifier : Notifier MockSlack := {
  Publish := fun _ message =>
    call (log_Printf ("📨 [MockSlack] Published to Slack channel: " ++ message)) ;;
    ret None
}.

(* ------------------------------------------------------------------ *)
(** ** internal/handlers *)

(** [writeJSON] sets the content type, writes the status and encodes the
    data; every branch of every handler ends with it, so a handler is a
    program that returns what it wrote. *)
Definition writeJSON (status : Z) (data : Payload) : Prog Response :=
  ret (mkResponse status data).

Definition login_email_html (link : string) : string :=
  "
			<div style=" ++ dq ++ "font-family: sans-serif; max-width: 480px; margin: 0 auto; padding: 24px;" ++ dq ++ ">
				<h2 style=" ++ dq ++ "color: #333;" ++ dq ++ ">Welcome to Rizon! 🚀</h2>
				<p>Click the button below to log in to your account:</p>
				<a href=" ++ dq
  ++ link ++
  dq ++ " style=" ++ dq ++ "display: inline-block; background: #6366f1; color: white; padding: 12px 24px; border-radius: 8px; text-decoration: none; font-weight: 600;" ++ dq ++ ">
					Open Rizon App
				</a>
				<p style=" ++ dq ++ "color: #888; font-size: 14px; margin-top: 16px;" ++ dq ++ ">
					This link expires in 15 minutes and can only be used once.
				</p>
				<p style=" ++ dq ++ "color: #aaa; font-size: 12px;" ++ dq ++ ">
					If you didn't request this, you can safely ignore this email.
				</p>
			</div>
		".

Definition sendLoginEmail (to link : string) : Prog (option error) :=
  apiKey <- call (os_Getenv "RESEND_API_KEY") ;;
  fromEmail <- call (os_Getenv "FROM_EMAIL") ;;
  if String.eqb apiKey EmptyString then
    call (log_Printf "⚠️  RESEND_API_KEY not set, skipping email send") ;;
    call (log_Printf ("📧 [Dev Mode] Login link for " ++ to ++ ": " ++ link)) ;;
    ret None
  else
    let params :=
      {| From := fromEmail;
         To := [to];
         Subject := "Your Rizon Login Link";
         Html := login_email_html link |} in
    r <- call (resend_Emails_Send apiKey params) ;;
    match r with
    | inl err => ret (Some (Errorf "failed to send email: " err))
    | inr sentId =>
        call (log_Printf ("📧 Email sent successfully (ID: " ++ sentId
                          ++ ") — Link: " ++ link)) ;;
        ret None
    end.

Module AuthHandler.

(** The handler's repositories are handles on the collections of the
    world; what is left of the struct is the signing secret. *)
Record t : Type := NewAuthHandler { jwtSecret : string }.

Record RequestLoginRequest : Type := mkRequestLoginRequest { Email : string }.

(** What RequestLogin reads of the [*http.Request]: the body as the JSON
    decoder returns it ([None] when decoding fails), whether the
    connection is TLS, the X-Forwarded-Proto header and the host. *)
Record LoginHTTP : Type := mkLoginHTTP {
  Body : option RequestLoginRequest;
  TLS : bool;
  XForwardedProto : string;
  Host : string
}.

(** POST /auth/request *)
Definition RequestLogin (h : t) (r : LoginHTTP) : Prog Response :=
  match Body r with
  | None =>
      writeJSON StatusBadRequest (JSONStrings [("error", "invalid request body")])
  | Some req =>
    if String.eqb (Email req) EmptyString then
      writeJSON StatusBadRequest (JSONStrings [("error", "email is required")])
    else
      (* Rate limiting: max 5 requests per email in 10 minutes *)
      c <- AuthTokenRepo.CountRecentByEmail (Email req) (10 * Minute) ;;
      match c with
      | inl err =>
          call (log_Printf ("Error checking rate limit: " ++ Error err)) ;;
          writeJSON StatusInternalServerError
                    (JSONStrings [("error", "internal server error")])
      | inr count =>
        if 5 <=? count then
          writeJSON StatusTooManyRequests
            (JSONStrings [("error", "too many login requests, please try again later")])
        else
          (* Generate unique token *)
          tokenValue <- call uuid_New ;;
          (* Store token in DB with 15-minute expiry *)
          now <- call time_Now ;;
          let authToken :=
            AuthToken.mk NilObjectID (Email req) tokenValue
                         (Add now (15 * Minute)) false zeroTime in
          '(authToken, err) <- AuthTokenRepo.Create authToken ;;
          match err with
          | Some err =>
              call (log_Printf ("Error creating auth token: " ++ Error err)) ;;
              writeJSON StatusInternalServerError
                        (JSONStrings [("error", "failed to create login token")])
          | None =>
              baseURL <- call (os_Getenv "BASE_URL") ;;
              let baseURL :=
                if String.eqb baseURL EmptyString then
                  let scheme :=
                    if TLS r || String.eqb (XForwardedProto r) "https"
                    then "https" else "http" in
                  scheme ++ "://" ++ Host r
                else baseURL in
              let emailLink := baseURL ++ "/auth/redirect?token=" ++ tokenValue in
              err <- sendLoginEmail (Email req) emailLink ;;
              match err with
              | Some err =>
                  call (log_Printf ("Error sending email: " ++ Error err)) ;;
                  (* Don't fail the request: token is created, email sending
                     is best-effort *)
                  writeJSON StatusOK
                    (JSONStrings
                       [("message", "login link generated (email delivery may be delayed)");
                        ("note", "check server logs if email was not received")])
              | None =>
                  writeJSON StatusOK
                    (JSONStrings [("message", "login link sent to your email")])
              end
          end
      end
  end.

(** GET /auth/verify; [tokenValue] is [r.URL.Query().Get("token")]. *)
Definition VerifyToken (h : t) (tokenValue : string) : Prog Response :=
  if String.eqb tokenValue EmptyString then
    writeJSON StatusBadRequest (JSONStrings [("error", "token is required")])
  else
    (* Find token in DB *)
    found <- AuthTokenRepo.FindByToken tokenValue ;;
    match found with
    | inl err =>
        call (log_Printf ("Error finding token: " ++ Error err)) ;;
        writeJSON StatusInternalServerError
                  (JSONStrings [("error", "internal server error")])
    | inr None =>
        writeJSON StatusUnauthorized (JSONStrings [("error", "invalid token")])
    | inr (Some authToken) =>
        (* Validate: not expired *)
        expired <- IsExpired authToken ;;
        if expired : bool then
          writeJSON StatusUnauthorized (JSONStrings [("error", "token has expired")])
        (* Validate: not already used (single-use) *)
        else if AuthToken.IsUsed authToken then
          writeJSON StatusUnauthorized
                    (JSONStrings [("error", "token has already been used")])
        else
          (* Mark token as used *)
          err <- AuthTokenRepo.MarkUsed tokenValue ;;
          match err with
          | Some err =>
              call (log_Printf ("Error marking token as used: " ++ Error err)) ;;
              writeJSON StatusInternalServerError
                        (JSONStrings [("error", "internal server error")])
          | None =>
              (* Find or create user *)
              u <- UserRepo.FindOrCreate (AuthToken.Email authToken) ;;
              match u with
              | inl err =>
                  call (log_Printf ("Error finding/creating user: " ++ Error err)) ;;
                  writeJSON StatusInternalServerError
                            (JSONStrings [("error", "internal server error")])
              | inr user =>
                  (* Generate JWT with 30-day expiry *)
                  expNow <- call time_Now ;;
                  iatNow <- call time_Now ;;
                  let claims :=
                    {| claim_user_id := Hex (User.ID user);
                       claim_email := User.Email user;
                       claim_exp := Unix (Add expNow (30 * 24 * Hour));
                       claim_iat := Unix iatNow |} in
                  signed <- call (jwt_SignedString claims (jwtSecret h)) ;;
                  match signed with
                  | inl err =>
                      call (log_Printf ("Error signing JWT: " ++ Error err)) ;;
                      writeJSON StatusInternalServerError
                                (JSONStrings [("error", "internal server error")])
                  | inr tokenString =>
                      writeJSON StatusOK
                        (JSONVerify {| Token := tokenString; User := user |})
                  end
              end
          end
    end.

End AuthHandler.

(** [for i := 0; i < rating; i++ { stars += star }]. *)
Fixpoint repeat_string (n : nat) (s : string) : string :=
  match n with
  | O => EmptyString
  | S k => s ++ repeat_string k s
  end.

(** The two non-ASCII literals of formatSlackMessage, byte for byte as the
    source file holds them. *)
Definition star_literal : string := bytes [195; 162; 194; 173]%nat.
Definition memo_literal : string := bytes [195; 176; 197; 184; 226; 128; 156]%nat.

Definition formatSlackMessage (userID text : string) (rating : Z) : string :=
  let stars := repeat_string (Z.to_nat rating) star_literal in
  memo_literal ++ " *New Feedback Received*" ++ lf ++
  "User: `" ++ userID ++ "`" ++ lf ++
  "Rating: " ++ stars ++ lf ++
  "Feedback: " ++ text.

Module FeedbackHandler.

Record SubmitFeedbackRequest : Type := mkSubmitFeedbackRequest {
  Text : string;
  Rating : Z;
  IdempotencyKey : string
}.

(** What SubmitFeedback reads of the request: the user the JWT middleware
    left in the context (empty when there is none) and the decoded body. *)
Record FeedbackHTTP : Type := mkFeedbackHTTP {
  UserIDHex : string;
  Body : option SubmitFeedbackRequest
}.

(** The goroutine SubmitFeedback launches, for the notifier the handler
    was built with. *)
Definition notify (T : Type) `{Notifier T} (notifier : T) (message : string)
  : Prog unit :=
  err <- Publish notifier message ;;
  match err with
  | Some err => call (log_Printf ("Error publishing to Slack: " ++ Error err))
  | None => ret tt
  end.

(** POST /feedback *)
Definition SubmitFeedback (r : FeedbackHTTP) : Prog Response :=
  let userIDHex := UserIDHex r in
  if String.eqb userIDHex EmptyString then
    writeJSON StatusUnauthorized (JSONStrings [("error", "unauthorized")])
  else
    match Body r with
    | None =>
        writeJSON StatusBadRequest (JSONStrings [("error", "invalid request body")])
    | Some req =>
      if String.eqb (Text req) EmptyString then
        writeJSON StatusBadRequest (JSONStrings [("error", "feedback text is required")])
      else if String.eqb (IdempotencyKey req) EmptyString then
        writeJSON StatusBadRequest (JSONStrings [("error", "idempotency_key is required")])
      else
        (* Idempotency check: prevent duplicate submissions *)
        existing <- FeedbackRepo.FindByIdempotencyKey (IdempotencyKey req) ;;
        match existing with
        | inl err =>
            call (log_Printf ("Error checking idempotency: " ++ Error err)) ;;
            writeJSON StatusInternalServerError
                      (JSONStrings [("error", "internal server error")])
        | inr (Some existing) =>
            (* Already submitted: return the existing feedback *)
            writeJSON StatusOK (JSONFeedback "feedback already submitted" existing)
        | inr None =>
            match ObjectIDFromHex userIDHex with
            | inl _ =>
                writeJSON StatusBadRequest (JSONStrings [("error", "invalid user ID")])
            | inr userID =>
                let feedback :=
                  Feedback.mk NilObjectID userID (Text req) (Rating req)
                              (IdempotencyKey req) zeroTime in
                '(feedback, err) <- FeedbackRepo.Create feedback ;;
                match err with
                | Some err =>
                    call (log_Printf ("Error creating feedback: " ++ Error err)) ;;
                    writeJSON StatusInternalServerError
                              (JSONStrings [("error", "failed to submit feedback")])
                | None =>
                    (* Fire Slack notification in a background goroutine *)
                    call (go_Publish
                            (formatSlackMessage userIDHex (Text req) (Rating req))) ;;
                    writeJSON StatusCreated
                              (JSONFeedback "feedback submitted successfully" feedback)
                end
            end
        end
    end.

End FeedbackHandler.

(* ------------------------------------------------------------------ *)
(** ** Observations on a world *)

(** What the clock shows the next time it is read, and the world that
    reading leaves. *)
Definition reading (w : World) : Time := fst (exec time_Now w).
Definition tick (w : World) : World := snd (exec time_Now w).

(** Whether the server serves the next request it gets, and the world once
    it has taken that request (served or not). *)
Definition served (w : World) : bool := negb (fst (next_fault (store w))).
Definition answered (w : World) : World := set_store (snd (next_fault (store w))) w.

(** The record a lookup by token value, by email, by idempotency key
    returns. *)
Definition token_record (token : string) (w : World) : option AuthToken.t :=
  find_first (by_token token) (auth_tokens (store w)).
Definition user_record (email : string) (w : World) : option User.t :=
  find_first (by_email email) (users (store w)).
Definition feedback_record (key : string) (w : World) : option Feedback.t :=
  find_first (by_idempotency_key key) (feedbacks (store w)).

(** The world after a line was logged, after the update of MarkUsed was
    applied, after [uuid.New], after the mail API took a message, after a
    goroutine was launched for a Slack message. *)
Definition logged (line : string) (w : World) : World := set_log (log w ++ [line]) w.

Definition mark_used (token : string) (w : World) : World :=
  set_store (set_auth_tokens
               (update_first (by_token token) (AuthToken.withIsUsed true)
                             (auth_tokens (store w))) (store w)) w.

Definition drew (w : World) : World := set_drawn (S (drawn w)) w.

Definition delivered (params : SendEmailRequest) (w : World) : World :=
  set_outbox (outbox w ++ [params]) w.

Definition launched (message : string) (w : World) : World :=
  set_goroutines (goroutines w ++ [message]) w.

(* ------------------------------------------------------------------ *)
(** ** The answers of the handlers *)

Definition internal_server_error : Response :=
  mkResponse StatusInternalServerError (JSONStrings [("error", "internal server error")]).

(** GET /auth/verify *)
Definition invalid_token : Response :=
  mkResponse StatusUnauthorized (JSONStrings [("error", "invalid token")]).
Definition token_expired : Response :=
  mkResponse StatusUnauthorized (JSONStrings [("error", "token has expired")]).
Definition token_already_used : Response :=
  mkResponse StatusUnauthorized (JSONStrings [("error", "token has already been used")]).
Definition session (tokenString : string) (user : User.t) : Response :=
  mkResponse StatusOK (JSONVerify {| Token := tokenString; User := user |}).

(** POST /auth/request *)
Definition too_many_requests : Response :=
  mkResponse StatusTooManyRequests
             (JSONStrings [("error", "too many login requests, please try again later")]).
Definition login_token_failed : Response :=
  mkResponse StatusInternalServerError
             (JSONStrings [("error", "failed to create login token")]).
Definition link_delayed : Response :=
  mkResponse StatusOK
    (JSONStrings [("message", "login link generated (email delivery may be delayed)");
                  ("note", "check server logs if email was not received")]).
Definition link_sent : Response :=
  mkResponse StatusOK (JSONStrings [("message", "login link sent to your email")]).

(** POST /feedback *)
Definition feedback_exists (existing : Feedback.t) : Response :=
  mkResponse StatusOK (JSONFeedback "feedback already submitted" existing).
Definition feedback_created (feedback : Feedback.t) : Response :=
  mkResponse StatusCreated (JSONFeedback "feedback submitted successfully" feedback).
Definition feedback_failed : Response :=
  mkResponse StatusInternalServerError (JSONStrings [("error", "failed to submit feedback")]).
Definition invalid_user_id : Response :=
  mkResponse StatusBadRequest (JSONStrings [("error", "invalid user ID")]).

(* ------------------------------------------------------------------ *)
(** ** What the handlers build on their way *)

(** The struct FindOrCreate hands to the insert, with the two clock readings
    of [UserRepo.Create] in it. *)
Definition new_user (email : string) (w : World) : User.t :=
  User.mk NilObjectID email false (reading w) (reading (tick w)).

(** The claims VerifyToken signs for [user], from the two clock readings it
    makes for them. *)
Definition session_claims (user : User.t) (expNow iatNow : Time) : MapClaims :=
  {| claim_user_id := Hex (User.ID user);
     claim_email := User.Email user;
     claim_exp := Unix (Add expNow (30 * 24 * Hour));
     claim_iat := Unix iatNow |}.

(** What VerifyToken does with the record [a] its lookup returned, in the
    world [w1] it finds after the lookup: the answer and the world it
    leaves. *)
Definition redeem_found (h : AuthHandler.t) (tok : string) (a : AuthToken.t) (w1 : World)
  : Response * World :=
  if After (reading w1) (AuthToken.ExpiresAt a) then (token_expired, tick w1)
  else if AuthToken.IsUsed a then (token_already_used, tick w1)
  else
    let w2 := tick w1 in
    if served w2 then
      let fc := run (UserRepo.FindOrCreate (AuthToken.Email a))
                    (mark_used tok (answered w2)) in
      match fst fc with
      | inl err =>
          (internal_server_error,
           logged ("Error finding/creating user: " ++ Error err) (snd fc))
      | inr user =>
          let w3 := snd fc in
          let w4 := tick (tick w3) in
          match signer w4 (session_claims user (reading w3) (reading (tick w3)))
                       (AuthHandler.jwtSecret h) with
          | inl err =>
              (internal_server_error, logged ("Error signing JWT: " ++ Error err) w4)
          | inr tokenString => (session tokenString user, w4)
          end
      end
    else
      (internal_server_error,
       logged ("Error marking token as used: " ++ Error unavailable) (answered w2)).

(** The struct RequestLogin hands to [AuthTokenRepo.Create] for the token
    value [tokenValue] at time [now], the link it mails and the message it
    hands to the mail API. *)
Definition login_token (email tokenValue : string) (now : Time) : AuthToken.t :=
  AuthToken.mk NilObjectID email tokenValue (Add now (15 * Minute)) false zeroTime.

Definition login_link (r : AuthHandler.LoginHTTP) (w : World) (tokenValue : string) : string :=
  (if String.eqb (environ w "BASE_URL") EmptyString then
     (if AuthHandler.TLS r || String.eqb (AuthHandler.XForwardedProto r) "https"
      then "https" else "http") ++ "://" ++ AuthHandler.Host r
   else environ w "BASE_URL")
  ++ "/auth/redirect?token=" ++ tokenValue.

Definition login_email (w : World) (to link : string) : SendEmailRequest :=
  {| From := environ w "FROM_EMAIL";
     To := [to];
     Subject := "Your Rizon Login Link";
     Html := login_email_html link |}.

(** The struct SubmitFeedback hands to [FeedbackRepo.Create]. *)
Definition new_feedback (userID : ObjectID) (req : FeedbackHandler.SubmitFeedbackRequest)
  : Feedback.t :=
  Feedback.mk NilObjectID userID (FeedbackHandler.Text req) (FeedbackHandler.Rating req)
              (FeedbackHandler.IdempotencyKey req) zeroTime.

(* ------------------------------------------------------------------ *)
(** ** Notions of the specification *)

(** The count of the rate limiter in the words of the specification: the
    records of [email] created within the [window] that ends at [now]. *)
Fixpoint issued_within (email : string) (now : Time) (window : Duration)
         (l : list AuthToken.t) : Z :=
  match l with
  | [] => 0
  | a :: rest =>
      (if String.eqb (AuthToken.Email a) email && (now - window <=? AuthToken.CreatedAt a)
       then 1 else 0) + issued_within email now window rest
  end.

(** The count as the program takes it: the store receives the start of the
    window and holds the creation times in whole milliseconds, and compares
    those. *)
Fixpoint issued_within_ms (email : string) (now : Time) (window : Duration)
         (l : list AuthToken.t) : Z :=
  match l with
  | [] => 0
  | a :: rest =>
      (if String.eqb (AuthToken.Email a) email
          && (NewDateTimeFromTime (now - window)
              <=? NewDateTimeFromTime (AuthToken.CreatedAt a))
       then 1 else 0) + issued_within_ms email now window rest
  end.

(** A feedback request that passes the checks SubmitFeedback makes before
    it looks the idempotency key up, and carries the key [key]. *)
Definition submits (key : string) (r : FeedbackHandler.FeedbackHTTP) : Prop :=
  FeedbackHandler.UserIDHex r <> EmptyString /\
  exists req, FeedbackHandler.Body r = Some req /\
              FeedbackHandler.Text req <> EmptyString /\
              FeedbackHandler.IdempotencyKey req = key.

(** Feedback requests served one after the other. *)
Fixpoint serve_all (rs : list FeedbackHandler.FeedbackHTTP) (w : World)
  : list Response * World :=
  match rs with
  | [] => ([], w)
  | r :: rest =>
      let (resp, w1) := run (FeedbackHandler.SubmitFeedback r) w in
      let (resps, w2) := serve_all rest w1 in
      (resp :: resps, w2)
  end.

(* ------------------------------------------------------------------ *)
(** ** Sample worlds and requests *)

(** A server with the three unique indexes declared and nothing stored, a
    clock that stands at 0, a process without mail API key whose signer
    always signs and whose mail API refuses every message. *)
Definition sample_signer (c : MapClaims) (key : string) : error + string :=
  inr ("HS256(" ++ claim_user_id c ++ "," ++ claim_email c ++ ")/" ++ key).

Definition sample_store : Store := mkStore [] [] [] true true true true 0%N [].

Definition sample_world : World :=
  mkWorld 0 [] (fun n => "uuid-" ++ Hex (N.of_nat n)) O (fun _ => EmptyString)
          (fun _ _ => inl (ErrExternal "resend: service unavailable"))
          sample_signer sample_store [] [] [].

Definition sample_handler : AuthHandler.t := AuthHandler.NewAuthHandler "secret".

(** The same process with a mail API key. *)
Definition mail_world : World :=
  mkWorld 0 [] (entropy sample_world) O
          (fun key => if String.eqb key "RESEND_API_KEY" then "re_test_key" else EmptyString)
          (resend sample_world) sample_signer sample_store [] [] [].

(** The record of a token issued at [created] while the clock stood still. *)
Definition issued (id : ObjectID) (email token : string) (created : Time) : AuthToken.t :=
  AuthToken.mk id email token (Add created (15 * Minute)) false created.

(** One login token for new@ex.com, issued at time 0, and a clock that
    shows [now] and then advances as [ds] says. *)
Definition login_world (now : Time) (ds : list N) : World :=
  set_clock now ds
    (set_store (set_oid_counter 1%N
                  (set_auth_tokens [issued 1%N "new@ex.com" "t-1" 0] sample_store))
               sample_world).

(** Five tokens for a@ex.com, issued one a minute from time 0 on, and a
    clock that shows [now]. *)
Definition busy_world (now : Time) : World :=
  set_clock now []
    (set_store
       (set_oid_counter 5%N
          (set_auth_tokens
             [issued 1%N "a@ex.com" "t-1" 0;
              issued 2%N "a@ex.com" "t-2" (1 * Minute);
              issued 3%N "a@ex.com" "t-3" (2 * Minute);
              issued 4%N "a@ex.com" "t-4" (3 * Minute);
              issued 5%N "a@ex.com" "t-5" (4 * Minute)] sample_store))
       sample_world).

Definition login_request (email : string) : AuthHandler.LoginHTTP :=
  AuthHandler.mkLoginHTTP (Some (AuthHandler.mkRequestLoginRequest email))
                          false EmptyString "api.rizon.app".

Definition feedback_request (userIDHex text : string) (rating : Z) (key : string)
  : FeedbackHandler.FeedbackHTTP :=
  FeedbackHandler.mkFeedbackHTTP
    userIDHex (Some (FeedbackHandler.mkSubmitFeedbackRequest text rating key)).

(* ------------------------------------------------------------------ *)
(** ** Start-up *)

(** [main], the step between connecting and building the handlers: the
    three [EnsureIndexes], each failure logged as a warning. *)
Definition main_ensure_indexes : Prog unit :=
  err <- UserRepo.EnsureIndexes ;;
  match err with
  | Some err =>
      call (log_Printf ("⚠️  Warning: failed to create user indexes: " ++ Error err))
  | None => ret tt
  end ;;
  err <- AuthTokenRepo.EnsureIndexes ;;
  match err with
  | Some err =>
      call (log_Printf ("⚠️  Warning: failed to create token indexes: " ++ Error err))
  | None => ret tt
  end ;;
  err <- FeedbackRepo.EnsureIndexes ;;
  match err with
  | Some err =>
      call (log_Printf ("⚠️  Warning: failed to create feedback indexes: " ++ Error err))
  | None => ret tt
  end.

(* ------------------------------------------------------------------ *)
(** ** The user handler *)

(** GetStatus and CompleteOnboarding reach the users by [_id], with two
    requests of their own.  They are written in state-passing style over
    the same world; a program of the handlers above enters by [perform]. *)
Definition Act (A : Type) : Type := World -> A * World.

#[global] Instance Monad_Act : Monad Act :=
  {| ret := fun _ a w => (a, w);
     bind := fun _ _ m f w => f (fst (m w)) (snd (m w)) |}.

Definition perform (A : Type) (p : Prog A) : Act A := run p.

Definition by_id (id : ObjectID) (u : User.t) : bool := (User.ID u =? id)%N.

(** [FindOne] on users, filtered by [_id]. *)
Definition users_FindOne_id (id : ObjectID) : Act (error + User.t) :=
  on_store (find_one users (by_id id)).

(** [UpdateOne] on users, filtered by [_id], setting [onboarding_completed]
    and [updated_at]: the first user with the id gets the two fields set;
    without a match the request is served all the same and nothing
    changes. *)
Definition users_UpdateOne_set_onboarding (id : ObjectID) (completed : bool) (now : Time)
  : Act (option error) :=
  on_store (fun s0 =>
    let (down, s) := next_fault s0 in
    if down then (Some unavailable, s)
    else (None,
          set_users
            (update_first (by_id id)
               (fun u => User.mk (User.ID u) (User.Email u) completed
                                 (User.CreatedAt u) (through_bson now))
               (users s)) s)).

(** The two methods of [UserRepo] that work by id. *)
Module UserRepoByID.

Definition FindByID (id : ObjectID) : Act (error + option User.t) :=
  r <- users_FindOne_id id ;;
  match r with
  | inl err =>
      if error_eqb_NoDocuments err then ret (inr None)
      else ret (inl err)
  | inr user => ret (inr (Some user))
  end.

Definition UpdateOnboarding (id : ObjectID) (completed : bool) : Act (option error) :=
  now <- perform (call time_Now) ;;
  users_UpdateOne_set_onboarding id completed now.

End UserRepoByID.

(** What the user handler hands to [writeJSON]: a [map[string]string], or
    the [map[string]interface{}] of GetStatus with its one entry. *)
Inductive UserPayload : Type :=
| UserJSONStrings (fields : list (string * string))
| UserJSONStatus (onboarding_completed : bool).

Record UserResponse : Type := mkUserResponse {
  user_status : Z;
  user_payload : UserPayload
}.

Module UserHandler.

Definition writeJSON (status : Z) (data : UserPayload) : Act UserResponse :=
  ret (mkUserResponse status data).

(** GET /user/status, for the user id the JWT middleware left in the
    context (empty when there is none). *)
Definition GetStatus (userIDHex : string) : Act UserResponse :=
  if String.eqb userIDHex EmptyString then
    writeJSON StatusUnauthorized (UserJSONStrings [("error", "unauthorized")])
  else
    match ObjectIDFromHex userIDHex with
    | inl _ => writeJSON StatusBadRequest (UserJSONStrings [("error", "invalid user ID")])
    | inr userID =>
        r <- UserRepoByID.FindByID userID ;;
        match r with
        | inl err =>
            perform (call (log_Printf ("Error finding user: " ++ Error err))) ;;
            writeJSON StatusInternalServerError
                      (UserJSONStrings [("error", "internal server error")])
        | inr None =>
            writeJSON StatusNotFound (UserJSONStrings [("error", "user not found")])
        | inr (Some user) =>
            writeJSON StatusOK (UserJSONStatus (User.OnboardingCompleted user))
        end
    end.

(** PATCH /user/onboarding *)
Definition CompleteOnboarding (userIDHex : string) : Act UserResponse :=
  if String.eqb userIDHex EmptyString then
    writeJSON StatusUnauthorized (UserJSONStrings [("error", "unauthorized")])
  else
    match ObjectIDFromHex userIDHex with
    | inl _ => writeJSON StatusBadRequest (UserJSONStrings [("error", "invalid user ID")])
    | inr userID =>
        err <- UserRepoByID.UpdateOnboarding userID true ;;
        match err with
        | Some err =>
            perform (call (log_Printf ("Error updating onboarding: " ++ Error err))) ;;
            writeJSON StatusInternalServerError
                      (UserJSONStrings [("error", "failed to update onboarding status")])
        | None =>
            writeJSON StatusOK
                      (UserJSONStrings [("message", "onboarding marked as completed")])
        end
    end.

End UserHandler.

(* ------------------------------------------------------------------ *)
(** ** Further observations and answers *)

(** The user a lookup by id returns. *)
Definition user_by_id (id : ObjectID) (w : World) : option User.t :=
  find_first (by_id id) (users (store w)).

(** What CompleteOnboarding makes of the user it matches, at time [now]. *)
Definition onboarded (now : Time) (u : User.t) : User.t :=
  User.mk (User.ID u) (User.Email u) true (User.CreatedAt u) now.

(** The answer of VerifyToken to a request without a token. *)
Definition token_required : Response :=
  mkResponse StatusBadRequest (JSONStrings [("error", "token is required")]).

(** The answers of SubmitFeedback to a request it does not take up. *)
Definition unauthorized : Response :=
  mkResponse StatusUnauthorized (JSONStrings [("error", "unauthorized")]).
Definition invalid_request_body : Response :=
  mkResponse StatusBadRequest (JSONStrings [("error", "invalid request body")]).
Definition feedback_text_required : Response :=
  mkResponse StatusBadRequest (JSONStrings [("error", "feedback text is required")]).
Definition idempotency_key_required : Response :=
  mkResponse StatusBadRequest (JSONStrings [("error", "idempotency_key is required")]).

(** The answers of the user handler. *)
Definition onboarding_status (completed : bool) : UserResponse :=
  mkUserResponse StatusOK (UserJSONStatus completed).
Definition onboarding_completed : UserResponse :=
  mkUserResponse StatusOK (UserJSONStrings [("message", "onboarding marked as completed")]).
Definition user_not_found : UserResponse :=
  mkUserResponse StatusNotFound (UserJSONStrings [("error", "user not found")]).
Definition user_lookup_failed : UserResponse :=
  mkUserResponse StatusInternalServerError
                 (UserJSONStrings [("error", "internal server error")]).
Definition onboarding_failed : UserResponse :=
  mkUserResponse StatusInternalServerError
                 (UserJSONStrings [("error", "failed to update onboarding status")]).

(* ------------------------------------------------------------------ *)
(** ** Further sample worlds *)

(** A process with a mail API key whose mail API takes every message. *)
Definition delivering_world : World :=
  mkWorld 0 [] (entropy sample_world) O
          (fun key => if String.eqb key "RESEND_API_KEY" then "re_test_key"
                      else if String.eqb key "FROM_EMAIL" then "login@rizon.app"
                      else EmptyString)
          (fun _ _ => inr "msg-1") sample_signer sample_store [] [] [].

(** A world with the server failing the coming requests as [fs] says. *)
Definition failing (fs : list bool) (w : World) : World :=
  set_store (set_faults fs (store w)) w.

(** A server that came up without the unique indexes, one user stored. *)
Definition unindexed_world : World :=
  set_store (mkStore [] [User.mk 1%N "new@ex.com" false 0 0] [] false false false false 1%N [])
            sample_world.


(* ------------------------------------------------------------------ *)
(** ** Running programs *)

(** [run] of a sequence, of a single call, of the final [writeJSON]. *)
Lemma run_bind (A B : Type) (p : Prog A) (f : A -> Prog B) (w : World) :
  run (pbind p f) w = run (f (fst (run p w))) (snd (run p w)).
Proof.
  revert w; induction p as [a | X op k IH]; intros w; simpl.
  - reflexivity.
  - destruct (exec op w) as [x w']. apply IH.
Qed.

Lemma run_call (X : Type) (op : Op X) (w : World) : run (call op) w = exec op w.
Proof. unfold call; simpl. destruct (exec op w); reflexivity. Qed.

Lemma run_Vis (A X : Type) (op : Op X) (k : X -> Prog A) (w : World) :
  run (Vis op k) w = run (k (fst (exec op w))) (snd (exec op w)).
Proof. simpl. destruct (exec op w); reflexivity. Qed.

Lemma run_step (A : Type) (p : Prog A) (w : World) :
  run p w = run (fst (step p w)) (snd (step p w)).
Proof.
  destruct p as [a|X op k]; simpl; [reflexivity|].
  destruct (exec op w); reflexivity.
Qed.

Lemma run_writeJSON (s : Z) (d : Payload) (w : World) :
  run (writeJSON s d) w = (mkResponse s d, w).
Proof. reflexivity. Qed.

Lemma exec_time_Now (w : World) : exec time_Now w = (reading w, tick w).
Proof. reflexivity. Qed.

Lemma exec_log_Printf (line : string) (w : World) : exec (log_Printf line) w = (tt, logged line w).
Proof. reflexivity. Qed.

Lemma reading_le_tick (w : World) : reading w <= reading (tick w).
Proof. unfold reading, tick. cbn. lia. Qed.

(** *** Times through the store *)

(** What comes back of a time is the start of its millisecond. *)
Lemma through_bson_le (t : Time) : through_bson t <= t.
Proof.
  unfold through_bson, DateTime_Time, NewDateTimeFromTime, Millisecond, Nanosecond.
  pose proof (Z.mul_div_le t (1000000 * 1)). lia.
Qed.

Lemma through_bson_gt (t : Time) : t - Millisecond < through_bson t.
Proof.
  unfold through_bson, DateTime_Time, NewDateTimeFromTime, Millisecond, Nanosecond.
  pose proof (Z.mul_succ_div_gt t (1000000 * 1)). lia.
Qed.

Lemma through_bson_mono (t u : Time) : t <= u -> through_bson t <= through_bson u.
Proof.
  intros H. unfold through_bson, DateTime_Time, NewDateTimeFromTime.
  apply Z.mul_le_mono_nonneg_r; [unfold Millisecond, Nanosecond; lia|].
  apply Z.div_le_mono; [unfold Millisecond, Nanosecond; lia | exact H].
Qed.

Lemma through_bson_whole (k : Z) : through_bson (k * Millisecond) = k * Millisecond.
Proof.
  unfold through_bson, DateTime_Time, NewDateTimeFromTime.
  rewrite Z.div_mul by (unfold Millisecond, Nanosecond; lia). reflexivity.
Qed.

Lemma through_bson_idem (t : Time) : through_bson (through_bson t) = through_bson t.
Proof. unfold through_bson at 2, DateTime_Time. apply through_bson_whole. Qed.

Lemma through_bson_add_whole (t : Time) (k : Z) :
  through_bson (t + k * Millisecond) = through_bson t + k * Millisecond.
Proof.
  unfold through_bson, DateTime_Time, NewDateTimeFromTime.
  rewrite Z.div_add by (unfold Millisecond, Nanosecond; lia).
  apply Z.mul_add_distr_r.
Qed.

(** Against a bound in whole milliseconds, a time and the start of its
    millisecond compare alike. *)
Lemma through_bson_le_whole (t u : Time) :
  through_bson t <= through_bson u <-> through_bson t <= u.
Proof.
  split; intros H.
  - pose proof (through_bson_le u). lia.
  - rewrite <- (through_bson_idem t). apply through_bson_mono. exact H.
Qed.

Lemma User_bson_idem (u : User.t) : User.bson (User.bson u) = User.bson u.
Proof. unfold User.bson. cbn. rewrite !through_bson_idem. reflexivity. Qed.

Lemma eqb_empty_false (s : string) : s <> EmptyString -> String.eqb s EmptyString = false.
Proof. intros H. apply String.eqb_neq. exact H. Qed.

Lemma app_one_neq (A : Type) (l : list A) (x : A) : (l ++ [x])%list <> l.
Proof.
  intros H. apply (f_equal (@List.length A)) in H.
  rewrite length_app in H. cbn in H. lia.
Qed.

(** Unfold the monad notation down to [pbind] and [Ret], no further. *)
Ltac expose := cbn [bind ret Monad_Prog].

(** Two responses, or two of their parts, differ on their face. *)
Ltac differ :=
  cbn [fst snd status payload];
  unfold internal_server_error, token_expired, token_already_used, invalid_token,
         session, StatusOK, StatusCreated, StatusBadRequest, StatusUnauthorized,
         StatusTooManyRequests, StatusInternalServerError;
  cbn [fst snd status payload];
  first [discriminate | intros; discriminate | congruence].

(* ------------------------------------------------------------------ *)
(** ** Collections *)

(** *** Lists of documents *)

Lemma find_first_some (Doc : Type) (p : Doc -> bool) (l : list Doc) (d : Doc) :
  find_first p l = Some d -> p d = true /\ In d l.
Proof.
  induction l as [|x l IH]; simpl; [discriminate|].
  destruct (p x) eqn:E; intros H.
  - injection H as <-. auto.
  - destruct (IH H). auto.
Qed.

Lemma find_first_none (Doc : Type) (p : Doc -> bool) (l : list Doc) :
  find_first p l = None <-> existsb p l = false.
Proof.
  induction l as [|x l IH]; simpl; [tauto|].
  destruct (p x); simpl; [split; discriminate | exact IH].
Qed.

Lemma find_first_app_new (Doc : Type) (p : Doc -> bool) (l : list Doc) (d : Doc) :
  find_first p l = None -> p d = true -> find_first p (l ++ [d]) = Some d.
Proof.
  induction l as [|x l IH]; simpl; intros Hn Hp.
  - rewrite Hp. reflexivity.
  - destruct (p x); [discriminate | auto].
Qed.

Lemma find_first_update_first (Doc : Type) (p : Doc -> bool) (f : Doc -> Doc)
      (l : list Doc) (d : Doc) :
  find_first p l = Some d -> p (f d) = true ->
  find_first p (update_first p f l) = Some (f d).
Proof.
  induction l as [|x l IH]; simpl; [discriminate|].
  destruct (p x) eqn:E; intros H Hf; simpl.
  - injection H as <-. rewrite Hf. reflexivity.
  - rewrite E. auto.
Qed.

Lemma count_docs_app_one (Doc : Type) (p : Doc -> bool) (l : list Doc) (d : Doc) :
  count_docs p (l ++ [d]) = count_docs p l + (if p d then 1 else 0).
Proof.
  unfold count_docs. rewrite filter_app, length_app. simpl.
  destruct (p d); simpl; lia.
Qed.

Lemma count_docs_none (Doc : Type) (p : Doc -> bool) (l : list Doc) :
  find_first p l = None -> count_docs p l = 0.
Proof.
  unfold count_docs. induction l as [|x l IH]; simpl; [reflexivity|].
  destruct (p x); [discriminate | exact IH].
Qed.

Lemma count_docs_issued_within (email : string) (now : Time) (window : Duration)
      (l : list AuthToken.t) :
  count_docs (recent_for email (Add now (- window))) l = issued_within email now window l.
Proof.
  unfold count_docs. induction l as [|a l IH]; [reflexivity|].
  cbn [filter issued_within]. rewrite <- IH. unfold recent_for at 1, Add.
  change (now + - window) with (now - window).
  destruct (_ && _); cbn [List.length]; lia.
Qed.

Lemma NewDateTimeFromTime_le (t u : Time) :
  NewDateTimeFromTime t <= NewDateTimeFromTime u <-> through_bson t <= u.
Proof.
  rewrite <- through_bson_le_whole.
  unfold through_bson, DateTime_Time, Millisecond, Nanosecond. lia.
Qed.

Lemma count_docs_issued_within_ms (email : string) (now : Time) (window : Duration)
      (l : list AuthToken.t) :
  count_docs (recent_for email (through_bson (Add now (- window)))) l
  = issued_within_ms email now window l.
Proof.
  unfold count_docs. induction l as [|a l IH]; [reflexivity|].
  cbn [filter issued_within_ms]. rewrite <- IH. unfold recent_for at 1, Add.
  change (now + - window) with (now - window).
  assert (E : (through_bson (now - window) <=? AuthToken.CreatedAt a)
              = (NewDateTimeFromTime (now - window)
                 <=? NewDateTimeFromTime (AuthToken.CreatedAt a))).
  { pose proof (NewDateTimeFromTime_le (now - window) (AuthToken.CreatedAt a)).
    destruct (Z.leb_spec (through_bson (now - window)) (AuthToken.CreatedAt a));
      destruct (Z.leb_spec (NewDateTimeFromTime (now - window))
                           (NewDateTimeFromTime (AuthToken.CreatedAt a)));
      [reflexivity | lia | lia | reflexivity]. }
  rewrite E. destruct (_ && _); cbn [List.length]; lia.
Qed.

(** The count in whole milliseconds against the count of the
    specification: it takes every record of the window, and none that is a
    millisecond or more older. *)
Lemma issued_within_ms_bounds (email : string) (now : Time) (window : Duration)
      (l : list AuthToken.t) :
  issued_within email now window l <= issued_within_ms email now window l
  /\ issued_within_ms email now window l
     <= issued_within email now (window + Millisecond) l.
Proof.
  induction l as [|a l IH]; cbn [issued_within issued_within_ms]; [lia|].
  pose proof (NewDateTimeFromTime_le (now - window) (AuthToken.CreatedAt a)) as E.
  pose proof (through_bson_le (now - window)).
  pose proof (through_bson_gt (now - window)).
  destruct (String.eqb (AuthToken.Email a) email); cbn [andb]; [|lia].
  destruct (Z.leb_spec (now - window) (AuthToken.CreatedAt a));
    destruct (Z.leb_spec (NewDateTimeFromTime (now - window))
                         (NewDateTimeFromTime (AuthToken.CreatedAt a)));
    destruct (Z.leb_spec (now - (window + Millisecond)) (AuthToken.CreatedAt a));
    lia.
Qed.

(** *** Inserting *)

(** The branches of [insert_one], for the collection named by its ID
    projection and its unique index. *)
Ltac insert_cases id_of declared :=
  cbn [exec]; unfold on_store, insert_one; cbn;
  destruct (hd false (faults (store _))); cbn; [tauto|];
  match goal with
  | |- context [(id_of ?doc =? NilObjectID)%N] =>
      destruct (id_of doc =? NilObjectID)%N; cbn;
      (destruct (existsb _ _); cbn; [tauto|]);
      destruct (declared _ && _); cbn; tauto
  end.

Lemma tokens_InsertOne_world (doc : AuthToken.t) (w : World) :
  let r := exec (tokens_InsertOne doc) w in
  users (store (snd r)) = users (store w) /\
  feedbacks (store (snd r)) = feedbacks (store w) /\
  log (snd r) = log w /\ goroutines (snd r) = goroutines w /\
  outbox (snd r) = outbox w /\ environ (snd r) = environ w /\
  resend (snd r) = resend w /\
  match fst r with
  | inl _ => auth_tokens (store (snd r)) = auth_tokens (store w)
  | inr id => auth_tokens (store (snd r))
              = (auth_tokens (store w) ++ [AuthToken.bson (AuthToken.withID id doc)])%list
  end.
Proof. insert_cases AuthToken.ID unique_token. Qed.

(** What an insertion of a user leaves of the world. *)
Lemma users_InsertOne_world (doc : User.t) (w : World) :
  let r := exec (users_InsertOne doc) w in
  auth_tokens (store (snd r)) = auth_tokens (store w) /\
  feedbacks (store (snd r)) = feedbacks (store w) /\
  log (snd r) = log w /\ goroutines (snd r) = goroutines w /\
  outbox (snd r) = outbox w /\ signer (snd r) = signer w /\
  clock (snd r) = clock w /\ ticks (snd r) = ticks w /\
  faults (store (snd r)) = tl (faults (store w)) /\
  match fst r with
  | inl _ => users (store (snd r)) = users (store w)
  | inr id => users (store (snd r))
              = (users (store w) ++ [User.bson (User.withID id doc)])%list
  end.
Proof. insert_cases User.ID unique_email. Qed.

Lemma feedbacks_InsertOne_world (doc : Feedback.t) (w : World) :
  let r := exec (feedbacks_InsertOne doc) w in
  match fst r with
  | inl _ => feedbacks (store (snd r)) = feedbacks (store w)
  | inr id => feedbacks (store (snd r))
              = (feedbacks (store w) ++ [Feedback.bson (Feedback.withID id doc)])%list
  end.
Proof. insert_cases Feedback.ID unique_idempotency_key. Qed.

Lemma tokens_InsertOne_accepts (doc : AuthToken.t) (w : World) :
  served w = true ->
  AuthToken.ID doc = NilObjectID ->
  Forall (fun a => (AuthToken.ID a <= oid_counter (store w))%N) (auth_tokens (store w)) ->
  token_record (AuthToken.Token doc) w = None ->
  fst (exec (tokens_InsertOne doc) w) = inr (N.succ (oid_counter (store w))).
Proof.
  unfold served, token_record. intros Hup Hid Hfresh Hnew.
  cbn [exec]. unfold on_store, insert_one. cbn.
  cbn in Hup. destruct (hd false (faults (store w))); [discriminate|]. cbn.
  rewrite Hid. cbn.
  assert (Hclash : existsb (fun d => (AuthToken.ID d =? N.succ (oid_counter (store w)))%N)
                           (auth_tokens (store w)) = false).
  { clear Hnew. induction Hfresh as [|u l Hu _ IH]; [reflexivity|].
    cbn. rewrite IH. rewrite orb_false_r. apply N.eqb_neq. lia. }
  rewrite Hclash.
  apply find_first_none in Hnew. unfold by_token in Hnew. rewrite Hnew.
  rewrite andb_false_r. reflexivity.
Qed.

(** An insertion the server serves is accepted when the document brings no
    [_id], the counter behind the fresh ObjectIDs is ahead of the stored
    ones, and no stored user has the email. *)
Lemma users_InsertOne_accepts (doc : User.t) (w : World) :
  served w = true ->
  User.ID doc = NilObjectID ->
  Forall (fun u => (User.ID u <= oid_counter (store w))%N) (users (store w)) ->
  user_record (User.Email doc) w = None ->
  fst (exec (users_InsertOne doc) w) = inr (N.succ (oid_counter (store w))).
Proof.
  unfold served, user_record. intros Hup Hid Hfresh Hnew.
  cbn [exec]. unfold on_store, insert_one. cbn.
  cbn in Hup. destruct (hd false (faults (store w))); [discriminate|]. cbn.
  rewrite Hid. cbn.
  assert (Hclash : existsb (fun d => (User.ID d =? N.succ (oid_counter (store w)))%N)
                           (users (store w)) = false).
  { clear Hnew. induction Hfresh as [|u l Hu _ IH]; [reflexivity|].
    cbn. rewrite IH. rewrite orb_false_r. apply N.eqb_neq. lia. }
  rewrite Hclash.
  apply find_first_none in Hnew. unfold by_email in Hnew. rewrite Hnew.
  rewrite andb_false_r. reflexivity.
Qed.

Lemma users_InsertOne_rejects (doc existing : User.t) (w : World) :
  served w = true ->
  User.ID doc = NilObjectID ->
  Forall (fun u => (User.ID u <= oid_counter (store w))%N) (users (store w)) ->
  unique_email (store w) = true ->
  user_record (User.Email doc) w = Some existing ->
  exec (users_InsertOne doc) w = (inl (ErrDuplicateKey "email_1"), answered w).
Proof.
  unfold served, user_record, answered. intros Hup Hid Hfresh Hdecl Hdup.
  cbn [exec]. unfold on_store, insert_one. cbn.
  cbn in Hup. destruct (hd false (faults (store w))); [discriminate|]. cbn.
  rewrite Hid. cbn.
  assert (Hclash : existsb (fun d => (User.ID d =? N.succ (oid_counter (store w)))%N)
                           (users (store w)) = false).
  { clear Hdup. induction Hfresh as [|u l Hu _ IH]; [reflexivity|].
    cbn. rewrite IH. rewrite orb_false_r. apply N.eqb_neq. lia. }
  rewrite Hclash, Hdecl.
  assert (Hex : existsb (fun d => String.eqb (User.Email d) (User.Email doc))
                        (users (store w)) = true).
  { apply not_false_iff_true. intros E.
    apply find_first_none in E. unfold by_email in Hdup. congruence. }
  rewrite Hex. reflexivity.
Qed.

(** The unique index on the idempotency key rejects a second record. *)
Lemma feedbacks_InsertOne_rejects (doc existing : Feedback.t) (w : World) :
  served w = true ->
  Feedback.ID doc = NilObjectID ->
  Forall (fun d => (Feedback.ID d <= oid_counter (store w))%N) (feedbacks (store w)) ->
  unique_idempotency_key (store w) = true ->
  feedback_record (Feedback.IdempotencyKey doc) w = Some existing ->
  exec (feedbacks_InsertOne doc) w = (inl (ErrDuplicateKey "idempotency_key_1"), answered w).
Proof.
  unfold served, feedback_record, answered. intros Hup Hid Hfresh Hdecl Hdup.
  cbn [exec]. unfold on_store, insert_one. cbn.
  cbn in Hup. destruct (hd false (faults (store w))); [discriminate|]. cbn.
  rewrite Hid. cbn.
  assert (Hclash : existsb (fun d => (Feedback.ID d =? N.succ (oid_counter (store w)))%N)
                           (feedbacks (store w)) = false).
  { clear Hdup. induction Hfresh as [|u l Hu _ IH]; [reflexivity|].
    cbn. rewrite IH. rewrite orb_false_r. apply N.eqb_neq. lia. }
  rewrite Hclash, Hdecl.
  assert (Hex : existsb (fun d => String.eqb (Feedback.IdempotencyKey d)
                                           (Feedback.IdempotencyKey doc))
                        (feedbacks (store w)) = true).
  { apply not_false_iff_true. intros E.
    apply find_first_none in E. unfold by_idempotency_key in Hdup. congruence. }
  rewrite Hex. reflexivity.
Qed.

(* ------------------------------------------------------------------ *)
(** ** The repositories, one equation per method *)

(** A lookup: the server is down, or the first match or none is returned. *)
Ltac by_lookup :=
  expose; rewrite run_bind, run_call; cbn;
  destruct (hd false (faults (store _))); cbn; [reflexivity|];
  destruct (find_first _ _); reflexivity.

Lemma run_IsExpired (a : AuthToken.t) (w : World) :
  run (IsExpired a) w = (After (reading w) (AuthToken.ExpiresAt a), tick w).
Proof. reflexivity. Qed.

Lemma run_FindByToken (tok : string) (w : World) :
  run (AuthTokenRepo.FindByToken tok) w =
  (if served w then inr (token_record tok w) else inl unavailable, answered w).
Proof.
  unfold AuthTokenRepo.FindByToken, served, answered, token_record.
  by_lookup.
Qed.

Lemma run_MarkUsed (tok : string) (w : World) :
  run (AuthTokenRepo.MarkUsed tok) w =
  if served w then (None, mark_used tok (answered w))
  else (Some unavailable, answered w).
Proof.
  unfold AuthTokenRepo.MarkUsed, served, answered, mark_used.
  rewrite run_call. cbn [exec]. unfold on_store. cbn.
  destruct (hd false (faults (store w))); reflexivity.
Qed.

Lemma run_CountRecentByEmail (email : string) (d : Duration) (w : World) :
  run (AuthTokenRepo.CountRecentByEmail email d) w =
  (if served w
   then inr (count_docs (recent_for email (through_bson (Add (reading w) (- d))))
                        (auth_tokens (store w)))
   else inl unavailable,
   answered (tick w)).
Proof.
  unfold AuthTokenRepo.CountRecentByEmail, served, answered.
  expose. rewrite run_bind, !run_call. cbn [exec]. unfold on_store. cbn.
  destruct (hd false (faults (store w))); reflexivity.
Qed.

Lemma run_AuthTokenRepo_Create (t : AuthToken.t) (w : World) :
  run (AuthTokenRepo.Create t) w =
  let t' := AuthToken.withCreatedAt (reading w) t in
  let r := exec (tokens_InsertOne t') (tick w) in
  (match fst r with
   | inl err => (t', Some err)
   | inr id => (AuthToken.withID id t', None)
   end, snd r).
Proof.
  unfold AuthTokenRepo.Create. expose.
  rewrite run_bind, run_call, exec_time_Now. cbn [fst snd].
  rewrite run_bind, run_call. cbv zeta.
  destruct (fst (exec _ _)); reflexivity.
Qed.

Lemma run_FindByEmail (email : string) (w : World) :
  run (UserRepo.FindByEmail email) w =
  (if served w then inr (user_record email w) else inl unavailable, answered w).
Proof.
  unfold UserRepo.FindByEmail, served, answered, user_record.
  by_lookup.
Qed.

Lemma run_UserRepo_Create (u : User.t) (w : World) :
  run (UserRepo.Create u) w =
  let u' := User.withUpdatedAt (reading (tick w)) (User.withCreatedAt (reading w) u) in
  let r := exec (users_InsertOne u') (tick (tick w)) in
  (match fst r with
   | inl err => (u', Some err)
   | inr id => (User.withID id u', None)
   end, snd r).
Proof.
  unfold UserRepo.Create. expose.
  rewrite run_bind, run_call, exec_time_Now. cbn [fst snd].
  rewrite run_bind, run_call, exec_time_Now. cbn [fst snd].
  rewrite run_bind, run_call. cbv zeta.
  destruct (fst (exec _ _)); reflexivity.
Qed.

Lemma run_FindOrCreate (email : string) (w : World) :
  run (UserRepo.FindOrCreate email) w =
  if served w then
    match user_record email w with
    | Some user => (inr user, answered w)
    | None =>
        let r := exec (users_InsertOne (new_user email (answered w)))
                      (tick (tick (answered w))) in
        (match fst r with
         | inl err => inl err
         | inr id => inr (User.withID id (new_user email (answered w)))
         end, snd r)
    end
  else (inl unavailable, answered w).
Proof.
  unfold UserRepo.FindOrCreate. expose.
  rewrite run_bind, run_FindByEmail. cbn [fst snd].
  destruct (served w); [|reflexivity].
  destruct (user_record email w); [reflexivity|].
  rewrite run_bind, run_UserRepo_Create. cbv zeta. cbn [fst snd].
  unfold new_user, User.withCreatedAt, User.withUpdatedAt. cbn [User.ID User.Email User.OnboardingCompleted User.CreatedAt User.UpdatedAt].
  destruct (fst (exec _ _)); reflexivity.
Qed.

Lemma FindOrCreate_world (email : string) (w : World) :
  let r := run (UserRepo.FindOrCreate email) w in
  auth_tokens (store (snd r)) = auth_tokens (store w) /\
  log (snd r) = log w /\ signer (snd r) = signer w.
Proof.
  cbv zeta. rewrite run_FindOrCreate.
  destruct (served w); [|cbn; tauto].
  destruct (user_record email w); [cbn; tauto|].
  cbv zeta. cbn [snd].
  pose proof (users_InsertOne_world (new_user email (answered w))
                                    (tick (tick (answered w)))) as H.
  cbv zeta in H. destruct H as (Ht & _ & Hl & _ & _ & Hs & _).
  rewrite Ht, Hl, Hs. cbn. tauto.
Qed.

(** With the server up and the ObjectID counter ahead of the stored users,
    FindOrCreate resolves the email, and afterwards a lookup finds the user
    it returned, as the collection holds it. *)
Lemma FindOrCreate_resolves (email : string) (w : World) :
  faults (store w) = [] ->
  Forall (fun u => (User.ID u <= oid_counter (store w))%N) (users (store w)) ->
  exists user stored,
    fst (run (UserRepo.FindOrCreate email) w) = inr user /\
    user_record email (snd (run (UserRepo.FindOrCreate email) w)) = Some stored /\
    User.bson stored = User.bson user /\
    faults (store (snd (run (UserRepo.FindOrCreate email) w))) = [] /\
    signer (snd (run (UserRepo.FindOrCreate email) w)) = signer w /\
    (ticks w = [] ->
     ticks (snd (run (UserRepo.FindOrCreate email) w)) = [] /\
     clock (snd (run (UserRepo.FindOrCreate email) w)) = clock w).
Proof.
  intros Hup Hfresh. rewrite run_FindOrCreate.
  assert (Hs : served w = true) by (unfold served; cbn; rewrite Hup; reflexivity).
  rewrite Hs. destruct (user_record email w) as [user|] eqn:Hrec.
  - exists user, user. cbn. rewrite Hup. repeat split; auto.
  - cbv zeta. set (u := new_user email (answered w)).
    set (w1 := tick (tick (answered w))).
    assert (Hs1 : served w1 = true) by (unfold served; cbn; rewrite Hup; reflexivity).
    assert (Hins : fst (exec (users_InsertOne u) w1) = inr (N.succ (oid_counter (store w)))).
    { apply (users_InsertOne_accepts u w1 Hs1 eq_refl); [exact Hfresh | exact Hrec]. }
    pose proof (users_InsertOne_world u w1) as Hw. cbv zeta in Hw. rewrite Hins in Hw.
    destruct Hw as (_ & _ & _ & _ & _ & Hsig & Hclk & Htk & Hf & Husers).
    rewrite Hins. cbn [fst snd].
    exists (User.withID (N.succ (oid_counter (store w))) u),
           (User.bson (User.withID (N.succ (oid_counter (store w))) u)).
    split; [reflexivity|]. split; [|split; [|split; [|split]]].
    + unfold user_record. rewrite Husers.
      apply find_first_app_new; [exact Hrec|]. apply String.eqb_refl.
    + apply User_bson_idem.
    + rewrite Hf. cbn. rewrite Hup. reflexivity.
    + rewrite Hsig. reflexivity.
    + intros Hticks. rewrite Hclk, Htk. cbn. rewrite Hticks. cbn. split; [reflexivity|lia].
Qed.

Lemma run_FindByIdempotencyKey (key : string) (w : World) :
  run (FeedbackRepo.FindByIdempotencyKey key) w =
  (if served w then inr (feedback_record key w) else inl unavailable, answered w).
Proof.
  unfold FeedbackRepo.FindByIdempotencyKey, served, answered, feedback_record.
  by_lookup.
Qed.

Lemma run_FeedbackRepo_Create (f : Feedback.t) (w : World) :
  run (FeedbackRepo.Create f) w =
  let f' := Feedback.withCreatedAt (reading w) f in
  let r := exec (feedbacks_InsertOne f') (tick w) in
  (match fst r with
   | inl err => (f', Some err)
   | inr id => (Feedback.withID id f', None)
   end, snd r).
Proof.
  unfold FeedbackRepo.Create. expose.
  rewrite run_bind, run_call, exec_time_Now. cbn [fst snd].
  rewrite run_bind, run_call. cbv zeta.
  destruct (fst (exec _ _)); reflexivity.
Qed.

(* ------------------------------------------------------------------ *)
(** ** The handlers, from the request to the answer *)

Lemma run_sendLoginEmail (to link : string) (w : World) :
  run (sendLoginEmail to link) w =
  if String.eqb (environ w "RESEND_API_KEY") EmptyString then
    (None,
     logged ("📧 [Dev Mode] Login link for " ++ to ++ ": " ++ link)
            (logged "⚠️  RESEND_API_KEY not set, skipping email send" w))
  else
    match resend w (environ w "RESEND_API_KEY") (login_email w to link) with
    | inl err => (Some (Errorf "failed to send email: " err), w)
    | inr sentId =>
        (None,
         logged ("📧 Email sent successfully (ID: " ++ sentId ++ ") — Link: " ++ link)
                (delivered (login_email w to link) w))
    end.
Proof.
  unfold sendLoginEmail. expose.
  rewrite run_bind, run_call. cbn [exec fst snd].
  rewrite run_bind, run_call. cbn [exec fst snd].
  destruct (String.eqb (environ w "RESEND_API_KEY") EmptyString).
  - rewrite run_bind, run_call, exec_log_Printf. cbn [fst snd].
    rewrite run_bind, run_call, exec_log_Printf. reflexivity.
  - rewrite run_bind, run_call. cbn [exec fst snd]. fold (login_email w to link).
    destruct (resend w _ _) as [err|sentId]; cbn [fst snd].
    + destruct w; reflexivity.
    + rewrite run_bind, run_call, exec_log_Printf. reflexivity.
Qed.

Lemma RequestLogin_run (h : AuthHandler.t) (r : AuthHandler.LoginHTTP)
      (req : AuthHandler.RequestLoginRequest) (w : World) :
  AuthHandler.Body r = Some req ->
  AuthHandler.Email req <> EmptyString ->
  run (AuthHandler.RequestLogin h r) w =
  let email := AuthHandler.Email req in
  let w1 := answered (tick w) in
  if served w then
    if 5 <=? count_docs (recent_for email (through_bson (Add (reading w) (- (10 * Minute)))))
                        (auth_tokens (store w))
    then (too_many_requests, w1)
    else
      let tokenValue := entropy w (drawn w) in
      let w2 := drew w1 in
      let cr := run (AuthTokenRepo.Create (login_token email tokenValue (reading w2)))
                    (tick w2) in
      match snd (fst cr) with
      | Some err =>
          (login_token_failed,
           logged ("Error creating auth token: " ++ Error err) (snd cr))
      | None =>
          let se := run (sendLoginEmail email (login_link r w tokenValue)) (snd cr) in
          match fst se with
          | Some err => (link_delayed, logged ("Error sending email: " ++ Error err) (snd se))
          | None => (link_sent, snd se)
          end
      end
  else
    (internal_server_error,
     logged ("Error checking rate limit: " ++ Error unavailable) w1).
Proof.
  intros Hbody Hemail. unfold AuthHandler.RequestLogin.
  rewrite Hbody, (eqb_empty_false Hemail).
  expose. rewrite run_bind, run_CountRecentByEmail. cbn [fst snd]. cbv zeta.
  destruct (served w).
  2:{ rewrite run_bind, run_call, exec_log_Printf. reflexivity. }
  destruct (5 <=? _); [reflexivity|].
  rewrite run_bind, run_call. cbn [exec fst snd]. fold (drew (answered (tick w))).
  rewrite run_bind, run_call, exec_time_Now. cbn [fst snd].
  fold (login_token (AuthHandler.Email req) (entropy w (drawn w))
                    (reading (drew (answered (tick w))))).
  rewrite run_bind.
  destruct (run (AuthTokenRepo.Create _) _) as [[t err] w3] eqn:Hcr. cbn [fst snd].
  destruct err as [err|].
  { rewrite run_bind, run_call, exec_log_Printf. reflexivity. }
  rewrite run_bind, run_call. cbn [exec fst snd].
  assert (Henv : environ w3 = environ w).
  { rewrite run_AuthTokenRepo_Create in Hcr. cbv zeta in Hcr.
    injection Hcr as _ <-.
    reflexivity. }
  rewrite Henv. fold (login_link r w (entropy w (drawn w))).
  rewrite run_bind.
  destruct (fst (run (sendLoginEmail _ _) _)).
  { rewrite run_bind, run_call, exec_log_Printf. reflexivity. }
  reflexivity.
Qed.

(** What [AuthTokenRepo.Create] leaves of the world: the struct it returns
    is appended, as the collection holds it, when there is no error;
    nothing is stored otherwise. *)
Lemma AuthTokenRepo_Create_world (t : AuthToken.t) (w : World) :
  let r := run (AuthTokenRepo.Create t) w in
  log (snd r) = log w /\ outbox (snd r) = outbox w /\
  environ (snd r) = environ w /\ resend (snd r) = resend w /\
  match snd (fst r) with
  | Some _ => auth_tokens (store (snd r)) = auth_tokens (store w)
  | None => auth_tokens (store (snd r))
            = (auth_tokens (store w) ++ [AuthToken.bson (fst (fst r))])%list
  end.
Proof.
  cbv zeta. rewrite run_AuthTokenRepo_Create. cbv zeta.
  pose proof (tokens_InsertOne_world (AuthToken.withCreatedAt (reading w) t) (tick w)) as H.
  cbv zeta in H. destruct H as (_ & _ & Hlog & _ & Hout & Henv & Hres & Htokens).
  destruct (fst (exec (tokens_InsertOne _) (tick w))); cbn [fst snd];
    repeat split; assumption.
Qed.

(** [AuthTokenRepo.Create] with the server up, the ObjectID counter ahead
    of the stored tokens and a token value not stored yet. *)
Lemma AuthTokenRepo_Create_accepts (t : AuthToken.t) (w : World) :
  served w = true ->
  AuthToken.ID t = NilObjectID ->
  Forall (fun a => (AuthToken.ID a <= oid_counter (store w))%N) (auth_tokens (store w)) ->
  token_record (AuthToken.Token t) w = None ->
  fst (run (AuthTokenRepo.Create t) w)
  = (AuthToken.withID (N.succ (oid_counter (store w)))
                      (AuthToken.withCreatedAt (reading w) t), None).
Proof.
  intros Hup Hid Hfresh Hnew. rewrite run_AuthTokenRepo_Create. cbv zeta. cbn [fst].
  rewrite (@tokens_InsertOne_accepts (AuthToken.withCreatedAt (reading w) t) (tick w)
             Hup Hid Hfresh Hnew).
  reflexivity.
Qed.

(** What [sendLoginEmail] leaves of the world: an error means the process
    has a mail API key and the mail API refused the message, and then
    nothing is logged; without an error the message is in the outbox unless
    the process has no key. *)
Lemma sendLoginEmail_world (to link : string) (w : World) :
  let r := run (sendLoginEmail to link) w in
  auth_tokens (store (snd r)) = auth_tokens (store w) /\
  match fst r with
  | Some err =>
      (exists e, err = Errorf "failed to send email: " e) /\ snd r = w
  | None =>
      environ w "RESEND_API_KEY" = EmptyString \/
      outbox (snd r) = (outbox w ++ [login_email w to link])%list
  end.
Proof.
  cbv zeta. rewrite run_sendLoginEmail.
  destruct (String.eqb (environ w "RESEND_API_KEY") EmptyString) eqn:Hkey.
  - apply String.eqb_eq in Hkey. cbn [fst snd]. split; [reflexivity|]. left. exact Hkey.
  - destruct (resend w _ _) as [e|sentId]; cbn [fst snd].
    + split; [reflexivity|]. split; [exists e; reflexivity | reflexivity].
    + split; [reflexivity|]. right. reflexivity.
Qed.

Lemma exec_tokens_FindOne (tok : string) (w : World) :
  exec (tokens_FindOne tok) w =
  (if served w then
     match token_record tok w with
     | Some a => inr a
     | None => inl ErrNoDocuments
     end
   else inl unavailable, answered w).
Proof.
  cbn [exec]. unfold on_store, find_one, served, answered, token_record. cbn.
  destruct (hd false (faults (store w))); cbn; [reflexivity|].
  destruct (find_first _ _); reflexivity.
Qed.

(** VerifyToken once its lookup has returned the record [a]: what it goes
    on to do in the world [w'] it then finds. *)
Lemma VerifyToken_found (h : AuthHandler.t) (tok : string) (w w' : World) (a : AuthToken.t) :
  tok <> EmptyString ->
  served w = true ->
  token_record tok w = Some a ->
  run (fst (step (AuthHandler.VerifyToken h tok) w)) w' = redeem_found h tok a w'.
Proof.
  intros Htok Hup Hrec. unfold AuthHandler.VerifyToken. rewrite (eqb_empty_false Htok).
  unfold AuthTokenRepo.FindByToken. expose. cbn [pbind call step].
  rewrite exec_tokens_FindOne, Hup, Hrec. cbn [fst pbind].
  unfold redeem_found.
  rewrite run_bind, run_IsExpired. cbn [fst snd].
  destruct (After _ _); [reflexivity|].
  destruct (AuthToken.IsUsed a); [reflexivity|].
  rewrite run_bind, run_MarkUsed. cbv zeta.
  destruct (served (tick w')); cbn [fst snd].
  2:{ rewrite run_Vis, exec_log_Printf. reflexivity. }
  rewrite run_bind.
  destruct (fst (run (UserRepo.FindOrCreate _) _)) as [err|user].
  { rewrite run_Vis, exec_log_Printf. reflexivity. }
  rewrite run_Vis, exec_time_Now. cbn [fst snd].
  rewrite run_Vis, exec_time_Now. cbn [fst snd].
  rewrite run_Vis. cbn [exec fst snd].
  unfold session_claims.
  destruct (signer _ _ _).
  { rewrite run_Vis, exec_log_Printf. reflexivity. }
  reflexivity.
Qed.

Lemma VerifyToken_run (h : AuthHandler.t) (tok : string) (w : World) :
  tok <> EmptyString ->
  run (AuthHandler.VerifyToken h tok) w =
  if served w then
    match token_record tok w with
    | None => (invalid_token, answered w)
    | Some a => redeem_found h tok a (answered w)
    end
  else
    (internal_server_error,
     logged ("Error finding token: " ++ Error unavailable) (answered w)).
Proof.
  intros Htok. rewrite run_step.
  destruct (served w) eqn:Hup.
  - destruct (token_record tok w) as [a|] eqn:Hrec.
    + rewrite (VerifyToken_found h w _ Htok Hup Hrec).
      unfold AuthHandler.VerifyToken. rewrite (eqb_empty_false Htok).
      unfold AuthTokenRepo.FindByToken. expose. cbn [pbind call step].
      rewrite exec_tokens_FindOne. reflexivity.
    + unfold AuthHandler.VerifyToken. rewrite (eqb_empty_false Htok).
      unfold AuthTokenRepo.FindByToken. expose. cbn [pbind call step].
      rewrite exec_tokens_FindOne, Hup, Hrec. reflexivity.
  - unfold AuthHandler.VerifyToken. rewrite (eqb_empty_false Htok).
    unfold AuthTokenRepo.FindByToken. expose. cbn [pbind call step].
    rewrite exec_tokens_FindOne, Hup. reflexivity.
Qed.

(** The run of [redeem_found] that ends in a session. *)
Lemma redeem_found_session (h : AuthHandler.t) (tok : string) (a : AuthToken.t)
      (w1 w3 : World) (user : User.t) (s : string) :
  After (reading w1) (AuthToken.ExpiresAt a) = false ->
  AuthToken.IsUsed a = false ->
  served (tick w1) = true ->
  run (UserRepo.FindOrCreate (AuthToken.Email a)) (mark_used tok (answered (tick w1)))
  = (inr user, w3) ->
  signer w3 (session_claims user (reading w3) (reading (tick w3))) (AuthHandler.jwtSecret h)
  = inr s ->
  redeem_found h tok a w1 = (session s user, tick (tick w3)).
Proof.
  intros Hnow Hunused Hup Hfc Hs. unfold redeem_found.
  rewrite Hnow, Hunused, Hup. cbv zeta. rewrite Hfc. cbn [fst snd].
  change (signer (tick (tick w3))) with (signer w3). rewrite Hs. reflexivity.
Qed.

Lemma SubmitFeedback_run (r : FeedbackHandler.FeedbackHTTP)
      (req : FeedbackHandler.SubmitFeedbackRequest) (w : World) :
  FeedbackHandler.UserIDHex r <> EmptyString ->
  FeedbackHandler.Body r = Some req ->
  FeedbackHandler.Text req <> EmptyString ->
  FeedbackHandler.IdempotencyKey req <> EmptyString ->
  run (FeedbackHandler.SubmitFeedback r) w =
  if served w then
    match feedback_record (FeedbackHandler.IdempotencyKey req) w with
    | Some existing => (feedback_exists existing, answered w)
    | None =>
        match ObjectIDFromHex (FeedbackHandler.UserIDHex r) with
        | inl _ => (invalid_user_id, answered w)
        | inr userID =>
            let cr := run (FeedbackRepo.Create (new_feedback userID req)) (answered w) in
            match snd (fst cr) with
            | Some err =>
                (feedback_failed, logged ("Error creating feedback: " ++ Error err) (snd cr))
            | None =>
                (feedback_created (fst (fst cr)),
                 launched (formatSlackMessage (FeedbackHandler.UserIDHex r)
                                              (FeedbackHandler.Text req)
                                              (FeedbackHandler.Rating req)) (snd cr))
            end
        end
    end
  else
    (internal_server_error,
     logged ("Error checking idempotency: " ++ Error unavailable) (answered w)).
Proof.
  intros Huser Hbody Htext Hkey. unfold FeedbackHandler.SubmitFeedback.
  rewrite (eqb_empty_false Huser), Hbody, (eqb_empty_false Htext), (eqb_empty_false Hkey).
  expose. rewrite run_bind, run_FindByIdempotencyKey. cbn [fst snd].
  destruct (served w).
  2:{ rewrite run_bind, run_call, exec_log_Printf. reflexivity. }
  destruct (feedback_record _ w); [reflexivity|].
  destruct (ObjectIDFromHex _) as [e|userID]; [reflexivity|].
  fold (new_feedback userID req). rewrite run_bind. cbv zeta.
  destruct (run (FeedbackRepo.Create _) _) as [[f err] w1]. cbn [fst snd].
  destruct err.
  - rewrite run_bind, run_call, exec_log_Printf. reflexivity.
  - rewrite run_bind, run_call. reflexivity.
Qed.

(* ------------------------------------------------------------------ *)
(** ** Redeeming a token *)

(** A token whose record is marked used is refused: as expired once its
    expiry has passed, as already used before. *)
Lemma used_token_refused (h : AuthHandler.t) (tok : string) (w : World) (a : AuthToken.t) :
  tok <> EmptyString ->
  token_record tok w = Some a ->
  AuthToken.IsUsed a = true ->
  fst (run (AuthHandler.VerifyToken h tok) w) =
  if served w then
    if After (reading w) (AuthToken.ExpiresAt a) then token_expired
    else token_already_used
  else internal_server_error.
Proof.
  intros Htok Hrec Hused. rewrite (VerifyToken_run h w Htok), Hrec. unfold redeem_found.
  destruct (served w); [|reflexivity].
  cbv zeta. change (reading (answered w)) with (reading w).
  destruct (After _ _); [reflexivity|]. rewrite Hused. reflexivity.
Qed.

(** What a request that ends in a session has done to the token. *)
Lemma session_marks_used (h : AuthHandler.t) (tok : string) (w : World) :
  status (fst (run (AuthHandler.VerifyToken h tok) w)) = StatusOK ->
  tok <> EmptyString /\
  exists a, token_record tok w = Some a /\
            AuthToken.IsUsed a = false /\
            token_record tok (snd (run (AuthHandler.VerifyToken h tok) w))
            = Some (AuthToken.withIsUsed true a).
Proof.
  intros Hok.
  assert (Htok : tok <> EmptyString).
  { intros ->. revert Hok. cbn. discriminate. }
  split; [exact Htok|].
  revert Hok. rewrite (VerifyToken_run h w Htok). unfold redeem_found.
  destruct (served w); [|differ].
  destruct (token_record tok w) as [a|] eqn:Hrec; [|differ].
  cbv zeta.
  destruct (After _ _); [differ|].
  destruct (AuthToken.IsUsed a) eqn:Hused; [differ|].
  destruct (served (tick (answered w))); [|differ].
  pose proof (FindOrCreate_world (AuthToken.Email a)
                (mark_used tok (answered (tick (answered w))))) as H.
  cbv zeta in H. destruct H as (Ht & _).
  destruct (fst (run (UserRepo.FindOrCreate _) _)); [differ|].
  destruct (signer _ _ _); [differ|].
  intros _. exists a. repeat split; auto.
  cbn [snd]. unfold token_record.
  change (auth_tokens (store (tick (tick ?x)))) with (auth_tokens (store x)).
  rewrite Ht. cbn.
  apply find_first_update_first; [exact Hrec|].
  destruct (find_first_some _ _ Hrec) as [Hp _]. exact Hp.
Qed.

(** C4, as the code has it: a token that is found is refused as expired
    exactly when the clock shows a time strictly after its expiry, whether
    or not it was used; at the expiry instant itself it is not expired. *)
Theorem VerifyToken_expired_iff_after
        (h : AuthHandler.t) (tok : string) (w : World) (a : AuthToken.t) :
  tok <> EmptyString ->
  served w = true ->
  token_record tok w = Some a ->
  fst (run (AuthHandler.VerifyToken h tok) w) = token_expired
  <-> AuthToken.ExpiresAt a < reading w.
Proof.
  intros Htok Hup Hrec.
  rewrite (VerifyToken_run h w Htok), Hup, Hrec. unfold redeem_found. cbv zeta.
  change (reading (answered w)) with (reading w).
  unfold After. destruct (Z.ltb_spec (AuthToken.ExpiresAt a) (reading w)) as [Hlt|Hge].
  - cbn [fst]. tauto.
  - split; [|lia]. intros H. exfalso. revert H.
    destruct (AuthToken.IsUsed a); [differ|].
    destruct (served (tick (answered w))); [|differ].
    destruct (fst (run _ _)); [differ|].
    destruct (signer _ _ _); differ.
Qed.

Lemma VerifyToken_expired_iff_after_witness :
  fst (run (AuthHandler.VerifyToken sample_handler "t-1") (login_world (16 * Minute) []))
  = token_expired
  <-> AuthToken.ExpiresAt (issued 1%N "new@ex.com" "t-1" 0)
      < reading (login_world (16 * Minute) []).
Proof.
  apply (@VerifyToken_expired_iff_after sample_handler "t-1"
           (login_world (16 * Minute) []) (issued 1%N "new@ex.com" "t-1" 0)).
  - discriminate.
  - reflexivity.
  - reflexivity.
Defined.

(** C4 at the boundary: at the instant [now = expiry] an unused
    token is not refused as expired, it is redeemed. *)
Lemma VerifyToken_at_expiry_instant_redeems :
  let w := login_world (15 * Minute) [] in
  token_record "t-1" w = Some (issued 1%N "new@ex.com" "t-1" 0) /\
  reading w = AuthToken.ExpiresAt (issued 1%N "new@ex.com" "t-1" 0) /\
  fst (run (AuthHandler.VerifyToken sample_handler "t-1") w) <> token_expired /\
  status (fst (run (AuthHandler.VerifyToken sample_handler "t-1") w)) = StatusOK.
Proof.
  cbv zeta. repeat split.
  vm_compute. discriminate.
Qed.

(** C1 as stated fails: after a first redemption at time 0, a second
    one of the same token 16 minutes later is refused as expired, not as
    already used. *)
Lemma VerifyToken_twice_second_expired :
  let w := login_world 0 [0; 0; 0; 0; 0; 960000000000]%N in
  let first := run (AuthHandler.VerifyToken sample_handler "t-1") w in
  let second := run (AuthHandler.VerifyToken sample_handler "t-1") (snd first) in
  status (fst first) = StatusOK /\
  fst second = token_expired /\
  fst second <> token_already_used.
Proof.
  cbv zeta. repeat split.
  vm_compute. discriminate.
Qed.

(** C1, as the code has it: once a request has redeemed a token, no later
    request for the same token value is answered with a session, whatever
    the time, the users or the availability of the server; while the
    record is in the collection and the server serves the lookup, the
    answer is 401, 'token has already been used' up to the expiry instant
    and 'token has expired' after it. *)
Theorem VerifyToken_redeems_at_most_once
        (h : AuthHandler.t) (tok : string) (w w2 : World) :
  status (fst (run (AuthHandler.VerifyToken h tok) w)) = StatusOK ->
  auth_tokens (store w2) = auth_tokens (store (snd (run (AuthHandler.VerifyToken h tok) w))) ->
  exists a,
    token_record tok w2 = Some a /\ AuthToken.IsUsed a = true /\
    let second := fst (run (AuthHandler.VerifyToken h tok) w2) in
    status second <> StatusOK /\
    (forall v, payload second <> JSONVerify v) /\
    (served w2 = true -> reading w2 <= AuthToken.ExpiresAt a ->
     second = token_already_used) /\
    (served w2 = true -> AuthToken.ExpiresAt a < reading w2 ->
     second = token_expired).
Proof.
  intros Hok Hsame.
  destruct (session_marks_used h tok w Hok) as (Htok & a & _ & _ & Hrec).
  exists (AuthToken.withIsUsed true a).
  assert (Hrec2 : token_record tok w2 = Some (AuthToken.withIsUsed true a)).
  { unfold token_record in *. rewrite Hsame. exact Hrec. }
  split; [exact Hrec2|]. split; [reflexivity|].
  cbv zeta. rewrite (used_token_refused h w2 Htok Hrec2 eq_refl).
  unfold After. cbn [AuthToken.ExpiresAt AuthToken.withIsUsed].
  destruct (served w2).
  - destruct (Z.ltb_spec (AuthToken.ExpiresAt a) (reading w2)).
    + repeat split; try differ; intros; try reflexivity; lia.
    + repeat split; try differ; intros; try reflexivity; lia.
  - repeat split; differ.
Qed.

Lemma VerifyToken_redeems_at_most_once_witness :
  let w := login_world 0 [] in
  let w2 := snd (run (AuthHandler.VerifyToken sample_handler "t-1") w) in
  status (fst (run (AuthHandler.VerifyToken sample_handler "t-1") w)) = StatusOK /\
  fst (run (AuthHandler.VerifyToken sample_handler "t-1") w2) = token_already_used.
Proof.
  cbv zeta. split; [reflexivity|].
  destruct (@VerifyToken_redeems_at_most_once sample_handler "t-1" (login_world 0 [])
              (snd (run (AuthHandler.VerifyToken sample_handler "t-1") (login_world 0 [])))
              eq_refl eq_refl)
    as (a & Hrec & _ & _ & _ & Hused & _).
  apply Hused; [reflexivity|].
  vm_compute in Hrec. injection Hrec as <-. vm_compute. discriminate.
Defined.

(** C10 as stated fails: a session can still be issued for the token
    value, to a request that was in flight.  Two requests for the one valid
    token, both lookups served before either update; the first marks the
    record used, the server then fails its user lookup and it is answered
    500; the second goes on with the record as its own lookup returned it,
    and is answered 200 with a session. *)
Lemma VerifyToken_in_flight_redeems_after_failure :
  let redeem := AuthHandler.VerifyToken sample_handler "t-1" in
  let w := failing [false; false; false; true] (login_world 0 []) in
  let order := [0; 1; 0; 0; 0; 0; 1; 1; 1; 1; 1; 1; 1; 1; 1]%nat in
  let final := sched order [redeem; redeem] w in
  let user := User.mk 2%N "new@ex.com" false 0 0 in
  outcomes (fst final)
  = [Some internal_server_error;
     Some (session "HS256(000000000000000000000002,new@ex.com)/secret" user)] /\
  token_record "t-1" (snd final)
  = Some (AuthToken.withIsUsed true (issued 1%N "new@ex.com" "t-1" 0)) /\
  log (snd final)
  = [("Error finding/creating user: " ++ Error unavailable)%string].
Proof. cbv zeta. repeat split; vm_compute; reflexivity. Qed.

(** C10, as the code has it: when the lookup and the update that marks a
    valid token used are served, the record is marked used whatever happens
    next; if the request then fails (the user cannot be found or created,
    or the credential cannot be signed), it is answered 500 'internal
    server error', the record stays marked used, and no request that looks
    the token up from then on (over the tokens as the failed request left
    them, or in any world where the lookup returns a record marked used) is
    answered with a session. *)
Theorem VerifyToken_used_even_when_session_fails
        (h : AuthHandler.t) (tok : string) (w : World) (a : AuthToken.t) :
  tok <> EmptyString ->
  token_record tok w = Some a ->
  AuthToken.IsUsed a = false ->
  reading w <= AuthToken.ExpiresAt a ->
  served w = true ->
  served (answered w) = true ->
  let resp := fst (run (AuthHandler.VerifyToken h tok) w) in
  let w' := snd (run (AuthHandler.VerifyToken h tok) w) in
  token_record tok w' = Some (AuthToken.withIsUsed true a) /\
  (status resp <> StatusOK ->
   resp = internal_server_error /\
   (exists e, log w' = (log w ++ [("Error finding/creating user: " ++ Error e)%string])%list \/
              log w' = (log w ++ [("Error signing JWT: " ++ Error e)%string])%list) /\
   (forall w2, auth_tokens (store w2) = auth_tokens (store w') ->
               status (fst (run (AuthHandler.VerifyToken h tok) w2)) <> StatusOK) /\
   (forall w2 a2, token_record tok w2 = Some a2 ->
                  AuthToken.IsUsed a2 = true ->
                  status (fst (run (AuthHandler.VerifyToken h tok) w2)) <> StatusOK)).
Proof.
  intros Htok Hrec Hunused Hnow Hup1 Hup2. cbv zeta.
  assert (Hmarked : token_record tok (snd (run (AuthHandler.VerifyToken h tok) w))
                    = Some (AuthToken.withIsUsed true a)).
  { rewrite (VerifyToken_run h w Htok), Hup1, Hrec. unfold redeem_found. cbv zeta.
    change (reading (answered w)) with (reading w).
    unfold After. destruct (Z.ltb_spec (AuthToken.ExpiresAt a) (reading w)); [lia|].
    rewrite Hunused.
    change (served (tick (answered w))) with (served (answered w)). rewrite Hup2.
    pose proof (FindOrCreate_world (AuthToken.Email a)
                  (mark_used tok (answered (tick (answered w))))) as H0.
    cbv zeta in H0. destruct H0 as (Ht & _).
    assert (Hfc : token_record tok
                    (snd (run (UserRepo.FindOrCreate (AuthToken.Email a))
                              (mark_used tok (answered (tick (answered w))))))
                  = Some (AuthToken.withIsUsed true a)).
    { unfold token_record. rewrite Ht. cbn.
      apply find_first_update_first; [exact Hrec|].
      destruct (find_first_some _ _ Hrec) as [Hp _]. exact Hp. }
    destruct (fst (run (UserRepo.FindOrCreate _) _)); [exact Hfc|].
    destruct (signer _ _ _); exact Hfc. }
  split; [exact Hmarked|].
  intros Hfail. split; [|split].
  - revert Hfail. rewrite (VerifyToken_run h w Htok), Hup1, Hrec. unfold redeem_found. cbv zeta.
    change (reading (answered w)) with (reading w).
    unfold After. destruct (Z.ltb_spec (AuthToken.ExpiresAt a) (reading w)); [lia|].
    rewrite Hunused.
    change (served (tick (answered w))) with (served (answered w)). rewrite Hup2.
    destruct (fst (run (UserRepo.FindOrCreate _) _)); [reflexivity|].
    destruct (signer _ _ _); [reflexivity|].
    intros Hfail. exfalso. apply Hfail. reflexivity.
  - revert Hfail. rewrite (VerifyToken_run h w Htok), Hup1, Hrec. unfold redeem_found. cbv zeta.
    change (reading (answered w)) with (reading w).
    unfold After. destruct (Z.ltb_spec (AuthToken.ExpiresAt a) (reading w)); [lia|].
    rewrite Hunused.
    change (served (tick (answered w))) with (served (answered w)). rewrite Hup2.
    pose proof (FindOrCreate_world (AuthToken.Email a)
                  (mark_used tok (answered (tick (answered w))))) as H0.
    cbv zeta in H0. destruct H0 as (_ & Hl & _).
    destruct (fst (run (UserRepo.FindOrCreate _) _)) as [e|user].
    + intros _. exists e. left. cbn [snd]. unfold logged. cbn [log set_log].
      rewrite Hl. reflexivity.
    + destruct (signer _ _ _) as [e|s].
      * intros _. exists e. right. cbn [snd]. unfold logged. cbn [log set_log].
        change (log (tick (tick ?x))) with (log x). rewrite Hl. reflexivity.
      * intros Hfail. exfalso. apply Hfail. reflexivity.
  - split.
    + intros w2 Hsame.
      assert (Hrec2 : token_record tok w2 = Some (AuthToken.withIsUsed true a)).
      { unfold token_record in *. rewrite Hsame. exact Hmarked. }
      rewrite (used_token_refused h w2 Htok Hrec2 eq_refl).
      destruct (served w2); [destruct (After _ _)|]; differ.
    + intros w2 a2 Hrec2 Hused2.
      rewrite (used_token_refused h w2 Htok Hrec2 Hused2).
      destruct (served w2); [destruct (After _ _)|]; differ.
Qed.

Lemma VerifyToken_used_even_when_session_fails_witness :
  let w := set_store (set_faults [false; false; true] (store (login_world 0 [])))
                     (login_world 0 []) in
  fst (run (AuthHandler.VerifyToken sample_handler "t-1") w) = internal_server_error /\
  token_record "t-1" (snd (run (AuthHandler.VerifyToken sample_handler "t-1") w))
  = Some (AuthToken.withIsUsed true (issued 1%N "new@ex.com" "t-1" 0)).
Proof.
  cbv zeta.
  destruct (@VerifyToken_used_even_when_session_fails sample_handler "t-1"
              (set_store (set_faults [false; false; true] (store (login_world 0 [])))
                         (login_world 0 []))
              (issued 1%N "new@ex.com" "t-1" 0))
    as [Hmarked Hfail].
  - discriminate.
  - reflexivity.
  - reflexivity.
  - vm_compute. discriminate.
  - reflexivity.
  - reflexivity.
  - split; [|exact Hmarked].
    apply Hfail. vm_compute. discriminate.
Defined.

Lemma Unix_Add_days (t : Time) (days : Z) :
  Unix (Add t (days * 24 * Hour)) = Unix t + days * 24 * 60 * 60.
Proof.
  unfold Unix, Add, Hour, Minute.
  replace (days * 24 * (60 * (60 * Second))) with (days * 24 * 60 * 60 * Second) by ring.
  apply Z.div_add. unfold Second, Nanosecond. lia.
Qed.

(** C9: a valid token for an email no user has: the request appends a user
    with that email and onboarding not completed (the collection holds it
    with its two times in whole milliseconds), and answers 200 with that
    user and the string the signer returns, under the handler's secret,
    for the claims user_id (the new user's ObjectID in hexadecimal), email,
    exp and iat, where exp is 30 days after a clock reading of the request
    and iat a clock reading no earlier than that one. *)
Theorem VerifyToken_new_user_session
        (h : AuthHandler.t) (tok : string) (w : World) (a : AuthToken.t) :
  tok <> EmptyString ->
  token_record tok w = Some a ->
  AuthToken.IsUsed a = false ->
  reading w <= AuthToken.ExpiresAt a ->
  user_record (AuthToken.Email a) w = None ->
  faults (store w) = [] ->
  Forall (fun u => (User.ID u <= oid_counter (store w))%N) (users (store w)) ->
  (forall c, exists s, signer w c (AuthHandler.jwtSecret h) = inr s) ->
  exists (user : User.t) (tokenString : string) (expNow iatNow : Time),
    fst (run (AuthHandler.VerifyToken h tok) w)
    = mkResponse StatusOK (JSONVerify {| Token := tokenString; User := user |}) /\
    users (store (snd (run (AuthHandler.VerifyToken h tok) w)))
    = (users (store w) ++ [User.bson user])%list /\
    User.Email user = AuthToken.Email a /\
    User.OnboardingCompleted user = false /\
    User.ID user = N.succ (oid_counter (store w)) /\
    signer w {| claim_user_id := Hex (User.ID user);
                claim_email := AuthToken.Email a;
                claim_exp := Unix expNow + 30 * 24 * 60 * 60;
                claim_iat := Unix iatNow |} (AuthHandler.jwtSecret h)
    = inr tokenString /\
    reading w <= expNow <= iatNow /\
    (ticks w = [] -> expNow = clock w /\ iatNow = clock w).
Proof.
  intros Htok Hrec Hunused Hnow Hnew Hup Hfresh Hsign.
  assert (Hs1 : served w = true) by (unfold served; cbn; rewrite Hup; reflexivity).
  assert (Hs2 : served (tick (answered w)) = true)
    by (unfold served; cbn; rewrite Hup; reflexivity).
  set (w1 := mark_used tok (answered (tick (answered w)))).
  assert (Hs3 : served w1 = true) by (unfold served; cbn; rewrite Hup; reflexivity).
  assert (Hs4 : served (tick (tick (answered w1))) = true)
    by (unfold served; cbn; rewrite Hup; reflexivity).
  set (u := new_user (AuthToken.Email a) (answered w1)).
  assert (Hins : fst (exec (users_InsertOne u) (tick (tick (answered w1))))
                 = inr (N.succ (oid_counter (store w)))).
  { apply (users_InsertOne_accepts u (tick (tick (answered w1))) Hs4 eq_refl).
    - exact Hfresh.
    - exact Hnew. }
  pose proof (users_InsertOne_world u (tick (tick (answered w1)))) as Hw.
  cbv zeta in Hw. rewrite Hins in Hw.
  destruct Hw as (_ & _ & _ & _ & _ & Hsig & Hclk & Htk & _ & Husers).
  set (w3 := snd (exec (users_InsertOne u) (tick (tick (answered w1))))) in *.
  set (user := User.withID (N.succ (oid_counter (store w))) u).
  assert (Hfc : run (UserRepo.FindOrCreate (AuthToken.Email a)) w1 = (inr user, w3)).
  { rewrite run_FindOrCreate, Hs3.
    change (user_record (AuthToken.Email a) w1) with (user_record (AuthToken.Email a) w).
    rewrite Hnew. cbv zeta. fold u. rewrite Hins. reflexivity. }
  destruct (Hsign (session_claims user (reading w3) (reading (tick w3)))) as [s Hs].
  assert (Hrun : run (AuthHandler.VerifyToken h tok) w = (session s user, tick (tick w3))).
  { rewrite (VerifyToken_run h w Htok), Hs1, Hrec.
    apply redeem_found_session.
    - unfold After. apply Z.ltb_ge. exact Hnow.
    - exact Hunused.
    - exact Hs2.
    - exact Hfc.
    - rewrite Hsig. exact Hs. }
  exists user, s, (reading w3), (reading (tick w3)).
  rewrite Hrun. cbn [fst snd].
  split; [reflexivity|].
  split; [exact Husers|].
  split; [reflexivity|]. split; [reflexivity|]. split; [reflexivity|].
  split.
  { rewrite <- Hs. unfold session_claims. rewrite Unix_Add_days. reflexivity. }
  assert (Hr3 : reading w3 = reading (tick (tick (tick w)))).
  { unfold reading. cbn [exec fst]. rewrite Hclk, Htk. reflexivity. }
  assert (Hr4 : reading (tick w3) = reading (tick (tick (tick (tick w))))).
  { unfold reading, tick. cbn [exec fst snd clock ticks set_clock]. rewrite Hclk, Htk.
    reflexivity. }
  rewrite Hr3, Hr4. split.
  - pose proof (reading_le_tick w). pose proof (reading_le_tick (tick w)).
    pose proof (reading_le_tick (tick (tick w))).
    pose proof (reading_le_tick (tick (tick (tick w)))). lia.
  - intros Hticks. unfold reading, tick. cbn. rewrite Hticks. cbn. lia.
Qed.

Lemma VerifyToken_new_user_session_witness :
  exists (user : User.t) (tokenString : string),
    fst (run (AuthHandler.VerifyToken sample_handler "t-1") (login_world 0 []))
    = mkResponse StatusOK (JSONVerify {| Token := tokenString; User := user |}) /\
    users (store (snd (run (AuthHandler.VerifyToken sample_handler "t-1")
                           (login_world 0 []))))
    = [User.bson user] /\
    User.Email user = "new@ex.com" /\
    User.OnboardingCompleted user = false.
Proof.
  destruct (@VerifyToken_new_user_session sample_handler "t-1" (login_world 0 [])
              (issued 1%N "new@ex.com" "t-1" 0))
    as (user & s & expNow & iatNow & Hresp & Husers & Hemail & Honb & _).
  - discriminate.
  - reflexivity.
  - reflexivity.
  - vm_compute. discriminate.
  - reflexivity.
  - reflexivity.
  - constructor.
  - intros c. eexists. reflexivity.
  - exists user, s. repeat split; assumption.
Defined.

(** C2: two requests redeem the one valid token together.  Both lookups are
    served before either update: the first request goes on from its lookup
    to its answer, then the second one does, with the record as its own
    lookup returned it.  MarkUsed is an update by token value alone and the
    used flag is checked on the record read before, so whenever the token
    is valid, the server up and the signer signing, both requests are
    answered 200 with a session for the same user (the second request gets
    the user as the collection holds it, its times in whole
    milliseconds). *)
Theorem VerifyToken_concurrent_both_redeem
        (h : AuthHandler.t) (tok : string) (w : World) (a : AuthToken.t) :
  tok <> EmptyString ->
  token_record tok w = Some a ->
  AuthToken.IsUsed a = false ->
  ticks w = [] ->
  clock w <= AuthToken.ExpiresAt a ->
  faults (store w) = [] ->
  Forall (fun u => (User.ID u <= oid_counter (store w))%N) (users (store w)) ->
  (forall c, exists s, signer w c (AuthHandler.jwtSecret h) = inr s) ->
  let lookup1 := step (AuthHandler.VerifyToken h tok) w in
  let lookup2 := step (AuthHandler.VerifyToken h tok) (snd lookup1) in
  let rest1 := run (fst lookup1) (snd lookup2) in
  let rest2 := run (fst lookup2) (snd rest1) in
  exists s1 s2 user1 user2,
    fst rest1 = session s1 user1 /\ fst rest2 = session s2 user2 /\
    User.bson user2 = User.bson user1.
Proof.
  intros Htok Hrec Hunused Hticks Hnow Hup Hfresh Hsign. cbv zeta.
  assert (Hs : served w = true) by (unfold served; cbn; rewrite Hup; reflexivity).
  assert (Hstep : forall w0, snd (step (AuthHandler.VerifyToken h tok) w0) = answered w0).
  { intros w0. unfold AuthHandler.VerifyToken. rewrite (eqb_empty_false Htok).
    unfold AuthTokenRepo.FindByToken. expose. cbn [pbind call step].
    rewrite exec_tokens_FindOne. reflexivity. }
  rewrite !Hstep.
  assert (Hs' : served (answered w) = true) by (unfold served; cbn; rewrite Hup; reflexivity).
  rewrite (VerifyToken_found h w _ Htok Hs Hrec).
  rewrite (@VerifyToken_found h tok (answered w) _ a Htok Hs' Hrec).
  (* the first request *)
  set (wB := answered (answered w)).
  assert (H1 : exists s1 user stored w3,
             redeem_found h tok a wB = (session s1 user, tick (tick w3)) /\
             user_record (AuthToken.Email a) w3 = Some stored /\
             User.bson stored = User.bson user /\
             faults (store w3) = [] /\ signer w3 = signer w /\
             ticks w3 = [] /\ clock w3 = clock w).
  { unfold redeem_found.
    assert (HrB : reading wB = clock w) by (unfold reading; cbn; rewrite Hticks; cbn; lia).
    rewrite HrB. unfold After.
    destruct (Z.ltb_spec (AuthToken.ExpiresAt a) (clock w)); [lia|].
    rewrite Hunused. cbv zeta.
    assert (HsB : served (tick wB) = true) by (unfold served; cbn; rewrite Hup; reflexivity).
    rewrite HsB.
    set (wM := mark_used tok (answered (tick wB))).
    destruct (@FindOrCreate_resolves (AuthToken.Email a) wM)
      as (user & stored & Hfc & Huser & Hsame & Hf3 & Hsig3 & Hclk3).
    { cbn. rewrite Hup. reflexivity. }
    { exact Hfresh. }
    destruct Hclk3 as [Htk3 Hc3]; [cbn; rewrite Hticks; reflexivity|].
    rewrite Hfc.
    set (w3 := snd (run (UserRepo.FindOrCreate (AuthToken.Email a)) wM)) in *.
    change (signer (tick (tick w3))) with (signer w3). rewrite Hsig3.
    change (signer wM) with (signer w).
    destruct (Hsign (session_claims user (reading w3) (reading (tick w3)))) as [s1 Hs1].
    rewrite Hs1. exists s1, user, stored, w3. repeat split; auto.
    rewrite Hc3. cbn. rewrite Hticks. cbn. lia. }
  destruct H1 as (s1 & user & stored & w3 & Hrest1 & Huser & Hsame & Hf3 & Hsig3 & Htk3 & Hc3).
  rewrite Hrest1. cbn [fst snd].
  (* the second request, with the record as its own lookup returned it *)
  unfold redeem_found.
  assert (Hr4 : reading (tick (tick w3)) = clock w).
  { unfold reading, tick. cbn. rewrite Htk3, Hc3. cbn. lia. }
  rewrite Hr4. unfold After.
  destruct (Z.ltb_spec (AuthToken.ExpiresAt a) (clock w)); [lia|].
  rewrite Hunused. cbv zeta.
  assert (Hs4 : served (tick (tick (tick w3))) = true)
    by (unfold served; cbn; rewrite Hf3; reflexivity).
  rewrite Hs4.
  set (wM2 := mark_used tok (answered (tick (tick (tick w3))))).
  assert (Hfc2 : run (UserRepo.FindOrCreate (AuthToken.Email a)) wM2
                 = (inr stored, answered wM2)).
  { rewrite run_FindOrCreate.
    assert (Hs5 : served wM2 = true) by (unfold served; cbn; rewrite Hf3; reflexivity).
    rewrite Hs5.
    change (user_record (AuthToken.Email a) wM2) with (user_record (AuthToken.Email a) w3).
    rewrite Huser. reflexivity. }
  rewrite Hfc2. cbn [fst snd].
  change (signer (tick (tick (answered wM2)))) with (signer w3). rewrite Hsig3.
  destruct (Hsign (session_claims stored (reading (answered wM2))
                                  (reading (tick (answered wM2))))) as [s2 Hs2].
  rewrite Hs2. exists s1, s2, user, stored. split; [reflexivity|].
  split; [reflexivity | exact Hsame].
Qed.

Lemma VerifyToken_concurrent_both_redeem_witness :
  let redeem := AuthHandler.VerifyToken sample_handler "t-1" in
  let lookup1 := step redeem (login_world 0 []) in
  let lookup2 := step redeem (snd lookup1) in
  let rest1 := run (fst lookup1) (snd lookup2) in
  let rest2 := run (fst lookup2) (snd rest1) in
  status (fst rest1) = StatusOK /\ status (fst rest2) = StatusOK.
Proof.
  cbv zeta.
  destruct (@VerifyToken_concurrent_both_redeem sample_handler "t-1" (login_world 0 [])
              (issued 1%N "new@ex.com" "t-1" 0))
    as (s1 & s2 & user1 & user2 & H1 & H2 & _).
  - discriminate.
  - reflexivity.
  - reflexivity.
  - reflexivity.
  - vm_compute. discriminate.
  - reflexivity.
  - constructor.
  - intros c. eexists. reflexivity.
  - rewrite H1, H2. split; reflexivity.
Defined.

(** The same race through the scheduler: the order serves both lookups,
    then the nine remaining operations of the first request, then the six
    of the second.  Both requests end with a session, the record is marked
    used, and a further MarkUsed on it still reports no error. *)
Example VerifyToken_race_schedule :
  let w := login_world 0 [] in
  let redeem := AuthHandler.VerifyToken sample_handler "t-1" in
  let order := [0; 1; 0; 0; 0; 0; 0; 0; 0; 0; 0; 1; 1; 1; 1; 1; 1]%nat in
  let final := sched order [redeem; redeem] w in
  (exists s1 s2 user,
     outcomes (fst final) = [Some (session s1 user); Some (session s2 user)]) /\
  token_record "t-1" (snd final)
  = Some (AuthToken.withIsUsed true (issued 1%N "new@ex.com" "t-1" 0)) /\
  fst (run (AuthTokenRepo.MarkUsed "t-1") (snd final)) = None.
Proof.
  cbv zeta. split; [|split].
  - do 3 eexists. vm_compute. reflexivity.
  - vm_compute. reflexivity.
  - vm_compute. reflexivity.
Qed.

(* ------------------------------------------------------------------ *)
(** ** Resolving a user *)

(** C6 as stated fails: two resolutions of a never-seen email whose
    lookups are both served before either insert; the unique index on email
    rejects the second insert and that call returns the error, not the
    winner's record. *)
Lemma FindOrCreate_race_loser_gets_error :
  let pool := [UserRepo.FindOrCreate "new@ex.com"; UserRepo.FindOrCreate "new@ex.com"] in
  let final := sched [0; 1; 0; 0; 0; 1; 1; 1]%nat pool sample_world in
  let winner := User.mk 1%N "new@ex.com" false 0 0 in
  outcomes (fst final) = [Some (inr winner); Some (inl (ErrDuplicateKey "email_1"))] /\
  users (store (snd final)) = [winner].
Proof.
  cbv zeta. split; vm_compute; reflexivity.
Qed.

(** C6, as the code has it: a resolution whose lookup was served and found
    no user, and whose insert reaches the server once a user with the email
    is there: the unique index rejects the insert and FindOrCreate returns
    that error to its caller; the winner's record is left as it is. *)
Theorem FindOrCreate_duplicate_insert_is_error
        (email : string) (w w' : World) (winner : User.t) :
  served w = true ->
  user_record email w = None ->
  served w' = true ->
  unique_email (store w') = true ->
  Forall (fun u => (User.ID u <= oid_counter (store w'))%N) (users (store w')) ->
  user_record email w' = Some winner ->
  let after_lookup := fst (step (UserRepo.FindOrCreate email) w) in
  fst (run after_lookup w') = inl (ErrDuplicateKey "email_1") /\
  users (store (snd (run after_lookup w'))) = users (store w') /\
  user_record email (snd (run after_lookup w')) = Some winner.
Proof.
  intros Hup Hmiss Hup' Hdecl Hfresh Hdup. cbv zeta.
  unfold UserRepo.FindOrCreate, UserRepo.FindByEmail. expose. cbn [pbind call step].
  assert (Hlook : exec (users_FindOne email) w = (inl ErrNoDocuments, answered w)).
  { cbn [exec]. unfold on_store, find_one. cbn.
    unfold served in Hup. cbn in Hup.
    destruct (hd false (faults (store w))); [discriminate|].
    unfold user_record in Hmiss. rewrite Hmiss. reflexivity. }
  rewrite Hlook. cbn [fst pbind error_eqb_NoDocuments].
  rewrite run_bind, run_UserRepo_Create. cbv zeta.
  rewrite (@users_InsertOne_rejects
             (User.withUpdatedAt (reading (tick w'))
                (User.withCreatedAt (reading w')
                   (User.mk NilObjectID email false zeroTime zeroTime)))
             winner (tick (tick w')) Hup' eq_refl Hfresh Hdecl Hdup).
  cbn [fst snd]. repeat split. exact Hdup.
Qed.

Lemma FindOrCreate_duplicate_insert_is_error_witness :
  let w' := snd (run (UserRepo.FindOrCreate "new@ex.com") sample_world) in
  fst (run (fst (step (UserRepo.FindOrCreate "new@ex.com") sample_world)) w')
  = inl (ErrDuplicateKey "email_1").
Proof.
  cbv zeta.
  destruct (@FindOrCreate_duplicate_insert_is_error "new@ex.com" sample_world
              (snd (run (UserRepo.FindOrCreate "new@ex.com") sample_world))
              (User.mk 1%N "new@ex.com" false 0 0))
    as (Herr & _).
  - reflexivity.
  - reflexivity.
  - reflexivity.
  - reflexivity.
  - repeat constructor. vm_compute. discriminate.
  - reflexivity.
  - exact Herr.
Defined.

(* ------------------------------------------------------------------ *)
(** ** Requesting a login link *)

(** C5 as stated fails: the store compares in whole milliseconds.  Five
    tokens, the oldest created at 0; one nanosecond after it has left the
    10 minutes only four tokens are within the window, and the request is
    answered 429 all the same and stores nothing. *)
Lemma RequestLogin_limit_counts_whole_milliseconds :
  let w := busy_world (10 * Minute + 1) in
  let r := run (AuthHandler.RequestLogin sample_handler (login_request "a@ex.com")) w in
  issued_within "a@ex.com" (reading w) (10 * Minute) (auth_tokens (store w)) = 4 /\
  fst r = too_many_requests /\
  auth_tokens (store (snd r)) = auth_tokens (store w).
Proof. cbv zeta. repeat split. Qed.

(** C5, as the code has it: a login request with an email whose count the
    server serves is answered 429 exactly when at least 5 tokens of that
    email have a creation time that, in whole milliseconds, is at or after
    the start of the 10 minutes that end at the clock reading of the
    request, in whole milliseconds.  That count takes every token of the 10
    minutes and none that is a millisecond or more older.  The count leaves
    the collections as they are, a refused request stores and sends
    nothing, and a request under the limit goes on to issue: with the
    server up and a token value not stored yet, the token record is
    appended (its times in whole milliseconds) and the answer is 200. *)
Theorem RequestLogin_rate_limit
        (h : AuthHandler.t) (r : AuthHandler.LoginHTTP)
        (req : AuthHandler.RequestLoginRequest) (w : World) :
  AuthHandler.Body r = Some req ->
  AuthHandler.Email req <> EmptyString ->
  served w = true ->
  let email := AuthHandler.Email req in
  let count := issued_within_ms email (reading w) (10 * Minute) (auth_tokens (store w)) in
  let check := run (AuthTokenRepo.CountRecentByEmail email (10 * Minute)) w in
  let resp := fst (run (AuthHandler.RequestLogin h r) w) in
  let w' := snd (run (AuthHandler.RequestLogin h r) w) in
  (status resp = StatusTooManyRequests <-> 5 <= count) /\
  (issued_within email (reading w) (10 * Minute) (auth_tokens (store w)) <= count /\
   count <= issued_within email (reading w) (10 * Minute + Millisecond)
                          (auth_tokens (store w))) /\
  (fst check = inr count /\
   auth_tokens (store (snd check)) = auth_tokens (store w) /\
   users (store (snd check)) = users (store w) /\
   feedbacks (store (snd check)) = feedbacks (store w)) /\
  (5 <= count ->
   resp = too_many_requests /\
   auth_tokens (store w') = auth_tokens (store w) /\ outbox w' = outbox w) /\
  (count < 5 ->
   faults (store w) = [] ->
   Forall (fun a => (AuthToken.ID a <= oid_counter (store w))%N) (auth_tokens (store w)) ->
   token_record (entropy w (drawn w)) w = None ->
   status resp = StatusOK /\
   auth_tokens (store w')
   = (auth_tokens (store w)
      ++ [AuthToken.mk (N.succ (oid_counter (store w))) email (entropy w (drawn w))
                       (through_bson (Add (reading (tick w)) (15 * Minute))) false
                       (through_bson (reading (tick (tick w))))])%list).
Proof.
  intros Hbody Hemail Hup. cbv zeta.
  rewrite (RequestLogin_run h r w Hbody Hemail), Hup. cbv zeta.
  rewrite run_CountRecentByEmail, Hup, count_docs_issued_within_ms. cbn [fst snd].
  pose proof (issued_within_ms_bounds (AuthHandler.Email req) (reading w) (10 * Minute)
                                      (auth_tokens (store w))) as Hbounds.
  set (count := issued_within_ms _ _ _ _) in *.
  destruct (Z.leb_spec 5 count) as [Hge|Hlt].
  { cbn [fst snd]. repeat split; auto; try reflexivity; try lia. }
  set (w2 := tick (drew (answered (tick w)))).
  set (t := login_token _ _ _).
  pose proof (AuthTokenRepo_Create_world t w2) as Hw.
  pose proof (AuthTokenRepo_Create_accepts t w2) as Hacc.
  cbv zeta in Hw.
  destruct (run (AuthTokenRepo.Create t) w2) as [[t' err] w3]. cbn [fst snd] in *.
  pose proof (sendLoginEmail_world (AuthHandler.Email req)
                (login_link r w (entropy w (drawn w))) w3) as Hm.
  cbv zeta in Hm.
  destruct (run (sendLoginEmail _ _) w3) as [merr w4]. cbn [fst snd] in *.
  destruct Hw as (_ & _ & _ & _ & Htokens). destruct Hm as (Hkeep & _).
  split; [|split; [|split; [|split]]].
  - split; [|lia]. destruct err; [differ|]. destruct merr; differ.
  - exact Hbounds.
  - repeat split; reflexivity.
  - intros; lia.
  - intros _ Hfaults Hfresh Hnew.
    assert (Hs : served w2 = true) by (unfold served; cbn; rewrite Hfaults; reflexivity).
    specialize (Hacc Hs eq_refl Hfresh Hnew). injection Hacc as -> ->.
    assert (Hstored : auth_tokens (store w4)
                      = (auth_tokens (store w)
                         ++ [AuthToken.mk (N.succ (oid_counter (store w)))
                               (AuthHandler.Email req) (entropy w (drawn w))
                               (through_bson (Add (reading (tick w)) (15 * Minute))) false
                               (through_bson (reading (tick (tick w))))])%list).
    { rewrite Hkeep, Htokens. reflexivity. }
    destruct merr; (split; [reflexivity | exact Hstored]).
Qed.

Lemma RequestLogin_rate_limit_witness :
  fst (run (AuthHandler.RequestLogin sample_handler (login_request "a@ex.com"))
           (busy_world (5 * Minute)))
  = too_many_requests.
Proof.
  destruct (@RequestLogin_rate_limit sample_handler (login_request "a@ex.com")
              (AuthHandler.mkRequestLoginRequest "a@ex.com") (busy_world (5 * Minute)))
    as (_ & _ & _ & Hrefused & _).
  - reflexivity.
  - discriminate.
  - reflexivity.
  - apply Hrefused. vm_compute. discriminate.
Defined.

(** The window slides: one millisecond after the oldest of the five tokens
    has left the 10 minutes, the sixth request is served and its token
    stored. *)
Example RequestLogin_sixth_after_window :
  let w := busy_world (10 * Minute + Millisecond) in
  let r := run (AuthHandler.RequestLogin sample_handler (login_request "a@ex.com")) w in
  issued_within "a@ex.com" (reading w) (10 * Minute) (auth_tokens (store w)) = 4 /\
  status (fst r) = StatusOK /\
  List.length (auth_tokens (store (snd r))) = 6%nat.
Proof. cbv zeta. repeat split. Qed.

(** C8: every login request that stored a token record is answered 200;
    when the process has a mail API key and the mail API did not take the
    message, the answer is the 'may be delayed' note and the failure is the
    one line the request adds to the log. *)
Theorem RequestLogin_mail_failure_absorbed
        (h : AuthHandler.t) (r : AuthHandler.LoginHTTP) (w : World) :
  let resp := fst (run (AuthHandler.RequestLogin h r) w) in
  let w' := snd (run (AuthHandler.RequestLogin h r) w) in
  auth_tokens (store w') <> auth_tokens (store w) ->
  status resp = StatusOK /\
  (environ w "RESEND_API_KEY" <> EmptyString ->
   outbox w' = outbox w ->
   resp = link_delayed /\
   exists e, log w' = (log w ++ [("Error sending email: failed to send email: "
                                  ++ Error e)%string])%list).
Proof.
  cbv zeta.
  destruct (AuthHandler.Body r) as [req|] eqn:Hbody.
  2:{ unfold AuthHandler.RequestLogin. rewrite Hbody. cbn. congruence. }
  destruct (String.eqb (AuthHandler.Email req) EmptyString) eqn:Hemail.
  { unfold AuthHandler.RequestLogin. rewrite Hbody, Hemail. cbn. congruence. }
  apply String.eqb_neq in Hemail.
  rewrite (RequestLogin_run h r w Hbody Hemail). cbv zeta.
  destruct (served w); [|cbn; congruence].
  destruct (5 <=? _); [cbn; congruence|].
  set (w2 := tick (drew (answered (tick w)))).
  set (t := login_token _ _ _).
  pose proof (AuthTokenRepo_Create_world t w2) as Hw. cbv zeta in Hw.
  destruct (run (AuthTokenRepo.Create t) w2) as [[t' err] w3]. cbn [fst snd] in *.
  destruct Hw as (Hlog & Hout & Henv & _ & Htokens).
  destruct err as [err|].
  { cbn [fst snd]. intros Hchanged. exfalso. apply Hchanged. exact Htokens. }
  intros _.
  pose proof (sendLoginEmail_world (AuthHandler.Email req)
                (login_link r w (entropy w (drawn w))) w3) as Hm.
  cbv zeta in Hm.
  destruct (run (sendLoginEmail _ _) w3) as [merr w4]. cbn [fst snd] in *.
  destruct Hm as (_ & Hm).
  destruct merr as [merr|]; cbn [fst snd].
  - destruct Hm as ((e & ->) & ->).
    split; [reflexivity|]. intros _ _. split; [reflexivity|].
    exists e. unfold logged. cbn [log set_log]. rewrite Hlog. reflexivity.
  - split; [reflexivity|]. intros Hset Hsame. exfalso.
    destruct Hm as [Hnokey | Hsent].
    + apply Hset. rewrite Henv in Hnokey. exact Hnokey.
    + rewrite Hsent, Hout in Hsame. revert Hsame. apply app_one_neq.
Qed.

Lemma RequestLogin_mail_failure_absorbed_witness :
  fst (run (AuthHandler.RequestLogin sample_handler (login_request "new@ex.com")) mail_world)
  = link_delayed.
Proof.
  destruct (@RequestLogin_mail_failure_absorbed sample_handler
              (login_request "new@ex.com") mail_world)
    as (_ & Hdelayed).
  - vm_compute. discriminate.
  - apply Hdelayed.
    + vm_compute. discriminate.
    + reflexivity.
Defined.

(* ------------------------------------------------------------------ *)
(** ** Submitting feedback *)

(** A request whose key has a record answers with that record and leaves
    the collection and the goroutines alone. *)
Lemma SubmitFeedback_replay (key : string) (r : FeedbackHandler.FeedbackHTTP)
      (f : Feedback.t) (w : World) :
  key <> EmptyString ->
  submits key r ->
  feedback_record key w = Some f ->
  run (FeedbackHandler.SubmitFeedback r) w =
  if served w then (feedback_exists f, answered w)
  else (internal_server_error,
        logged ("Error checking idempotency: " ++ Error unavailable) (answered w)).
Proof.
  intros Hkey (Huser & req & Hbody & Htext & <-) Hrec.
  rewrite (SubmitFeedback_run r w Huser Hbody Htext Hkey), Hrec.
  reflexivity.
Qed.

Lemma replays_change_nothing (key : string) (f : Feedback.t)
      (rs : list FeedbackHandler.FeedbackHTTP) :
  key <> EmptyString ->
  Forall (submits key) rs ->
  forall w : World,
    feedback_record key w = Some f ->
    feedbacks (store (snd (serve_all rs w))) = feedbacks (store w) /\
    goroutines (snd (serve_all rs w)) = goroutines w /\
    Forall (fun resp => resp = feedback_exists f \/ resp = internal_server_error)
           (fst (serve_all rs w)) /\
    (faults (store w) = [] ->
     Forall (fun resp => resp = feedback_exists f) (fst (serve_all rs w))).
Proof.
  intros Hkey Hrs. induction Hrs as [|r rs Hr _ IH]; intros w Hrec.
  - cbn. auto.
  - cbn [serve_all]. rewrite (SubmitFeedback_replay w Hkey Hr Hrec).
    destruct (served w) eqn:Hup.
    + assert (Hrec' : feedback_record key (answered w) = Some f) by exact Hrec.
      destruct (IH _ Hrec') as (Hf & Hg & Hall & Hok).
      destruct (serve_all rs (answered w)) as [resps w2]. cbn [fst snd] in *.
      repeat split; auto.
      intros Hfaults. constructor; [reflexivity|].
      apply Hok. cbn. rewrite Hfaults. reflexivity.
    + set (w1 := logged _ (answered w)).
      assert (Hrec' : feedback_record key w1 = Some f) by exact Hrec.
      destruct (IH _ Hrec') as (Hf & Hg & Hall & Hok).
      destruct (serve_all rs w1) as [resps w2]. cbn [fst snd] in *.
      repeat split; auto.
      intros Hfaults. exfalso. unfold served in Hup. cbn in Hup.
      rewrite Hfaults in Hup. discriminate.
Qed.

(** What a request answered 201 has done. *)
Lemma SubmitFeedback_created (r : FeedbackHandler.FeedbackHTTP)
      (req : FeedbackHandler.SubmitFeedbackRequest) (w : World) :
  FeedbackHandler.Body r = Some req ->
  status (fst (run (FeedbackHandler.SubmitFeedback r) w)) = StatusCreated ->
  FeedbackHandler.IdempotencyKey req <> EmptyString /\
  feedback_record (FeedbackHandler.IdempotencyKey req) w = None /\
  exists f,
    fst (run (FeedbackHandler.SubmitFeedback r) w) = feedback_created f /\
    Feedback.IdempotencyKey f = FeedbackHandler.IdempotencyKey req /\
    Feedback.Text f = FeedbackHandler.Text req /\
    Feedback.Rating f = FeedbackHandler.Rating req /\
    feedbacks (store (snd (run (FeedbackHandler.SubmitFeedback r) w)))
    = (feedbacks (store w) ++ [Feedback.bson f])%list /\
    goroutines (snd (run (FeedbackHandler.SubmitFeedback r) w))
    = (goroutines w ++ [formatSlackMessage (FeedbackHandler.UserIDHex r)
                                           (FeedbackHandler.Text req)
                                           (FeedbackHandler.Rating req)])%list.
Proof.
  intros Hbody.
  destruct (String.eqb (FeedbackHandler.UserIDHex r) EmptyString) eqn:Huser.
  { unfold FeedbackHandler.SubmitFeedback. rewrite Huser. differ. }
  destruct (String.eqb (FeedbackHandler.Text req) EmptyString) eqn:Htext.
  { unfold FeedbackHandler.SubmitFeedback. rewrite Huser, Hbody, Htext. differ. }
  destruct (String.eqb (FeedbackHandler.IdempotencyKey req) EmptyString) eqn:Hkey.
  { unfold FeedbackHandler.SubmitFeedback. rewrite Huser, Hbody, Htext, Hkey. differ. }
  apply String.eqb_neq in Huser, Htext, Hkey.
  rewrite (SubmitFeedback_run r w Huser Hbody Htext Hkey).
  destruct (served w); [|differ].
  destruct (feedback_record _ w) eqn:Hrec; [differ|].
  destruct (ObjectIDFromHex _) as [e|userID]; [differ|].
  rewrite run_FeedbackRepo_Create. cbv zeta. cbn [fst snd].
  set (doc := Feedback.withCreatedAt _ _).
  pose proof (feedbacks_InsertOne_world doc (tick (answered w))) as Hw. cbv zeta in Hw.
  destruct (fst (exec (feedbacks_InsertOne doc) (tick (answered w)))) as [err|id];
    cbn [fst snd]; [differ|].
  intros _. split; [exact Hkey|]. split; [reflexivity|].
  exists (Feedback.withID id doc). repeat split; try reflexivity.
  exact Hw.
Qed.

(** C7 as stated fails for calls in flight together, and the first answer
    is not the stored record to the nanosecond.  Two submissions with one
    key whose lookups are both served before either insert: with the unique
    index the second is answered 500, not with the record; on a server that
    came up without the index both are answered 201, two records are stored
    and two notifications launched.  And served one after the other from a
    clock that stands at 1ns, the first answer shows the creation time 1ns
    and the replay the stored 0. *)
Lemma SubmitFeedback_in_flight_not_idempotent :
  let r := feedback_request "0123456789abcdef01234567" "love it" 5 "k1" in
  let pool := [FeedbackHandler.SubmitFeedback r; FeedbackHandler.SubmitFeedback r] in
  let order := [0; 1; 0; 0; 0; 1; 1; 1]%nat in
  let indexed := sched order pool sample_world in
  let unindexed := sched order pool unindexed_world in
  let late := set_clock 1 [] sample_world in
  let first := run (FeedbackHandler.SubmitFeedback r) late in
  let f (id : ObjectID) (created : Time) :=
    Feedback.mk id 352125166730063718056674663%N "love it" 5 "k1" created in
  outcomes (fst indexed) = [Some (feedback_created (f 1%N 0)); Some feedback_failed] /\
  outcomes (fst unindexed)
  = [Some (feedback_created (f 2%N 0)); Some (feedback_created (f 3%N 0))] /\
  feedbacks (store (snd unindexed)) = [f 2%N 0; f 3%N 0] /\
  List.length (goroutines (snd unindexed)) = 2%nat /\
  fst first = feedback_created (f 1%N 1) /\
  fst (run (FeedbackHandler.SubmitFeedback r) (snd first)) = feedback_exists (f 1%N 0).
Proof. cbv zeta. repeat split; vm_compute; reflexivity. Qed.

(** C7, as the code has it, for requests served one after the other: once
    a request with an idempotency key was answered 201, the collection
    holds one record with that key, the one the answer shows with its
    creation time in whole milliseconds, and one goroutine was launched;
    every later request with the key writes nothing and launches nothing,
    and is answered 200 with that stored record (or 500 when the server
    does not serve its lookup). *)
Theorem SubmitFeedback_idempotent
        (r0 : FeedbackHandler.FeedbackHTTP) (req0 : FeedbackHandler.SubmitFeedbackRequest)
        (w : World) (rs : list FeedbackHandler.FeedbackHTTP) :
  FeedbackHandler.Body r0 = Some req0 ->
  status (fst (run (FeedbackHandler.SubmitFeedback r0) w)) = StatusCreated ->
  Forall (submits (FeedbackHandler.IdempotencyKey req0)) rs ->
  let key := FeedbackHandler.IdempotencyKey req0 in
  let first := run (FeedbackHandler.SubmitFeedback r0) w in
  let replays := serve_all rs (snd first) in
  exists f : Feedback.t,
    fst first = feedback_created f /\
    Feedback.IdempotencyKey f = key /\
    feedback_record key (snd first) = Some (Feedback.bson f) /\
    count_docs (by_idempotency_key key) (feedbacks (store (snd first))) = 1 /\
    goroutines (snd first)
    = (goroutines w ++ [formatSlackMessage (FeedbackHandler.UserIDHex r0)
                                           (FeedbackHandler.Text req0)
                                           (FeedbackHandler.Rating req0)])%list /\
    feedbacks (store (snd replays)) = feedbacks (store (snd first)) /\
    goroutines (snd replays) = goroutines (snd first) /\
    Forall (fun resp => resp = feedback_exists (Feedback.bson f)
                        \/ resp = internal_server_error)
           (fst replays) /\
    (faults (store (snd first)) = [] ->
     Forall (fun resp => resp = feedback_exists (Feedback.bson f)) (fst replays)).
Proof.
  intros Hbody Hcreated Hrs. cbv zeta.
  destruct (SubmitFeedback_created r0 w Hbody Hcreated)
    as (Hkey & Hnone & f & Hresp & Hfkey & _ & _ & Hstored & Hlaunched).
  assert (Hp : by_idempotency_key (FeedbackHandler.IdempotencyKey req0) (Feedback.bson f)
               = true).
  { unfold by_idempotency_key. cbn [Feedback.bson Feedback.IdempotencyKey].
    rewrite Hfkey. apply String.eqb_refl. }
  assert (Hrec : feedback_record (FeedbackHandler.IdempotencyKey req0)
                   (snd (run (FeedbackHandler.SubmitFeedback r0) w))
                 = Some (Feedback.bson f)).
  { unfold feedback_record. rewrite Hstored.
    apply find_first_app_new; [exact Hnone | exact Hp]. }
  destruct (@replays_change_nothing _ (Feedback.bson f) _ Hkey Hrs _ Hrec)
    as (Hf & Hg & Hall & Hok).
  exists f. repeat split; auto.
  rewrite Hstored, count_docs_app_one, Hp, (count_docs_none _ _ Hnone). reflexivity.
Qed.

Lemma SubmitFeedback_idempotent_witness :
  let r := feedback_request "0123456789abcdef01234567" "love it" 5 "k1" in
  let first := run (FeedbackHandler.SubmitFeedback r) sample_world in
  exists f,
    fst first = feedback_created f /\
    fst (serve_all [r; r] (snd first))
    = [feedback_exists (Feedback.bson f); feedback_exists (Feedback.bson f)] /\
    List.length (goroutines (snd (serve_all [r; r] (snd first)))) = 1%nat.
Proof.
  cbv zeta.
  destruct (@SubmitFeedback_idempotent
              (feedback_request "0123456789abcdef01234567" "love it" 5 "k1")
              (FeedbackHandler.mkSubmitFeedbackRequest "love it" 5 "k1")
              sample_world
              [feedback_request "0123456789abcdef01234567" "love it" 5 "k1";
               feedback_request "0123456789abcdef01234567" "love it" 5 "k1"])
    as (f & Hfirst & _ & _ & _ & Hlaunched & _ & Hquiet & _ & Hall).
  - reflexivity.
  - reflexivity.
  - repeat constructor; try discriminate;
      exists (FeedbackHandler.mkSubmitFeedbackRequest "love it" 5 "k1");
      repeat split; discriminate.
  - exists f. split; [exact Hfirst|]. split.
    + specialize (Hall eq_refl).
      destruct (fst (serve_all _ _)) as [|a [|b [|c l]]] eqn:E;
        try (vm_compute in E; discriminate).
      inversion Hall as [|? ? Ha Hrest]; subst.
      inversion Hrest as [|? ? Hb _]; subst. reflexivity.
    + rewrite Hquiet, Hlaunched. reflexivity.
Defined.

(** C3 as stated fails: two submissions with the same key whose lookups
    are both served before either insert; the unique index rejects the
    second insert and that request is answered 500, not with the record. *)
Lemma SubmitFeedback_race_loser_gets_500 :
  let r := feedback_request "0123456789abcdef01234567" "love it" 5 "k1" in
  let pool := [FeedbackHandler.SubmitFeedback r; FeedbackHandler.SubmitFeedback r] in
  let final := sched [0; 1; 0; 0; 0; 1; 1; 1]%nat pool sample_world in
  let f := Feedback.mk 1%N 352125166730063718056674663%N "love it" 5 "k1" 0 in
  outcomes (fst final) = [Some (feedback_created f); Some feedback_failed] /\
  feedbacks (store (snd final)) = [f] /\
  feedback_failed <> feedback_exists f.
Proof.
  cbv zeta. split; [vm_compute; reflexivity|].
  split; [vm_compute; reflexivity|]. discriminate.
Qed.

(** C3, as the code has it: a submission whose lookup was served and found
    no record, and whose insert reaches the server once another record with
    the key is there: the unique index rejects the insert, the request logs
    the error and is answered 500 'failed to submit feedback'; nothing is
    stored and no goroutine is launched. *)
Theorem SubmitFeedback_duplicate_insert_is_error
        (r : FeedbackHandler.FeedbackHTTP) (req : FeedbackHandler.SubmitFeedbackRequest)
        (userID : ObjectID) (w w' : World) (winner : Feedback.t) :
  FeedbackHandler.UserIDHex r <> EmptyString ->
  FeedbackHandler.Body r = Some req ->
  FeedbackHandler.Text req <> EmptyString ->
  FeedbackHandler.IdempotencyKey req <> EmptyString ->
  ObjectIDFromHex (FeedbackHandler.UserIDHex r) = inr userID ->
  served w = true ->
  feedback_record (FeedbackHandler.IdempotencyKey req) w = None ->
  served w' = true ->
  unique_idempotency_key (store w') = true ->
  Forall (fun d => (Feedback.ID d <= oid_counter (store w'))%N) (feedbacks (store w')) ->
  feedback_record (FeedbackHandler.IdempotencyKey req) w' = Some winner ->
  let after_lookup := fst (step (FeedbackHandler.SubmitFeedback r) w) in
  fst (run after_lookup w') = feedback_failed /\
  feedbacks (store (snd (run after_lookup w'))) = feedbacks (store w') /\
  goroutines (snd (run after_lookup w')) = goroutines w' /\
  log (snd (run after_lookup w'))
  = (log w' ++ [("Error creating feedback: "
                 ++ Error (ErrDuplicateKey "idempotency_key_1"))%string])%list.
Proof.
  intros Huser Hbody Htext Hkey Hhex Hup Hmiss Hup' Hdecl Hfresh Hdup. cbv zeta.
  unfold FeedbackHandler.SubmitFeedback.
  rewrite (eqb_empty_false Huser), Hbody, (eqb_empty_false Htext), (eqb_empty_false Hkey).
  unfold FeedbackRepo.FindByIdempotencyKey. expose. cbn [pbind call step].
  assert (Hlook : exec (feedbacks_FindOne (FeedbackHandler.IdempotencyKey req)) w
                  = (inl ErrNoDocuments, answered w)).
  { cbn [exec]. unfold on_store, find_one. cbn.
    unfold served in Hup. cbn in Hup.
    destruct (hd false (faults (store w))); [discriminate|].
    unfold feedback_record in Hmiss. rewrite Hmiss. reflexivity. }
  rewrite Hlook. cbn [fst pbind error_eqb_NoDocuments]. rewrite Hhex.
  fold (new_feedback userID req).
  rewrite run_bind, run_FeedbackRepo_Create. cbv zeta.
  rewrite (@feedbacks_InsertOne_rejects
             (Feedback.withCreatedAt (reading w') (new_feedback userID req))
             winner (tick w') Hup' eq_refl Hfresh Hdecl Hdup).
  cbn [fst snd]. repeat split.
Qed.

Lemma SubmitFeedback_duplicate_insert_is_error_witness :
  let r := feedback_request "0123456789abcdef01234567" "love it" 5 "k1" in
  let w' := snd (run (FeedbackHandler.SubmitFeedback r) sample_world) in
  fst (run (fst (step (FeedbackHandler.SubmitFeedback r) sample_world)) w')
  = feedback_failed.
Proof.
  cbv zeta.
  destruct (@SubmitFeedback_duplicate_insert_is_error
              (feedback_request "0123456789abcdef01234567" "love it" 5 "k1")
              (FeedbackHandler.mkSubmitFeedbackRequest "love it" 5 "k1")
              352125166730063718056674663%N
              sample_world
              (snd (run (FeedbackHandler.SubmitFeedback
                           (feedback_request "0123456789abcdef01234567" "love it" 5 "k1"))
                        sample_world))
              (Feedback.mk 1%N 352125166730063718056674663%N "love it" 5 "k1" 0))
    as (Hfailed & _).
  - discriminate.
  - reflexivity.
  - discriminate.
  - discriminate.
  - reflexivity.
  - reflexivity.
  - reflexivity.
  - reflexivity.
  - reflexivity.
  - repeat constructor. vm_compute. discriminate.
  - reflexivity.
  - exact Hfailed.
Defined.

(* ------------------------------------------------------------------ *)
(** ** More on requesting a login link *)

Lemma sendLoginEmail_store (to link : string) (w : World) :
  store (snd (run (sendLoginEmail to link) w)) = store w.
Proof.
  rewrite run_sendLoginEmail.
  destruct (String.eqb _ EmptyString); [reflexivity|].
  destruct (resend w _ _); reflexivity.
Qed.

(** The struct [AuthTokenRepo.Create] returns: the caller's, with the clock
    reading as creation time (and the ObjectID when the insert went
    through). *)
Lemma AuthTokenRepo_Create_fields (t : AuthToken.t) (w : World) :
  let t' := fst (fst (run (AuthTokenRepo.Create t) w)) in
  AuthToken.Email t' = AuthToken.Email t /\
  AuthToken.Token t' = AuthToken.Token t /\
  AuthToken.ExpiresAt t' = AuthToken.ExpiresAt t /\
  AuthToken.IsUsed t' = AuthToken.IsUsed t /\
  AuthToken.CreatedAt t' = reading w.
Proof.
  cbv zeta. rewrite run_AuthTokenRepo_Create. cbv zeta.
  destruct (fst (exec _ _)); cbn; repeat split.
Qed.

Lemma AuthTokenRepo_Create_store (t : AuthToken.t) (w : World) :
  users (store (snd (run (AuthTokenRepo.Create t) w))) = users (store w) /\
  feedbacks (store (snd (run (AuthTokenRepo.Create t) w))) = feedbacks (store w).
Proof.
  rewrite run_AuthTokenRepo_Create. cbv zeta. cbn [snd].
  pose proof (tokens_InsertOne_world (AuthToken.withCreatedAt (reading w) t) (tick w)) as H.
  cbv zeta in H. destruct H as (Hu & Hf & _). split; assumption.
Qed.

(** Everything a login request with an email can do to the world, by the
    answer it gives. *)
Lemma RequestLogin_effect (h : AuthHandler.t) (r : AuthHandler.LoginHTTP)
      (req : AuthHandler.RequestLoginRequest) (w : World) :
  AuthHandler.Body r = Some req ->
  AuthHandler.Email req <> EmptyString ->
  let resp := fst (run (AuthHandler.RequestLogin h r) w) in
  let w' := snd (run (AuthHandler.RequestLogin h r) w) in
  let email := AuthHandler.Email req in
  let link := login_link r w (entropy w (drawn w)) in
  users (store w') = users (store w) /\
  feedbacks (store w') = feedbacks (store w) /\
  ((auth_tokens (store w') = auth_tokens (store w) /\ outbox w' = outbox w /\
    (resp = internal_server_error \/ resp = too_many_requests \/ resp = login_token_failed))
   \/
   (exists t : AuthToken.t,
       auth_tokens (store w') = (auth_tokens (store w) ++ [t])%list /\
       AuthToken.Email t = email /\
       AuthToken.Token t = entropy w (drawn w) /\
       AuthToken.IsUsed t = false /\
       AuthToken.ExpiresAt t = through_bson (Add (reading (tick w)) (15 * Minute)) /\
       AuthToken.CreatedAt t = through_bson (reading (tick (tick w))))
   /\
   ((environ w "RESEND_API_KEY" = EmptyString /\ resp = link_sent /\ outbox w' = outbox w /\
     log w' = (log w ++ ["⚠️  RESEND_API_KEY not set, skipping email send"%string;
                         ("📧 [Dev Mode] Login link for " ++ email ++ ": " ++ link)%string])%list)
    \/
    (environ w "RESEND_API_KEY" <> EmptyString /\ resp = link_delayed /\ outbox w' = outbox w)
    \/
    (environ w "RESEND_API_KEY" <> EmptyString /\ resp = link_sent /\
     outbox w' = (outbox w ++ [login_email w email link])%list))).
Proof.
  intros Hbody Hemail. cbv zeta.
  rewrite (RequestLogin_run h r w Hbody Hemail). cbv zeta.
  destruct (served w); [|cbn; repeat split; left; repeat split; auto].
  destruct (5 <=? _); [cbn; repeat split; left; repeat split; auto|].
  set (w2 := tick (drew (answered (tick w)))).
  set (t := login_token _ _ _).
  pose proof (AuthTokenRepo_Create_world t w2) as Hw.
  pose proof (AuthTokenRepo_Create_fields t w2) as Hfields.
  pose proof (AuthTokenRepo_Create_store t w2) as Hstore.
  cbv zeta in Hw, Hfields.
  destruct (run (AuthTokenRepo.Create t) w2) as [[t' err] w3]. cbn [fst snd] in *.
  destruct Hw as (Hlog & Hout & Henv & Hres & Htokens).
  destruct Hstore as (Husers & Hfeedbacks).
  destruct err as [err|].
  { cbn [fst snd]. split; [exact Husers|]. split; [exact Hfeedbacks|].
    left. split; [exact Htokens|]. split; [exact Hout|]. auto. }
  pose proof (run_sendLoginEmail (AuthHandler.Email req)
                (login_link r w (entropy w (drawn w))) w3) as Hrun.
  pose proof (sendLoginEmail_store (AuthHandler.Email req)
                (login_link r w (entropy w (drawn w))) w3) as Hst.
  destruct (run (sendLoginEmail _ _) w3) as [merr w4]. cbn [fst snd] in *.
  assert (Hst' : store (snd (match merr with
                             | Some err =>
                                 (link_delayed,
                                  logged ("Error sending email: " ++ Error err) w4)
                             | None => (link_sent, w4)
                             end)) = store w3).
  { destruct merr; exact Hst. }
  rewrite Hst'. split; [exact Husers|]. split; [exact Hfeedbacks|].
  right. split.
  { exists (AuthToken.bson t'). split; [exact Htokens|].
    destruct Hfields as (He & Ht & Hx & Hu & Hc).
    cbn [AuthToken.bson AuthToken.Email AuthToken.Token AuthToken.IsUsed
         AuthToken.ExpiresAt AuthToken.CreatedAt].
    rewrite Hx, Hc. repeat split; assumption. }
  rewrite Henv, Hres in Hrun.
  change (environ w2) with (environ w) in Hrun.
  change (resend w2) with (resend w) in Hrun.
  destruct (String.eqb (environ w "RESEND_API_KEY") EmptyString) eqn:Hkey.
  - apply String.eqb_eq in Hkey. injection Hrun as -> ->. left.
    split; [exact Hkey|]. split; [reflexivity|]. cbn [snd].
    split; [exact Hout|].
    unfold logged. cbn [log set_log]. rewrite Hlog, <- app_assoc. reflexivity.
  - apply String.eqb_neq in Hkey. right.
    assert (Hmsg : login_email w3 (AuthHandler.Email req)
                     (login_link r w (entropy w (drawn w)))
                   = login_email w (AuthHandler.Email req)
                       (login_link r w (entropy w (drawn w)))).
    { unfold login_email. rewrite Henv. reflexivity. }
    rewrite Hmsg in Hrun.
    destruct (resend w _ _) as [e|sentId]; injection Hrun as -> ->.
    + left. split; [exact Hkey|]. split; [reflexivity|]. exact Hout.
    + right. split; [exact Hkey|]. split; [reflexivity|].
      cbn [snd]. unfold logged, delivered. cbn [outbox set_log set_outbox].
      rewrite Hout. reflexivity.
Qed.

Lemma issued_within_app_one (email : string) (now : Time) (window : Duration)
      (l : list AuthToken.t) (t : AuthToken.t) :
  issued_within email now window (l ++ [t])
  = issued_within email now window l
    + (if String.eqb (AuthToken.Email t) email && (now - window <=? AuthToken.CreatedAt t)
       then 1 else 0).
Proof.
  rewrite <- !count_docs_issued_within, count_docs_app_one. reflexivity.
Qed.

Lemma issued_within_ms_app_one (email : string) (now : Time) (window : Duration)
      (l : list AuthToken.t) (t : AuthToken.t) :
  issued_within_ms email now window (l ++ [t])
  = issued_within_ms email now window l
    + (if String.eqb (AuthToken.Email t) email
          && (NewDateTimeFromTime (now - window)
              <=? NewDateTimeFromTime (AuthToken.CreatedAt t))
       then 1 else 0).
Proof.
  induction l as [|a l IH]; cbn [app issued_within_ms]; [lia|].
  rewrite IH. lia.
Qed.

Lemma issued_within_ms_range (email : string) (now : Time) (window : Duration)
      (l : list AuthToken.t) :
  0 <= issued_within_ms email now window l <= Z.of_nat (List.length l).
Proof.
  induction l as [|a l IH]; cbn [issued_within_ms List.length]; [lia|].
  destruct (_ && _); lia.
Qed.

Lemma NewDateTimeFromTime_mono (t u : Time) :
  t <= u -> NewDateTimeFromTime t <= NewDateTimeFromTime u.
Proof.
  intros H. unfold NewDateTimeFromTime.
  apply Z.div_le_mono; [unfold Millisecond, Nanosecond; lia | exact H].
Qed.

Lemma issued_within_ms_later (email : string) (now1 now2 : Time) (window : Duration)
      (l : list AuthToken.t) :
  now1 <= now2 ->
  issued_within_ms email now2 window l <= issued_within_ms email now1 window l.
Proof.
  intros Hle. induction l as [|a l IH]; cbn [issued_within_ms]; [lia|].
  pose proof (@NewDateTimeFromTime_mono (now1 - window) (now2 - window) ltac:(lia)).
  destruct (String.eqb (AuthToken.Email a) email); cbn [andb]; [|lia].
  destruct (Z.leb_spec (NewDateTimeFromTime (now1 - window))
                       (NewDateTimeFromTime (AuthToken.CreatedAt a)));
    destruct (Z.leb_spec (NewDateTimeFromTime (now2 - window))
                         (NewDateTimeFromTime (AuthToken.CreatedAt a))); lia.
Qed.

Lemma issued_within_bounds (email : string) (now : Time) (window : Duration)
      (l : list AuthToken.t) :
  0 <= issued_within email now window l <= Z.of_nat (List.length l).
Proof.
  induction l as [|a l IH]; cbn [issued_within List.length]; [lia|].
  destruct (_ && _); lia.
Qed.

Lemma issued_within_later (email : string) (now1 now2 : Time) (window : Duration)
      (l : list AuthToken.t) :
  now1 <= now2 ->
  issued_within email now2 window l <= issued_within email now1 window l.
Proof.
  intros Hle. induction l as [|a l IH]; cbn [issued_within]; [lia|].
  destruct (String.eqb (AuthToken.Email a) email); cbn [andb]; [|lia].
  destruct (Z.leb_spec (now2 - window) (AuthToken.CreatedAt a));
    destruct (Z.leb_spec (now1 - window) (AuthToken.CreatedAt a)); lia.
Qed.

(** X1: a request without a decodable body or with an empty email is the
    only one answered 400, and it leaves the world as it found it. *)
Theorem RequestLogin_bad_request_iff
        (h : AuthHandler.t) (r : AuthHandler.LoginHTTP) (w : World) :
  let resp := fst (run (AuthHandler.RequestLogin h r) w) in
  (status resp = StatusBadRequest
   <-> (AuthHandler.Body r = None \/
        exists req, AuthHandler.Body r = Some req /\ AuthHandler.Email req = EmptyString)) /\
  (status resp = StatusBadRequest -> snd (run (AuthHandler.RequestLogin h r) w) = w).
Proof.
  cbv zeta.
  destruct (AuthHandler.Body r) as [req|] eqn:Hbody.
  2:{ unfold AuthHandler.RequestLogin. rewrite Hbody. cbn. split; [|reflexivity].
      split; [left; reflexivity | reflexivity]. }
  destruct (String.eqb (AuthHandler.Email req) EmptyString) eqn:Hemail.
  { unfold AuthHandler.RequestLogin. rewrite Hbody, Hemail. cbn. split; [|reflexivity].
    apply String.eqb_eq in Hemail.
    split; [intros _; right; exists req; auto | reflexivity]. }
  apply String.eqb_neq in Hemail.
  assert (Hnot : status (fst (run (AuthHandler.RequestLogin h r) w)) <> StatusBadRequest).
  { destruct (RequestLogin_effect h r w Hbody Hemail) as (_ & _ & H). cbv zeta in H.
    destruct H as [(_ & _ & [-> | [-> | ->]]) | (_ & [(_ & -> & _) | [(_ & -> & _) | (_ & -> & _)]])];
      cbn; discriminate. }
  split; [|intros H; contradiction].
  split; [intros H; contradiction|].
  intros [H | (req' & H & Hempty)]; [discriminate|].
  injection H as <-. contradiction.
Qed.

(** X2: when the server does not serve the count, the request fails closed:
    500, the error logged, no token value drawn, none stored, no mail. *)
Theorem RequestLogin_count_unserved
        (h : AuthHandler.t) (r : AuthHandler.LoginHTTP)
        (req : AuthHandler.RequestLoginRequest) (w : World) :
  AuthHandler.Body r = Some req ->
  AuthHandler.Email req <> EmptyString ->
  served w = false ->
  let w' := snd (run (AuthHandler.RequestLogin h r) w) in
  fst (run (AuthHandler.RequestLogin h r) w) = internal_server_error /\
  auth_tokens (store w') = auth_tokens (store w) /\
  outbox w' = outbox w /\ drawn w' = drawn w /\
  log w' = (log w ++ [("Error checking rate limit: " ++ Error unavailable)%string])%list.
Proof.
  intros Hbody Hemail Hdown. cbv zeta.
  rewrite (RequestLogin_run h r w Hbody Hemail), Hdown. cbv zeta. cbn [fst snd].
  repeat split.
Qed.

Lemma RequestLogin_count_unserved_witness :
  fst (run (AuthHandler.RequestLogin sample_handler (login_request "a@ex.com"))
           (failing [true] sample_world))
  = internal_server_error.
Proof.
  destruct (@RequestLogin_count_unserved sample_handler (login_request "a@ex.com")
              (AuthHandler.mkRequestLoginRequest "a@ex.com") (failing [true] sample_world))
    as (H & _).
  - reflexivity.
  - discriminate.
  - reflexivity.
  - exact H.
Defined.

(** X3: a login request never touches the users or the feedback, and the
    most it does to the tokens is append one record: for the request's
    email, unused, with the token value drawn for the request.  The
    collection holds its two times in whole milliseconds: the expiry is 15
    minutes after a clock reading of the request, rounded down to the
    millisecond, and the creation time a later clock reading of the
    request, rounded down likewise; so the stored expiry is 15 minutes
    after the start of a millisecond that is no later than the stored
    creation time. *)
Theorem RequestLogin_stores_at_most_one_token
        (h : AuthHandler.t) (r : AuthHandler.LoginHTTP) (w : World) :
  let w' := snd (run (AuthHandler.RequestLogin h r) w) in
  users (store w') = users (store w) /\
  feedbacks (store w') = feedbacks (store w) /\
  (auth_tokens (store w') = auth_tokens (store w) \/
   exists (req : AuthHandler.RequestLoginRequest) (t : AuthToken.t) (now created : Time),
     AuthHandler.Body r = Some req /\
     auth_tokens (store w') = (auth_tokens (store w) ++ [t])%list /\
     AuthToken.Email t = AuthHandler.Email req /\
     AuthToken.Token t = entropy w (drawn w) /\
     AuthToken.IsUsed t = false /\
     reading w <= now <= created /\
     AuthToken.ExpiresAt t = through_bson (now + 15 * Minute) /\
     AuthToken.CreatedAt t = through_bson created /\
     AuthToken.ExpiresAt t = through_bson now + 15 * Minute /\
     through_bson now <= AuthToken.CreatedAt t).
Proof.
  cbv zeta.
  destruct (AuthHandler.Body r) as [req|] eqn:Hbody.
  2:{ unfold AuthHandler.RequestLogin. rewrite Hbody. cbn. auto. }
  destruct (String.eqb (AuthHandler.Email req) EmptyString) eqn:Hemail.
  { unfold AuthHandler.RequestLogin. rewrite Hbody, Hemail. cbn. auto. }
  apply String.eqb_neq in Hemail.
  destruct (RequestLogin_effect h r w Hbody Hemail) as (Hu & Hf & H). cbv zeta in H.
  split; [exact Hu|]. split; [exact Hf|].
  destruct H as [(Ht & _) | ((t & Ht & He & Hv & Hused & Hx & Hc) & _)]; [left; exact Ht|].
  right. exists req, t, (reading (tick w)), (reading (tick (tick w))).
  split; [reflexivity|]. split; [exact Ht|]. split; [exact He|].
  split; [exact Hv|]. split; [exact Hused|].
  split; [split; apply reading_le_tick|].
  split; [exact Hx|]. split; [exact Hc|]. split.
  - rewrite Hx. unfold Add.
    change (15 * Minute) with (900000 * Millisecond).
    apply through_bson_add_whole.
  - rewrite Hc. apply through_bson_mono. apply reading_le_tick.
Qed.

(** X4: a message goes to the mail API only for a token the request has
    stored: it is addressed to the request's email alone, and its body is
    the login page for the link that carries that token's value; the
    answer is then 'login link sent to your email'. *)
Theorem RequestLogin_mails_only_stored_token
        (h : AuthHandler.t) (r : AuthHandler.LoginHTTP) (w : World) :
  let w' := snd (run (AuthHandler.RequestLogin h r) w) in
  outbox w' <> outbox w ->
  exists (req : AuthHandler.RequestLoginRequest) (t : AuthToken.t) (msg : SendEmailRequest),
    AuthHandler.Body r = Some req /\
    fst (run (AuthHandler.RequestLogin h r) w) = link_sent /\
    auth_tokens (store w') = (auth_tokens (store w) ++ [t])%list /\
    outbox w' = (outbox w ++ [msg])%list /\
    To msg = [AuthHandler.Email req] /\
    From msg = environ w "FROM_EMAIL" /\
    Html msg = login_email_html (login_link r w (AuthToken.Token t)).
Proof.
  cbv zeta.
  destruct (AuthHandler.Body r) as [req|] eqn:Hbody.
  2:{ unfold AuthHandler.RequestLogin. rewrite Hbody. cbn. congruence. }
  destruct (String.eqb (AuthHandler.Email req) EmptyString) eqn:Hemail.
  { unfold AuthHandler.RequestLogin. rewrite Hbody, Hemail. cbn. congruence. }
  apply String.eqb_neq in Hemail.
  destruct (RequestLogin_effect h r w Hbody Hemail) as (_ & _ & H). cbv zeta in H.
  intros Hsent.
  destruct H as [(_ & Hout & _) | ((t & Ht & _ & Hv & _) & H)]; [contradiction|].
  destruct H as [(_ & _ & Hout & _) | [(_ & _ & Hout) | (_ & Hresp & Hout)]];
    try contradiction.
  exists req, t, (login_email w (AuthHandler.Email req)
                              (login_link r w (entropy w (drawn w)))).
  rewrite Hv. repeat split; auto.
Qed.

Lemma RequestLogin_mails_only_stored_token_witness :
  exists msg,
    outbox (snd (run (AuthHandler.RequestLogin sample_handler (login_request "new@ex.com"))
                     delivering_world)) = [msg] /\
    To msg = ["new@ex.com"].
Proof.
  destruct (@RequestLogin_mails_only_stored_token sample_handler
              (login_request "new@ex.com") delivering_world)
    as (req & t & msg & Hbody & _ & _ & Hout & Hto & _).
  - vm_compute. discriminate.
  - exists msg. split; [exact Hout|].
    rewrite Hto. injection Hbody as <-. reflexivity.
Defined.

(** X5: without a mail API key nothing is mailed: a request that stored a
    token is answered 'login link sent to your email' all the same, and the
    link with the token value goes to the log. *)
Theorem RequestLogin_without_mail_key
        (h : AuthHandler.t) (r : AuthHandler.LoginHTTP)
        (req : AuthHandler.RequestLoginRequest) (w : World) :
  AuthHandler.Body r = Some req ->
  environ w "RESEND_API_KEY" = EmptyString ->
  let w' := snd (run (AuthHandler.RequestLogin h r) w) in
  auth_tokens (store w') <> auth_tokens (store w) ->
  fst (run (AuthHandler.RequestLogin h r) w) = link_sent /\
  outbox w' = outbox w /\
  log w' = (log w ++ ["⚠️  RESEND_API_KEY not set, skipping email send"%string;
                      ("📧 [Dev Mode] Login link for " ++ AuthHandler.Email req ++ ": "
                       ++ login_link r w (entropy w (drawn w)))%string])%list.
Proof.
  intros Hbody Hkey. cbv zeta.
  destruct (String.eqb (AuthHandler.Email req) EmptyString) eqn:Hemail.
  { unfold AuthHandler.RequestLogin. rewrite Hbody, Hemail. cbn. congruence. }
  apply String.eqb_neq in Hemail.
  destruct (RequestLogin_effect h r w Hbody Hemail) as (_ & _ & H). cbv zeta in H.
  intros Hstored.
  destruct H as [(Ht & _) | (_ & H)]; [contradiction|].
  destruct H as [(_ & Hresp & Hout & Hlog) | [(Hset & _) | (Hset & _)]];
    try contradiction.
  auto.
Qed.

Lemma RequestLogin_without_mail_key_witness :
  fst (run (AuthHandler.RequestLogin sample_handler (login_request "new@ex.com"))
           sample_world) = link_sent /\
  outbox (snd (run (AuthHandler.RequestLogin sample_handler (login_request "new@ex.com"))
                   sample_world)) = [].
Proof.
  destruct (@RequestLogin_without_mail_key sample_handler (login_request "new@ex.com")
              (AuthHandler.mkRequestLoginRequest "new@ex.com") sample_world)
    as (Hresp & Hout & _).
  - reflexivity.
  - reflexivity.
  - vm_compute. discriminate.
  - split; [exact Hresp | exact Hout].
Defined.

(** X6: the limit is per email: a login request changes the count of no
    other email, as the specification counts and as the program counts,
    and a token it stores raises the count of its own email by exactly one
    for every window that reaches back to its stored creation time, which
    is no earlier than the start of the millisecond the request began
    in. *)
Theorem RequestLogin_counts_own_email_only
        (h : AuthHandler.t) (r : AuthHandler.LoginHTTP)
        (req : AuthHandler.RequestLoginRequest) (w : World) :
  AuthHandler.Body r = Some req ->
  let w' := snd (run (AuthHandler.RequestLogin h r) w) in
  (forall (other : string) (now : Time) (window : Duration),
      other <> AuthHandler.Email req ->
      issued_within other now window (auth_tokens (store w'))
      = issued_within other now window (auth_tokens (store w)) /\
      issued_within_ms other now window (auth_tokens (store w'))
      = issued_within_ms other now window (auth_tokens (store w))) /\
  (auth_tokens (store w') <> auth_tokens (store w) ->
   exists created : Time,
     through_bson (reading w) <= created /\
     forall (now : Time) (window : Duration),
       now - window <= created ->
       issued_within (AuthHandler.Email req) now window (auth_tokens (store w'))
       = issued_within (AuthHandler.Email req) now window (auth_tokens (store w)) + 1).
Proof.
  intros Hbody. cbv zeta.
  destruct (String.eqb (AuthHandler.Email req) EmptyString) eqn:Hemail.
  { unfold AuthHandler.RequestLogin. rewrite Hbody, Hemail. cbn.
    split; [split; reflexivity | congruence]. }
  apply String.eqb_neq in Hemail.
  destruct (RequestLogin_effect h r w Hbody Hemail) as (_ & _ & H). cbv zeta in H.
  destruct H as [(Ht & _) | ((t & Ht & He & _ & _ & _ & Hc) & _)].
  - rewrite Ht. split; [split; reflexivity | congruence].
  - rewrite Ht. split.
    + intros other now window Hother.
      rewrite issued_within_app_one, issued_within_ms_app_one, He.
      assert (Hne : String.eqb (AuthHandler.Email req) other = false).
      { apply String.eqb_neq. congruence. }
      rewrite Hne. cbn. lia.
    + intros _. exists (AuthToken.CreatedAt t). split.
      * rewrite Hc. apply through_bson_mono.
        pose proof (reading_le_tick w). pose proof (reading_le_tick (tick w)). lia.
      * intros now window Hcover. rewrite issued_within_app_one, He, String.eqb_refl.
        destruct (Z.leb_spec (now - window) (AuthToken.CreatedAt t)); cbn; lia.
Qed.

Lemma RequestLogin_counts_own_email_only_witness :
  let w' := snd (run (AuthHandler.RequestLogin sample_handler (login_request "b@ex.com"))
                     (busy_world (5 * Minute))) in
  issued_within "a@ex.com" (5 * Minute) (10 * Minute) (auth_tokens (store w')) = 5.
Proof.
  cbv zeta.
  destruct (@RequestLogin_counts_own_email_only sample_handler (login_request "b@ex.com")
              (AuthHandler.mkRequestLoginRequest "b@ex.com") (busy_world (5 * Minute)))
    as (Hother & _).
  - reflexivity.
  - rewrite (proj1 (Hother "a@ex.com" (5 * Minute) (10 * Minute) ltac:(discriminate))).
    reflexivity.
Defined.

(** X7: over the same tokens the count only falls as the clock advances, and
    it lies between 0 and the number of stored tokens. *)
Theorem CountRecentByEmail_falls_with_time
        (email : string) (d : Duration) (w1 w2 : World) (c1 c2 : Z) :
  auth_tokens (store w2) = auth_tokens (store w1) ->
  reading w1 <= reading w2 ->
  fst (run (AuthTokenRepo.CountRecentByEmail email d) w1) = inr c1 ->
  fst (run (AuthTokenRepo.CountRecentByEmail email d) w2) = inr c2 ->
  0 <= c2 <= c1 /\ c1 <= Z.of_nat (List.length (auth_tokens (store w1))).
Proof.
  intros Hsame Hle. rewrite !run_CountRecentByEmail, !count_docs_issued_within_ms, Hsame.
  cbn [fst]. destruct (served w1); [|discriminate]. destruct (served w2); [|discriminate].
  intros H1 H2. injection H1 as <-. injection H2 as <-.
  pose proof (issued_within_ms_later email d (auth_tokens (store w1)) Hle).
  pose proof (issued_within_ms_range email (reading w2) d (auth_tokens (store w1))).
  pose proof (issued_within_ms_range email (reading w1) d (auth_tokens (store w1))).
  lia.
Qed.

Lemma CountRecentByEmail_falls_with_time_witness :
  0 <= 4 <= 5 /\ 5 <= Z.of_nat (List.length (auth_tokens (store (busy_world (5 * Minute))))).
Proof.
  apply (@CountRecentByEmail_falls_with_time "a@ex.com" (10 * Minute)
           (busy_world (5 * Minute)) (busy_world (10 * Minute + Millisecond)) 5 4).
  - reflexivity.
  - vm_compute. discriminate.
  - reflexivity.
  - reflexivity.
Defined.

(* ------------------------------------------------------------------ *)
(** ** More on redeeming a token *)

Lemma find_first_update_first_other (Doc : Type) (p q : Doc -> bool) (f : Doc -> Doc)
      (l : list Doc) :
  (forall d, p d = true -> q d = false) ->
  (forall d, q (f d) = q d) ->
  find_first q (update_first p f l) = find_first q l.
Proof.
  intros Hpq Hf. induction l as [|x l IH]; [reflexivity|].
  cbn [update_first]. destruct (p x) eqn:Hp.
  - cbn [find_first]. rewrite Hf, (Hpq x Hp). reflexivity.
  - cbn [find_first]. rewrite IH. reflexivity.
Qed.

Lemma update_first_length (Doc : Type) (p : Doc -> bool) (f : Doc -> Doc) (l : list Doc) :
  List.length (update_first p f l) = List.length l.
Proof.
  induction l as [|x l IH]; [reflexivity|].
  cbn [update_first]. destruct (p x); cbn [List.length]; [reflexivity | rewrite IH; reflexivity].
Qed.

(** A lookup after [update_first]: the document found is the one found
    before, or what the update made of it. *)
Lemma find_first_update_first_any (Doc : Type) (p q : Doc -> bool) (f : Doc -> Doc)
      (l : list Doc) (d : Doc) :
  (forall x, q (f x) = q x) ->
  find_first q l = Some d ->
  find_first q (update_first p f l) = Some d \/
  find_first q (update_first p f l) = Some (f d).
Proof.
  intros Hf. induction l as [|x l IH]; [discriminate|].
  cbn [update_first find_first]. destruct (p x) eqn:Hp.
  - cbn [find_first]. rewrite Hf. destruct (q x); [|auto].
    intros H. injection H as <-. auto.
  - cbn [find_first]. destruct (q x); auto.
Qed.

(** What FindOrCreate does to the users: nothing, or it appends the user it
    returns (as the collection holds it), with onboarding not completed. *)
Lemma FindOrCreate_users (email : string) (w : World) :
  let r := run (UserRepo.FindOrCreate email) w in
  feedbacks (store (snd r)) = feedbacks (store w) /\
  outbox (snd r) = outbox w /\ goroutines (snd r) = goroutines w /\
  (users (store (snd r)) = users (store w) \/
   exists u, fst r = inr u /\
             users (store (snd r)) = (users (store w) ++ [User.bson u])%list /\
             User.Email u = email /\ User.OnboardingCompleted u = false).
Proof.
  cbv zeta. rewrite run_FindOrCreate.
  destruct (served w); [|cbn; auto].
  destruct (user_record email w); [cbn; auto|].
  cbv zeta. cbn [fst snd].
  pose proof (users_InsertOne_world (new_user email (answered w))
                                    (tick (tick (answered w)))) as H.
  cbv zeta in H. destruct H as (_ & Hf & _ & Hg & Ho & _ & _ & _ & _ & Hu).
  rewrite Hf, Hg, Ho.
  split; [reflexivity|]. split; [reflexivity|]. split; [reflexivity|].
  destruct (fst (exec _ _)) as [e|id]; [left; exact Hu|].
  right. eexists. split; [reflexivity|]. split; [exact Hu|]. split; reflexivity.
Qed.

(** Everything [redeem_found] can do to the world. *)
Lemma redeem_found_effect (h : AuthHandler.t) (tok : string) (a : AuthToken.t) (w1 : World) :
  let resp := fst (redeem_found h tok a w1) in
  let w' := snd (redeem_found h tok a w1) in
  feedbacks (store w') = feedbacks (store w1) /\
  outbox w' = outbox w1 /\ goroutines w' = goroutines w1 /\
  (((resp = token_expired \/ resp = token_already_used) /\
    store w' = store w1 /\ log w' = log w1)
   \/
   (resp = internal_server_error /\ auth_tokens (store w') = auth_tokens (store w1) /\
    users (store w') = users (store w1))
   \/
   (auth_tokens (store w')
    = update_first (by_token tok) (AuthToken.withIsUsed true) (auth_tokens (store w1)) /\
    (resp = internal_server_error \/
     exists s u, resp = session s u /\ User.Email u = AuthToken.Email a) /\
    (users (store w') = users (store w1) \/
     exists u, users (store w') = (users (store w1) ++ [u])%list /\
               User.Email u = AuthToken.Email a /\
               User.OnboardingCompleted u = false))).
Proof.
  cbv zeta. unfold redeem_found.
  destruct (After _ _); [cbn; repeat split; left; repeat split; auto|].
  destruct (AuthToken.IsUsed a); [cbn; repeat split; left; repeat split; auto|].
  cbv zeta.
  destruct (served (tick w1)); [|cbn; repeat split; right; left; repeat split].
  set (wM := mark_used tok (answered (tick w1))).
  pose proof (FindOrCreate_users (AuthToken.Email a) wM) as Hu.
  pose proof (FindOrCreate_world (AuthToken.Email a) wM) as Hw.
  pose proof (run_FindOrCreate (AuthToken.Email a) wM) as Hrun.
  cbv zeta in Hu, Hw.
  destruct (run (UserRepo.FindOrCreate (AuthToken.Email a)) wM) as [res w3].
  cbn [fst snd] in *.
  destruct Hu as (Hf & Ho & Hg & Husers). destruct Hw as (Ht & Hl & Hs).
  assert (Hfound : forall u, res = inr u -> User.Email u = AuthToken.Email a).
  { intros u ->. revert Hrun. destruct (served wM); [|discriminate].
    destruct (user_record (AuthToken.Email a) wM) as [u0|] eqn:Hrec.
    - intros H. injection H as Heq _. rewrite Heq.
      destruct (find_first_some _ _ Hrec) as [Hp _].
      unfold by_email in Hp. apply String.eqb_eq in Hp. exact Hp.
    - cbv zeta. destruct (fst (exec _ _)); intros H; [discriminate|].
      injection H as Heq _. rewrite Heq. reflexivity. }
  assert (Husers' : users (store w3) = users (store w1) \/
                    exists u, users (store w3) = (users (store w1) ++ [u])%list /\
                              User.Email u = AuthToken.Email a /\
                              User.OnboardingCompleted u = false).
  { destruct Husers as [H | (u & _ & H & He & Hb)]; [left; exact H|].
    right. exists (User.bson u). split; [exact H|]. split; [exact He | exact Hb]. }
  destruct res as [err|user].
  - cbn [fst snd]. split; [exact Hf|]. split; [exact Ho|]. split; [exact Hg|].
    right. right. split; [exact Ht|]. split; [left; reflexivity | exact Husers'].
  - cbv zeta. destruct (signer _ _ _) as [err|s]; cbn [fst snd].
    + split; [exact Hf|]. split; [exact Ho|]. split; [exact Hg|].
      right. right. split; [exact Ht|]. split; [left; reflexivity | exact Husers'].
    + split; [exact Hf|]. split; [exact Ho|]. split; [exact Hg|].
      right. right. split; [exact Ht|]. split; [|exact Husers'].
      right. exists s, user. split; [reflexivity | auto].
Qed.

(** Everything a redemption request can do to the world. *)
Lemma VerifyToken_effect (h : AuthHandler.t) (tok : string) (w : World) :
  let resp := fst (run (AuthHandler.VerifyToken h tok) w) in
  let w' := snd (run (AuthHandler.VerifyToken h tok) w) in
  feedbacks (store w') = feedbacks (store w) /\
  outbox w' = outbox w /\ goroutines w' = goroutines w /\
  (auth_tokens (store w') = auth_tokens (store w) \/
   auth_tokens (store w')
   = update_first (by_token tok) (AuthToken.withIsUsed true) (auth_tokens (store w))) /\
  (users (store w') = users (store w) \/
   exists u, users (store w') = (users (store w) ++ [u])%list /\
             User.OnboardingCompleted u = false) /\
  (resp = token_required \/ resp = invalid_token \/ resp = token_expired \/
   resp = token_already_used \/ resp = internal_server_error \/
   exists s u, resp = session s u) /\
  (status resp = StatusBadRequest \/ status resp = StatusUnauthorized ->
   auth_tokens (store w') = auth_tokens (store w) /\
   users (store w') = users (store w) /\ log w' = log w).
Proof.
  cbv zeta.
  destruct (String.eqb tok EmptyString) eqn:Htok.
  { unfold AuthHandler.VerifyToken. rewrite Htok. cbn.
    split; [|split; [|split; [|split; [|split; [|split]]]]]; auto. }
  apply String.eqb_neq in Htok. rewrite (VerifyToken_run h w Htok).
  destruct (served w).
  2:{ cbn [fst snd].
      split; [|split; [|split; [|split; [|split; [|split]]]]]; auto 6.
      intros [H | H]; revert H; differ. }
  destruct (token_record tok w) as [a|].
  2:{ cbn [fst snd].
      split; [|split; [|split; [|split; [|split; [|split]]]]]; auto. }
  pose proof (redeem_found_effect h tok a (answered w)) as H. cbv zeta in H.
  destruct (redeem_found h tok a (answered w)) as [resp w']. cbn [fst snd] in *.
  destruct H as (Hf & Ho & Hg & H).
  split; [exact Hf|]. split; [exact Ho|]. split; [exact Hg|].
  destruct H as [(Hresp & Hst & Hl) | [(Hresp & Ht & Hu) | (Ht & Hresp & Hu)]].
  - rewrite Hst. split; [left; reflexivity|]. split; [left; reflexivity|].
    split; [destruct Hresp as [-> | ->]; auto 6|].
    intros _. repeat split. exact Hl.
  - split; [left; exact Ht|]. split; [left; exact Hu|].
    split; [auto 6|]. rewrite Hresp. intros [H | H]; revert H; differ.
  - split; [right; exact Ht|].
    split; [destruct Hu as [Hu | (u & Hu & _ & Hb)]; [left; exact Hu | right; exists u; auto]|].
    split.
    + destruct Hresp as [-> | (s & u & -> & _)]; [auto 6|].
      do 5 right. exists s, u. reflexivity.
    + destruct Hresp as [-> | (s & u & -> & _)]; intros [H | H]; revert H; differ.
Qed.

(** X8: a request answered 400 or 401 has written nothing: the tokens and
    the users are as before, nothing is logged, mailed or launched. *)
Theorem VerifyToken_refusal_changes_nothing
        (h : AuthHandler.t) (tok : string) (w : World) :
  let resp := fst (run (AuthHandler.VerifyToken h tok) w) in
  let w' := snd (run (AuthHandler.VerifyToken h tok) w) in
  status resp = StatusBadRequest \/ status resp = StatusUnauthorized ->
  auth_tokens (store w') = auth_tokens (store w) /\
  users (store w') = users (store w) /\
  feedbacks (store w') = feedbacks (store w) /\
  log w' = log w /\ outbox w' = outbox w /\ goroutines w' = goroutines w.
Proof.
  cbv zeta. intros Hrefused.
  destruct (VerifyToken_effect h tok w) as (Hf & Ho & Hg & _ & _ & _ & H). cbv zeta in H.
  destruct (H Hrefused) as (Ht & Hu & Hl). repeat split; assumption.
Qed.

Lemma VerifyToken_refusal_changes_nothing_witness :
  auth_tokens (store (snd (run (AuthHandler.VerifyToken sample_handler "t-1")
                               (login_world (16 * Minute) []))))
  = auth_tokens (store (login_world (16 * Minute) [])).
Proof.
  destruct (@VerifyToken_refusal_changes_nothing sample_handler "t-1"
              (login_world (16 * Minute) [])) as (H & _).
  - right. reflexivity.
  - exact H.
Defined.

(** X9: a request without a token is answered 400 'token is required'
    without a lookup; with a token and the lookup served, the answer is
    401 'invalid token' exactly when no record has that token value. *)
Theorem VerifyToken_missing_or_unknown_token
        (h : AuthHandler.t) (tok : string) (w : World) :
  (tok = EmptyString ->
   run (AuthHandler.VerifyToken h tok) w = (token_required, w)) /\
  (tok <> EmptyString -> served w = true ->
   (fst (run (AuthHandler.VerifyToken h tok) w) = invalid_token
    <-> token_record tok w = None)).
Proof.
  split.
  - intros ->. reflexivity.
  - intros Htok Hup. rewrite (VerifyToken_run h w Htok), Hup.
    destruct (token_record tok w) as [a|]; [|cbn; tauto].
    split; [|discriminate]. intros H. exfalso. revert H.
    pose proof (redeem_found_effect h tok a (answered w)) as H. cbv zeta in H.
    destruct H as (_ & _ & _ & [([-> | ->] & _) | [(-> & _) | (_ & [-> | (s & u & -> & _)] & _)]]);
      differ.
Qed.

(** X10: redeeming one token value leaves the records of all others as they
    are: what a lookup by any other token value returns is the same before
    and after the request. *)
Theorem VerifyToken_other_tokens_untouched
        (h : AuthHandler.t) (tok other : string) (w : World) :
  other <> tok ->
  token_record other (snd (run (AuthHandler.VerifyToken h tok) w)) = token_record other w.
Proof.
  intros Hother.
  destruct (VerifyToken_effect h tok w) as (_ & _ & _ & Ht & _). cbv zeta in Ht.
  unfold token_record. destruct Ht as [-> | ->]; [reflexivity|].
  apply find_first_update_first_other.
  - intros d Hd. unfold by_token in *. apply String.eqb_eq in Hd.
    apply String.eqb_neq. congruence.
  - intros d. reflexivity.
Qed.

Lemma VerifyToken_other_tokens_untouched_witness :
  token_record "t-2" (snd (run (AuthHandler.VerifyToken sample_handler "t-1")
                               (busy_world (5 * Minute))))
  = Some (issued 2%N "a@ex.com" "t-2" (1 * Minute)).
Proof.
  rewrite (@VerifyToken_other_tokens_untouched sample_handler "t-1" "t-2"
             (busy_world (5 * Minute))).
  - reflexivity.
  - discriminate.
Defined.

(** X11: no redemption request adds or removes a token record, and every
    record a lookup returned before is returned after with the same
    identity, email, token value, expiry and creation time; a record that
    was used stays used. *)
Theorem VerifyToken_keeps_token_records
        (h : AuthHandler.t) (tok : string) (w : World) :
  let w' := snd (run (AuthHandler.VerifyToken h tok) w) in
  List.length (auth_tokens (store w')) = List.length (auth_tokens (store w)) /\
  forall (t : string) (a : AuthToken.t),
    token_record t w = Some a ->
    exists a',
      token_record t w' = Some a' /\
      AuthToken.ID a' = AuthToken.ID a /\
      AuthToken.Email a' = AuthToken.Email a /\
      AuthToken.Token a' = AuthToken.Token a /\
      AuthToken.ExpiresAt a' = AuthToken.ExpiresAt a /\
      AuthToken.CreatedAt a' = AuthToken.CreatedAt a /\
      (AuthToken.IsUsed a = true -> AuthToken.IsUsed a' = true).
Proof.
  cbv zeta.
  destruct (VerifyToken_effect h tok w) as (_ & _ & _ & Ht & _). cbv zeta in Ht.
  unfold token_record. destruct Ht as [-> | ->].
  - split; [reflexivity|]. intros t a Hrec. exists a. auto 8.
  - split; [apply update_first_length|]. intros t a Hrec.
    destruct (@find_first_update_first_any _ (by_token tok) (by_token t)
                (AuthToken.withIsUsed true) (auth_tokens (store w)) a
                (fun x => eq_refl) Hrec) as [H | H].
    + exists a. auto 8.
    + exists (AuthToken.withIsUsed true a). repeat split; auto.
Qed.

(** X12: a redemption request leaves the feedback alone and the most it does
    to the users is append one, with onboarding not completed. *)
Theorem VerifyToken_creates_at_most_one_user
        (h : AuthHandler.t) (tok : string) (w : World) :
  let w' := snd (run (AuthHandler.VerifyToken h tok) w) in
  feedbacks (store w') = feedbacks (store w) /\
  (users (store w') = users (store w) \/
   exists u, users (store w') = (users (store w) ++ [u])%list /\
             User.OnboardingCompleted u = false).
Proof.
  cbv zeta.
  destruct (VerifyToken_effect h tok w) as (Hf & _ & _ & _ & Hu & _).
  split; assumption.
Qed.

(** X13: whatever fails, the answer is one of five fixed payloads or a
    session: the text of a store or signer error goes to the log, never
    into the answer, and a session comes only with status 200. *)
Theorem VerifyToken_answers (h : AuthHandler.t) (tok : string) (w : World) :
  let resp := fst (run (AuthHandler.VerifyToken h tok) w) in
  (resp = token_required \/ resp = invalid_token \/ resp = token_expired \/
   resp = token_already_used \/ resp = internal_server_error \/
   exists s u, resp = session s u) /\
  (status resp = StatusOK <-> exists s u, resp = session s u).
Proof.
  cbv zeta.
  destruct (VerifyToken_effect h tok w) as (_ & _ & _ & _ & _ & Hresp & _).
  cbv zeta in Hresp. split; [exact Hresp|].
  split.
  - intros Hok.
    destruct Hresp as [H | [H | [H | [H | [H | H]]]]]; try exact H;
      rewrite H in Hok; revert Hok; differ.
  - intros (s & u & ->). reflexivity.
Qed.

(** A valid token, the server up, the ObjectID counter ahead of the stored
    users and a signer that signs: the request ends in a session for a user
    with the token's email. *)
Lemma VerifyToken_valid_session
      (h : AuthHandler.t) (tok : string) (w : World) (a : AuthToken.t) :
  tok <> EmptyString ->
  token_record tok w = Some a ->
  AuthToken.IsUsed a = false ->
  reading w <= AuthToken.ExpiresAt a ->
  faults (store w) = [] ->
  Forall (fun u => (User.ID u <= oid_counter (store w))%N) (users (store w)) ->
  (forall c, exists s, signer w c (AuthHandler.jwtSecret h) = inr s) ->
  exists s user,
    fst (run (AuthHandler.VerifyToken h tok) w) = session s user /\
    User.Email user = AuthToken.Email a /\
    (forall u0, user_record (AuthToken.Email a) w = Some u0 -> user = u0).
Proof.
  intros Htok Hrec Hunused Hnow Hup Hfresh Hsign.
  assert (Hs1 : served w = true) by (unfold served; cbn; rewrite Hup; reflexivity).
  assert (Hs2 : served (tick (answered w)) = true)
    by (unfold served; cbn; rewrite Hup; reflexivity).
  set (wM := mark_used tok (answered (tick (answered w)))).
  destruct (@FindOrCreate_resolves (AuthToken.Email a) wM)
    as (user & stored & Hfst & Huser & Hsame & _ & Hsig & _).
  { cbn. rewrite Hup. reflexivity. }
  { exact Hfresh. }
  pose proof (run_FindOrCreate (AuthToken.Email a) wM) as Hrun.
  destruct (run (UserRepo.FindOrCreate (AuthToken.Email a)) wM) as [res w3] eqn:Hfc.
  cbn [fst snd] in *. subst res.
  destruct (Hsign (session_claims user (reading w3) (reading (tick w3)))) as [s Hs].
  exists s, user. split; [|split].
  - rewrite (VerifyToken_run h w Htok), Hs1, Hrec.
    rewrite (@redeem_found_session h tok a (answered w) w3 user s); [reflexivity| | | | |].
    + unfold After. apply Z.ltb_ge. exact Hnow.
    + exact Hunused.
    + exact Hs2.
    + exact Hfc.
    + rewrite Hsig. exact Hs.
  - destruct (find_first_some _ _ Huser) as [Hp _].
    unfold by_email in Hp. apply String.eqb_eq in Hp.
    apply (f_equal User.Email) in Hsame. cbn [User.bson User.Email] in Hsame.
    rewrite <- Hsame. exact Hp.
  - intros u0 Hu0.
    assert (Hs3 : served wM = true) by (unfold served; cbn; rewrite Hup; reflexivity).
    rewrite Hs3 in Hrun.
    change (user_record (AuthToken.Email a) wM) with (user_record (AuthToken.Email a) w)
      in Hrun.
    rewrite Hu0 in Hrun. congruence.
Qed.

(** X14: a valid token for an email that has a user: the session is for
    that very record, as stored (onboarding flag included), and no user is
    added. *)
Theorem VerifyToken_existing_user
        (h : AuthHandler.t) (tok : string) (w : World) (a : AuthToken.t) (u : User.t) :
  tok <> EmptyString ->
  token_record tok w = Some a ->
  AuthToken.IsUsed a = false ->
  reading w <= AuthToken.ExpiresAt a ->
  user_record (AuthToken.Email a) w = Some u ->
  faults (store w) = [] ->
  (forall c, exists s, signer w c (AuthHandler.jwtSecret h) = inr s) ->
  (exists s, fst (run (AuthHandler.VerifyToken h tok) w) = session s u) /\
  users (store (snd (run (AuthHandler.VerifyToken h tok) w))) = users (store w).
Proof.
  intros Htok Hrec Hunused Hnow Huser Hup Hsign.
  assert (Hs1 : served w = true) by (unfold served; cbn; rewrite Hup; reflexivity).
  assert (Hs2 : served (tick (answered w)) = true)
    by (unfold served; cbn; rewrite Hup; reflexivity).
  set (wM := mark_used tok (answered (tick (answered w)))).
  assert (Hfc : run (UserRepo.FindOrCreate (AuthToken.Email a)) wM = (inr u, answered wM)).
  { rewrite run_FindOrCreate.
    assert (Hs3 : served wM = true) by (unfold served; cbn; rewrite Hup; reflexivity).
    rewrite Hs3.
    change (user_record (AuthToken.Email a) wM) with (user_record (AuthToken.Email a) w).
    rewrite Huser. reflexivity. }
  destruct (Hsign (session_claims u (reading (answered wM)) (reading (tick (answered wM)))))
    as [s Hs].
  assert (Hrun : run (AuthHandler.VerifyToken h tok) w
                 = (session s u, tick (tick (answered wM)))).
  { rewrite (VerifyToken_run h w Htok), Hs1, Hrec.
    apply redeem_found_session.
    - unfold After. apply Z.ltb_ge. exact Hnow.
    - exact Hunused.
    - exact Hs2.
    - exact Hfc.
    - exact Hs. }
  rewrite Hrun. split; [exists s; reflexivity | reflexivity].
Qed.

(** X15: issue, then redeem.  The token value of a login request answered 200
    redeems: presented no later than 15 minutes after the start of the
    millisecond of the request's first clock reading (the stored expiry is
    in whole milliseconds, and no earlier than that), with the server up
    and the signer signing, it is answered with a session for a user with
    the request's email. *)
Theorem RequestLogin_then_VerifyToken
        (h : AuthHandler.t) (r : AuthHandler.LoginHTTP)
        (req : AuthHandler.RequestLoginRequest) (w w2 : World) :
  AuthHandler.Body r = Some req ->
  status (fst (run (AuthHandler.RequestLogin h r) w)) = StatusOK ->
  let tokenValue := entropy w (drawn w) in
  tokenValue <> EmptyString ->
  token_record tokenValue w = None ->
  auth_tokens (store w2) = auth_tokens (store (snd (run (AuthHandler.RequestLogin h r) w))) ->
  reading w2 <= through_bson (reading w) + 15 * Minute ->
  faults (store w2) = [] ->
  Forall (fun u => (User.ID u <= oid_counter (store w2))%N) (users (store w2)) ->
  (forall c, exists s, signer w2 c (AuthHandler.jwtSecret h) = inr s) ->
  exists s user,
    fst (run (AuthHandler.VerifyToken h tokenValue) w2) = session s user /\
    User.Email user = AuthHandler.Email req.
Proof.
  intros Hbody Hok. cbv zeta. intros Htok Hnew Hsame Hnow Hup Hfresh Hsign.
  destruct (String.eqb (AuthHandler.Email req) EmptyString) eqn:Hemail.
  { revert Hok. unfold AuthHandler.RequestLogin. rewrite Hbody, Hemail. differ. }
  apply String.eqb_neq in Hemail.
  destruct (RequestLogin_effect h r w Hbody Hemail) as (_ & _ & H). cbv zeta in H.
  destruct H as [(_ & _ & [H | [H | H]]) | ((t & Ht & He & Hv & Hunused & Hx & _) & _)];
    try (rewrite H in Hok; revert Hok; differ).
  assert (Hrec : token_record (entropy w (drawn w)) w2 = Some t).
  { unfold token_record. rewrite Hsame, Ht.
    apply find_first_app_new; [exact Hnew|].
    unfold by_token. rewrite Hv. apply String.eqb_refl. }
  destruct (@VerifyToken_valid_session h (entropy w (drawn w)) w2 t Htok Hrec Hunused)
    as (s & user & Hresp & Huser & _); auto.
  - rewrite Hx. unfold Add.
    change (15 * Minute) with (900000 * Millisecond) in *.
    rewrite through_bson_add_whole.
    pose proof (through_bson_mono (reading_le_tick w)). lia.
  - exists s, user. split; [exact Hresp|]. rewrite Huser. exact He.
Qed.

Lemma RequestLogin_then_VerifyToken_witness :
  let issue := run (AuthHandler.RequestLogin sample_handler (login_request "new@ex.com"))
                   sample_world in
  exists s user,
    fst (run (AuthHandler.VerifyToken sample_handler "uuid-000000000000000000000000")
             (snd issue)) = session s user /\
    User.Email user = "new@ex.com".
Proof.
  cbv zeta.
  apply (@RequestLogin_then_VerifyToken sample_handler (login_request "new@ex.com")
           (AuthHandler.mkRequestLoginRequest "new@ex.com") sample_world
           (snd (run (AuthHandler.RequestLogin sample_handler (login_request "new@ex.com"))
                     sample_world))).
  - reflexivity.
  - reflexivity.
  - vm_compute. discriminate.
  - reflexivity.
  - reflexivity.
  - vm_compute. discriminate.
  - reflexivity.
  - constructor.
  - intros c. eexists. reflexivity.
Defined.

Lemma VerifyToken_existing_user_witness :
  let first := run (AuthHandler.VerifyToken sample_handler "t-1") (busy_world 0) in
  exists s u,
    fst (run (AuthHandler.VerifyToken sample_handler "t-2") (snd first)) = session s u /\
    User.ID u = 6%N /\
    List.length (users (store (snd (run (AuthHandler.VerifyToken sample_handler "t-2")
                                        (snd first))))) = 1%nat.
Proof.
  cbv zeta.
  destruct (@VerifyToken_existing_user sample_handler "t-2"
              (snd (run (AuthHandler.VerifyToken sample_handler "t-1") (busy_world 0)))
              (issued 2%N "a@ex.com" "t-2" (1 * Minute))
              (User.mk 6%N "a@ex.com" false 0 0))
    as ((s & Hs) & Hu).
  - discriminate.
  - reflexivity.
  - reflexivity.
  - vm_compute. discriminate.
  - reflexivity.
  - reflexivity.
  - intros c. eexists. reflexivity.
  - exists s, (User.mk 6%N "a@ex.com" false 0 0).
    split; [exact Hs|]. split; [reflexivity|]. rewrite Hu. reflexivity.
Defined.

(* ------------------------------------------------------------------ *)
(** ** More on resolving a user *)

Lemma users_InsertOne_unindexed (doc : User.t) (w : World) :
  served w = true ->
  User.ID doc = NilObjectID ->
  Forall (fun u => (User.ID u <= oid_counter (store w))%N) (users (store w)) ->
  unique_email (store w) = false ->
  fst (exec (users_InsertOne doc) w) = inr (N.succ (oid_counter (store w))).
Proof.
  unfold served. intros Hup Hid Hfresh Hdecl.
  cbn [exec]. unfold on_store, insert_one. cbn.
  cbn in Hup. destruct (hd false (faults (store w))); [discriminate|]. cbn.
  rewrite Hid. cbn.
  assert (Hclash : existsb (fun d => (User.ID d =? N.succ (oid_counter (store w)))%N)
                           (users (store w)) = false).
  { induction Hfresh as [|u l Hu _ IH]; [reflexivity|].
    cbn. rewrite IH. rewrite orb_false_r. apply N.eqb_neq. lia. }
  rewrite Hclash, Hdecl. reflexivity.
Qed.

(** X16: resolving an email twice gives the same user: once FindOrCreate has
    returned a user, a lookup by the email finds that user as the
    collection holds it (the same id, email and flag; the two times in
    whole milliseconds, where a user just created is returned with the
    clock readings), and every later call the server serves over the same
    users returns that stored user and stores nothing. *)
Theorem FindOrCreate_again_same_user (email : string) (w : World) (user : User.t) :
  fst (run (UserRepo.FindOrCreate email) w) = inr user ->
  let w1 := snd (run (UserRepo.FindOrCreate email) w) in
  User.Email user = email /\
  exists stored : User.t,
    user_record email w1 = Some stored /\
    User.ID stored = User.ID user /\
    User.Email stored = User.Email user /\
    User.OnboardingCompleted stored = User.OnboardingCompleted user /\
    through_bson (User.CreatedAt stored) = through_bson (User.CreatedAt user) /\
    through_bson (User.UpdatedAt stored) = through_bson (User.UpdatedAt user) /\
    forall w2 : World,
      users (store w2) = users (store w1) ->
      served w2 = true ->
      fst (run (UserRepo.FindOrCreate email) w2) = inr stored /\
      users (store (snd (run (UserRepo.FindOrCreate email) w2))) = users (store w2).
Proof.
  intros Hret. cbv zeta.
  assert (Hrec : exists stored,
             user_record email (snd (run (UserRepo.FindOrCreate email) w)) = Some stored /\
             User.bson stored = User.bson user).
  { revert Hret. rewrite run_FindOrCreate.
    destruct (served w); [|discriminate].
    destruct (user_record email w) as [u|] eqn:Hu.
    - cbn [fst snd]. intros H. injection H as <-. exists u. split; [exact Hu | reflexivity].
    - cbv zeta. cbn [fst snd].
      pose proof (users_InsertOne_world (new_user email (answered w))
                                        (tick (tick (answered w)))) as Hw.
      cbv zeta in Hw.
      destruct (fst (exec (users_InsertOne _) _)) as [e|id]; [discriminate|].
      intros H. injection H as <-.
      destruct Hw as (_ & _ & _ & _ & _ & _ & _ & _ & _ & Husers).
      exists (User.bson (User.withID id (new_user email (answered w)))). split.
      + unfold user_record. rewrite Husers.
        apply find_first_app_new; [exact Hu|]. apply String.eqb_refl.
      + apply User_bson_idem. }
  destruct Hrec as (stored & Hrec & Hsame).
  assert (Hemail : User.Email stored = User.Email user)
    by exact (f_equal User.Email Hsame).
  split.
  - destruct (find_first_some _ _ Hrec) as [Hp _].
    unfold by_email in Hp. apply String.eqb_eq in Hp. rewrite <- Hemail. exact Hp.
  - exists stored. split; [exact Hrec|].
    split; [exact (f_equal User.ID Hsame)|]. split; [exact Hemail|].
    split; [exact (f_equal User.OnboardingCompleted Hsame)|].
    split; [exact (f_equal User.CreatedAt Hsame)|].
    split; [exact (f_equal User.UpdatedAt Hsame)|].
    intros w2 Hsame2 Hup. rewrite run_FindOrCreate, Hup.
    assert (Hrec2 : user_record email w2 = Some stored)
      by (unfold user_record; rewrite Hsame2; exact Hrec).
    rewrite Hrec2. split; reflexivity.
Qed.

Lemma FindOrCreate_again_same_user_witness :
  let w := set_clock 1 [] sample_world in
  let w1 := snd (run (UserRepo.FindOrCreate "new@ex.com") w) in
  fst (run (UserRepo.FindOrCreate "new@ex.com") w)
  = inr (User.mk 1%N "new@ex.com" false 1 1) /\
  fst (run (UserRepo.FindOrCreate "new@ex.com") w1)
  = inr (User.mk 1%N "new@ex.com" false 0 0).
Proof.
  cbv zeta. split; [reflexivity|].
  destruct (@FindOrCreate_again_same_user "new@ex.com" (set_clock 1 [] sample_world)
              (User.mk 1%N "new@ex.com" false 1 1) eq_refl)
    as (_ & stored & Hrec & _ & _ & _ & _ & _ & H).
  destruct (H (snd (run (UserRepo.FindOrCreate "new@ex.com") (set_clock 1 [] sample_world)))
              eq_refl eq_refl) as [Hret _].
  rewrite Hret. vm_compute in Hrec. injection Hrec as <-. reflexivity.
Defined.

(** X17: what the unique index on email is there for.  On a server that came
    up without it, a resolution whose lookup found no user and whose insert
    reaches the server once a user with the email is there is served too:
    a second user with the same email is stored (its times in whole
    milliseconds) and returned, and FindByEmail goes on returning the
    first. *)
Theorem FindOrCreate_without_index_stores_duplicate
        (email : string) (w w' : World) (winner : User.t) :
  served w = true ->
  user_record email w = None ->
  served w' = true ->
  unique_email (store w') = false ->
  Forall (fun u => (User.ID u <= oid_counter (store w'))%N) (users (store w')) ->
  user_record email w' = Some winner ->
  let after_lookup := fst (step (UserRepo.FindOrCreate email) w) in
  exists second : User.t,
    fst (run after_lookup w') = inr second /\
    users (store (snd (run after_lookup w')))
    = (users (store w') ++ [User.bson second])%list /\
    User.Email second = email /\
    User.ID second <> User.ID winner /\
    user_record email (snd (run after_lookup w')) = Some winner.
Proof.
  intros Hup Hmiss Hup' Hdecl Hfresh Hdup. cbv zeta.
  unfold UserRepo.FindOrCreate, UserRepo.FindByEmail. expose. cbn [pbind call step].
  assert (Hlook : exec (users_FindOne email) w = (inl ErrNoDocuments, answered w)).
  { cbn [exec]. unfold on_store, find_one. cbn.
    unfold served in Hup. cbn in Hup.
    destruct (hd false (faults (store w))); [discriminate|].
    unfold user_record in Hmiss. rewrite Hmiss. reflexivity. }
  rewrite Hlook. cbn [fst pbind error_eqb_NoDocuments].
  rewrite run_bind, run_UserRepo_Create. cbv zeta.
  set (u := User.withUpdatedAt _ _).
  pose proof (@users_InsertOne_unindexed u (tick (tick w')) Hup' eq_refl Hfresh Hdecl) as Hins.
  pose proof (users_InsertOne_world u (tick (tick w'))) as Hw. cbv zeta in Hw.
  rewrite Hins in Hw. destruct Hw as (_ & _ & _ & _ & _ & _ & _ & _ & _ & Husers).
  rewrite Hins. cbn [fst snd].
  exists (User.withID (N.succ (oid_counter (store w'))) u).
  split; [reflexivity|]. split; [exact Husers|]. split; [reflexivity|]. split.
  - destruct (find_first_some _ _ Hdup) as [_ Hin].
    rewrite Forall_forall in Hfresh. specialize (Hfresh _ Hin).
    cbn. intros E. rewrite <- E in Hfresh. cbn in Hfresh. lia.
  - unfold user_record. cbn [run fst snd]. rewrite Husers.
    change (users (store (tick (tick w')))) with (users (store w')).
    unfold user_record in Hdup. clear - Hdup.
    induction (users (store w')) as [|x l IH]; [discriminate|].
    cbn in *. destruct (by_email email x); [exact Hdup | auto].
Qed.

Lemma FindOrCreate_without_index_stores_duplicate_witness :
  let after_lookup := fst (step (UserRepo.FindOrCreate "new@ex.com") sample_world) in
  users (store (snd (run after_lookup unindexed_world)))
  = [User.mk 1%N "new@ex.com" false 0 0; User.mk 2%N "new@ex.com" false 0 0].
Proof.
  cbv zeta.
  destruct (@FindOrCreate_without_index_stores_duplicate "new@ex.com" sample_world
              unindexed_world (User.mk 1%N "new@ex.com" false 0 0))
    as (second & Hret & Husers & _).
  - reflexivity.
  - reflexivity.
  - reflexivity.
  - reflexivity.
  - repeat constructor. vm_compute. discriminate.
  - reflexivity.
  - rewrite Husers. vm_compute in Hret. injection Hret as <-. reflexivity.
Defined.

(* ------------------------------------------------------------------ *)
(** ** Start-up *)

(** One index request: the server does not serve it, or it builds the
    index when the keys are distinct and refuses when they are not. *)
Lemma exec_users_Indexes_CreateOne (w : World) :
  exec users_Indexes_CreateOne w =
  if served w then
    if distinct_keys User.Email (users (store w))
    then (None, set_store (set_user_indexes (store (answered w))) w)
    else (Some (ErrDuplicateKey "email_1"), answered w)
  else (Some unavailable, answered w).
Proof.
  cbn [exec]. unfold on_store, create_unique_index, served, answered. cbn.
  destruct (hd false (faults (store w))); cbn; [reflexivity|].
  destruct (distinct_keys _ _); reflexivity.
Qed.

Lemma exec_tokens_Indexes_CreateMany (w : World) :
  exec tokens_Indexes_CreateMany w =
  if served w then
    if distinct_keys AuthToken.Token (auth_tokens (store w))
    then (None, set_store (set_token_indexes (store (answered w))) w)
    else (Some (ErrDuplicateKey "token_1"), answered w)
  else (Some unavailable, answered w).
Proof.
  cbn [exec]. unfold on_store, create_unique_index, served, answered. cbn.
  destruct (hd false (faults (store w))); cbn; [reflexivity|].
  destruct (distinct_keys _ _); reflexivity.
Qed.

Lemma exec_feedbacks_Indexes_CreateMany (w : World) :
  exec feedbacks_Indexes_CreateMany w =
  if served w then
    if distinct_keys Feedback.IdempotencyKey (feedbacks (store w))
    then (None, set_store (set_feedback_indexes (store (answered w))) w)
    else (Some (ErrDuplicateKey "idempotency_key_1"), answered w)
  else (Some unavailable, answered w).
Proof.
  cbn [exec]. unfold on_store, create_unique_index, served, answered. cbn.
  destruct (hd false (faults (store w))); cbn; [reflexivity|].
  destruct (distinct_keys _ _); reflexivity.
Qed.

Lemma run_main_ensure_indexes (w : World) :
  run main_ensure_indexes w =
  let r1 := exec users_Indexes_CreateOne w in
  let w1 := match fst r1 with
            | Some err => logged ("⚠️  Warning: failed to create user indexes: " ++ Error err)
                                 (snd r1)
            | None => snd r1
            end in
  let r2 := exec tokens_Indexes_CreateMany w1 in
  let w2 := match fst r2 with
            | Some err => logged ("⚠️  Warning: failed to create token indexes: " ++ Error err)
                                 (snd r2)
            | None => snd r2
            end in
  let r3 := exec feedbacks_Indexes_CreateMany w2 in
  (tt, match fst r3 with
       | Some err => logged ("⚠️  Warning: failed to create feedback indexes: " ++ Error err)
                            (snd r3)
       | None => snd r3
       end).
Proof.
  unfold main_ensure_indexes, UserRepo.EnsureIndexes, AuthTokenRepo.EnsureIndexes,
         FeedbackRepo.EnsureIndexes.
  expose. cbv zeta.
  rewrite run_bind, run_bind, run_call.
  destruct (fst (exec users_Indexes_CreateOne w)) as [e1|];
    [rewrite run_call, exec_log_Printf | cbn [run]]; cbn [fst snd];
    (rewrite run_bind, run_bind, run_call;
     match goal with
     | |- context [fst (exec tokens_Indexes_CreateMany ?w1)] =>
         destruct (fst (exec tokens_Indexes_CreateMany w1)) as [e2|]
     end;
     [rewrite run_call, exec_log_Printf | cbn [run]]; cbn [fst snd];
     (rewrite run_bind, run_call;
      match goal with
      | |- context [fst (exec feedbacks_Indexes_CreateMany ?w2)] =>
          destruct (fst (exec feedbacks_Indexes_CreateMany w2)) as [e3|]
      end;
      [rewrite run_call, exec_log_Printf; reflexivity | reflexivity])).
Qed.

(** What one index request does to the world. *)
Lemma users_Indexes_world (w : World) :
  let r := exec users_Indexes_CreateOne w in
  (auth_tokens (store (snd r)) = auth_tokens (store w) /\
   users (store (snd r)) = users (store w) /\
   feedbacks (store (snd r)) = feedbacks (store w) /\
   unique_token (store (snd r)) = unique_token (store w) /\
   unique_idempotency_key (store (snd r)) = unique_idempotency_key (store w) /\
   faults (store (snd r)) = tl (faults (store w)) /\
   log (snd r) = log w) /\
  ((fst r = None /\ served w = true /\ unique_email (store (snd r)) = true /\
    distinct_keys User.Email (users (store w)) = true) \/
   (fst r = Some (ErrDuplicateKey "email_1") /\ served w = true /\
    unique_email (store (snd r)) = unique_email (store w) /\
    distinct_keys User.Email (users (store w)) = false) \/
   (fst r = Some unavailable /\ served w = false /\
    unique_email (store (snd r)) = unique_email (store w))).
Proof.
  cbv zeta. rewrite exec_users_Indexes_CreateOne.
  destruct (served w); [destruct (distinct_keys _ _) eqn:D|]; cbn [fst snd].
  - split; [repeat split|]. left. auto.
  - split; [repeat split|]. right; left. auto.
  - split; [repeat split|]. right; right. auto.
Qed.

Lemma tokens_Indexes_world (w : World) :
  let r := exec tokens_Indexes_CreateMany w in
  (auth_tokens (store (snd r)) = auth_tokens (store w) /\
   users (store (snd r)) = users (store w) /\
   feedbacks (store (snd r)) = feedbacks (store w) /\
   unique_email (store (snd r)) = unique_email (store w) /\
   unique_idempotency_key (store (snd r)) = unique_idempotency_key (store w) /\
   faults (store (snd r)) = tl (faults (store w)) /\
   log (snd r) = log w) /\
  ((fst r = None /\ served w = true /\ unique_token (store (snd r)) = true /\
    distinct_keys AuthToken.Token (auth_tokens (store w)) = true) \/
   (fst r = Some (ErrDuplicateKey "token_1") /\ served w = true /\
    unique_token (store (snd r)) = unique_token (store w) /\
    distinct_keys AuthToken.Token (auth_tokens (store w)) = false) \/
   (fst r = Some unavailable /\ served w = false /\
    unique_token (store (snd r)) = unique_token (store w))).
Proof.
  cbv zeta. rewrite exec_tokens_Indexes_CreateMany.
  destruct (served w); [destruct (distinct_keys _ _) eqn:D|]; cbn [fst snd].
  - split; [repeat split|]. left. auto.
  - split; [repeat split|]. right; left. auto.
  - split; [repeat split|]. right; right. auto.
Qed.

Lemma feedbacks_Indexes_world (w : World) :
  let r := exec feedbacks_Indexes_CreateMany w in
  (auth_tokens (store (snd r)) = auth_tokens (store w) /\
   users (store (snd r)) = users (store w) /\
   feedbacks (store (snd r)) = feedbacks (store w) /\
   unique_email (store (snd r)) = unique_email (store w) /\
   unique_token (store (snd r)) = unique_token (store w) /\
   faults (store (snd r)) = tl (faults (store w)) /\
   log (snd r) = log w) /\
  ((fst r = None /\ served w = true /\ unique_idempotency_key (store (snd r)) = true /\
    distinct_keys Feedback.IdempotencyKey (feedbacks (store w)) = true) \/
   (fst r = Some (ErrDuplicateKey "idempotency_key_1") /\ served w = true /\
    unique_idempotency_key (store (snd r)) = unique_idempotency_key (store w) /\
    distinct_keys Feedback.IdempotencyKey (feedbacks (store w)) = false) \/
   (fst r = Some unavailable /\ served w = false /\
    unique_idempotency_key (store (snd r)) = unique_idempotency_key (store w))).
Proof.
  cbv zeta. rewrite exec_feedbacks_Indexes_CreateMany.
  destruct (served w); [destruct (distinct_keys _ _) eqn:D|]; cbn [fst snd].
  - split; [repeat split|]. left. auto.
  - split; [repeat split|]. right; left. auto.
  - split; [repeat split|]. right; right. auto.
Qed.

Lemma served_faults (w : World) :
  served w = negb (hd false (faults (store w))).
Proof. reflexivity. Qed.

(** X18: a failure to build an index at start-up is a warning and no more:
    the three requests leave the collections as they are, and the process
    goes on whatever they return.  With the server up, an index is declared
    afterwards exactly when it was before or the stored keys are distinct,
    and each refusal is one line in the log; while the server is down for
    the three requests nothing is declared and three warnings are
    logged. *)
Theorem main_index_failure_is_warning (w : World) :
  let w' := snd (run main_ensure_indexes w) in
  (auth_tokens (store w') = auth_tokens (store w) /\
   users (store w') = users (store w) /\
   feedbacks (store w') = feedbacks (store w)) /\
  (faults (store w) = [] ->
   unique_email (store w')
   = unique_email (store w) || distinct_keys User.Email (users (store w)) /\
   unique_token (store w')
   = unique_token (store w) || distinct_keys AuthToken.Token (auth_tokens (store w)) /\
   unique_idempotency_key (store w')
   = unique_idempotency_key (store w)
     || distinct_keys Feedback.IdempotencyKey (feedbacks (store w)) /\
   log w'
   = (log w
      ++ (if distinct_keys User.Email (users (store w)) then []
          else [("⚠️  Warning: failed to create user indexes: "
                 ++ Error (ErrDuplicateKey "email_1"))%string])
      ++ (if distinct_keys AuthToken.Token (auth_tokens (store w)) then []
          else [("⚠️  Warning: failed to create token indexes: "
                 ++ Error (ErrDuplicateKey "token_1"))%string])
      ++ (if distinct_keys Feedback.IdempotencyKey (feedbacks (store w)) then []
          else [("⚠️  Warning: failed to create feedback indexes: "
                 ++ Error (ErrDuplicateKey "idempotency_key_1"))%string]))%list) /\
  (forall rest : list bool,
      faults (store w) = true :: true :: true :: rest ->
      unique_email (store w') = unique_email (store w) /\
      unique_token (store w') = unique_token (store w) /\
      unique_idempotency_key (store w') = unique_idempotency_key (store w) /\
      log w'
      = (log w
         ++ [("⚠️  Warning: failed to create user indexes: " ++ Error unavailable)%string;
             ("⚠️  Warning: failed to create token indexes: " ++ Error unavailable)%string;
             ("⚠️  Warning: failed to create feedback indexes: "
              ++ Error unavailable)%string])%list).
Proof.
  cbv zeta. rewrite run_main_ensure_indexes. cbv zeta. cbn [snd].
  set (l1 := "⚠️  Warning: failed to create user indexes: "%string).
  set (l2 := "⚠️  Warning: failed to create token indexes: "%string).
  set (l3 := "⚠️  Warning: failed to create feedback indexes: "%string).
  pose proof (users_Indexes_world w) as H1. cbv zeta in H1.
  destruct (exec users_Indexes_CreateOne w) as [r1 w1]. cbn [fst snd] in *.
  set (w1' := match r1 with Some err => logged (l1 ++ Error err) w1 | None => w1 end).
  assert (Hs1 : store w1' = store w1) by (subst w1'; destruct r1; reflexivity).
  assert (Hl1 : log w1' = (log w1 ++ match r1 with
                                     | Some err => [(l1 ++ Error err)%string]
                                     | None => []
                                     end)%list)
    by (subst w1'; destruct r1; [reflexivity | symmetry; apply app_nil_r]).
  clearbody w1'.
  pose proof (tokens_Indexes_world w1') as H2. cbv zeta in H2.
  destruct (exec tokens_Indexes_CreateMany w1') as [r2 w2]. cbn [fst snd] in *.
  set (w2' := match r2 with Some err => logged (l2 ++ Error err) w2 | None => w2 end).
  assert (Hs2 : store w2' = store w2) by (subst w2'; destruct r2; reflexivity).
  assert (Hl2 : log w2' = (log w2 ++ match r2 with
                                     | Some err => [(l2 ++ Error err)%string]
                                     | None => []
                                     end)%list)
    by (subst w2'; destruct r2; [reflexivity | symmetry; apply app_nil_r]).
  clearbody w2'.
  pose proof (feedbacks_Indexes_world w2') as H3. cbv zeta in H3.
  destruct (exec feedbacks_Indexes_CreateMany w2') as [r3 w3]. cbn [fst snd] in *.
  set (w3' := match r3 with Some err => logged (l3 ++ Error err) w3 | None => w3 end).
  assert (Hs3 : store w3' = store w3) by (subst w3'; destruct r3; reflexivity).
  assert (Hl3 : log w3' = (log w3 ++ match r3 with
                                     | Some err => [(l3 ++ Error err)%string]
                                     | None => []
                                     end)%list)
    by (subst w3'; destruct r3; [reflexivity | symmetry; apply app_nil_r]).
  clearbody w3'.
  rewrite !served_faults in *.
  destruct H1 as ((T1 & U1 & F1 & IT1 & IK1 & Fa1 & L1) & C1).
  destruct H2 as ((T2 & U2 & F2 & IE2 & IK2 & Fa2 & L2) & C2).
  destruct H3 as ((T3 & U3 & F3 & IE3 & IT3 & Fa3 & L3) & C3).
  rewrite Hs1 in *. rewrite Hs2 in *. rewrite Hs3.
  rewrite Hl3, L3, Hl2, L2, Hl1, L1.
  rewrite T3, T2, T1, U3, U2, U1, F3, F2, F1 in *.
  rewrite IE3, IE2, IT3, IK2, IK1, IT1 in *.
  rewrite Fa2, Fa1 in *.
  split; [auto|]. split.
  - intros Hup. rewrite Hup in *. cbn [tl hd negb] in *.
    destruct C1 as [(-> & _ & -> & ->) | [(-> & _ & -> & ->) | (_ & ? & _)]];
      [| |discriminate];
      (destruct C2 as [(-> & _ & -> & ->) | [(-> & _ & -> & ->) | (_ & ? & _)]];
       [| |discriminate]);
      (destruct C3 as [(-> & _ & -> & ->) | [(-> & _ & -> & ->) | (_ & ? & _)]];
       [| |discriminate]);
      rewrite ?orb_true_r, ?orb_false_r, <- ?app_assoc; cbn [app]; auto.
  - intros rest Hdown. rewrite Hdown in *. cbn [tl hd negb] in *.
    destruct C1 as [(_ & ? & _) | [(_ & ? & _) | (-> & _ & ->)]];
      [discriminate|discriminate|];
      (destruct C2 as [(_ & ? & _) | [(_ & ? & _) | (-> & _ & ->)]];
       [discriminate|discriminate|]);
      (destruct C3 as [(_ & ? & _) | [(_ & ? & _) | (-> & _ & ->)]];
       [discriminate|discriminate|]).
    rewrite <- ?app_assoc; cbn [app]; auto.
Qed.

(* ------------------------------------------------------------------ *)
(** ** More on submitting feedback *)

Lemma feedbacks_InsertOne_frame (doc : Feedback.t) (w : World) :
  let r := exec (feedbacks_InsertOne doc) w in
  auth_tokens (store (snd r)) = auth_tokens (store w) /\
  users (store (snd r)) = users (store w) /\
  log (snd r) = log w /\ goroutines (snd r) = goroutines w /\
  outbox (snd r) = outbox w.
Proof. insert_cases Feedback.ID unique_idempotency_key. Qed.

Lemma feedbacks_InsertOne_accepts (doc : Feedback.t) (w : World) :
  served w = true ->
  Feedback.ID doc = NilObjectID ->
  Forall (fun d => (Feedback.ID d <= oid_counter (store w))%N) (feedbacks (store w)) ->
  unique_idempotency_key (store w) = false \/
  feedback_record (Feedback.IdempotencyKey doc) w = None ->
  fst (exec (feedbacks_InsertOne doc) w) = inr (N.succ (oid_counter (store w))).
Proof.
  unfold served, feedback_record. intros Hup Hid Hfresh Hnew.
  cbn [exec]. unfold on_store, insert_one. cbn.
  cbn in Hup. destruct (hd false (faults (store w))); [discriminate|]. cbn.
  rewrite Hid. cbn.
  assert (Hclash : existsb (fun d => (Feedback.ID d =? N.succ (oid_counter (store w)))%N)
                           (feedbacks (store w)) = false).
  { clear Hnew. induction Hfresh as [|u l Hu _ IH]; [reflexivity|].
    cbn. rewrite IH. rewrite orb_false_r. apply N.eqb_neq. lia. }
  rewrite Hclash. destruct Hnew as [Hdecl|Hnew].
  - rewrite Hdecl. reflexivity.
  - apply find_first_none in Hnew. unfold by_idempotency_key in Hnew. rewrite Hnew.
    rewrite andb_false_r. reflexivity.
Qed.

(** Two answers to a feedback request differ on their face. *)
Ltac differ_feedback :=
  unfold unauthorized, invalid_request_body, feedback_text_required,
         idempotency_key_required, invalid_user_id, feedback_failed, feedback_exists,
         feedback_created;
  differ.

(** Everything a feedback request can do to the world, by the answer it
    gives. *)
Lemma SubmitFeedback_effect (r : FeedbackHandler.FeedbackHTTP) (w : World) :
  let resp := fst (run (FeedbackHandler.SubmitFeedback r) w) in
  let w' := snd (run (FeedbackHandler.SubmitFeedback r) w) in
  auth_tokens (store w') = auth_tokens (store w) /\
  users (store w') = users (store w) /\
  outbox w' = outbox w /\
  ((feedbacks (store w') = feedbacks (store w) /\ goroutines w' = goroutines w /\
    ((resp = unauthorized /\ FeedbackHandler.UserIDHex r = EmptyString) \/
     (FeedbackHandler.UserIDHex r <> EmptyString /\
      (resp = invalid_request_body \/
       resp = feedback_text_required \/ resp = idempotency_key_required \/
       resp = internal_server_error \/ resp = invalid_user_id \/ resp = feedback_failed \/
       exists f, resp = feedback_exists f /\ In f (feedbacks (store w))))))
   \/
   (exists req userID f,
       FeedbackHandler.Body r = Some req /\
       ObjectIDFromHex (FeedbackHandler.UserIDHex r) = inr userID /\
       resp = feedback_created f /\
       feedbacks (store w') = (feedbacks (store w) ++ [Feedback.bson f])%list /\
       goroutines w'
       = (goroutines w ++ [formatSlackMessage (FeedbackHandler.UserIDHex r)
                                              (FeedbackHandler.Text req)
                                              (FeedbackHandler.Rating req)])%list /\
       Feedback.UserID f = userID /\
       Feedback.Text f = FeedbackHandler.Text req /\
       Feedback.Rating f = FeedbackHandler.Rating req /\
       Feedback.IdempotencyKey f = FeedbackHandler.IdempotencyKey req)).
Proof.
  cbv zeta.
  destruct (String.eqb (FeedbackHandler.UserIDHex r) EmptyString) eqn:Huser.
  { unfold FeedbackHandler.SubmitFeedback. rewrite Huser. cbn [run writeJSON fst snd].
    apply String.eqb_eq in Huser.
    repeat split. left. repeat split. left. split; [reflexivity | exact Huser]. }
  apply String.eqb_neq in Huser.
  destruct (FeedbackHandler.Body r) as [req|] eqn:Hbody.
  2:{ unfold FeedbackHandler.SubmitFeedback. rewrite (eqb_empty_false Huser), Hbody.
      repeat split. left. repeat split. right. split; [exact Huser|]. auto 12. }
  destruct (String.eqb (FeedbackHandler.Text req) EmptyString) eqn:Htext.
  { unfold FeedbackHandler.SubmitFeedback. rewrite (eqb_empty_false Huser), Hbody, Htext.
    repeat split. left. repeat split. right. split; [exact Huser|]. auto 12. }
  destruct (String.eqb (FeedbackHandler.IdempotencyKey req) EmptyString) eqn:Hkey.
  { unfold FeedbackHandler.SubmitFeedback. rewrite (eqb_empty_false Huser), Hbody, Htext, Hkey.
    repeat split. left. repeat split. right. split; [exact Huser|]. auto 12. }
  apply String.eqb_neq in Htext, Hkey.
  rewrite (SubmitFeedback_run r w Huser Hbody Htext Hkey).
  destruct (served w).
  2:{ repeat split. left. repeat split. right. split; [exact Huser|]. auto 12. }
  destruct (feedback_record _ w) as [f0|] eqn:Hrec.
  { repeat split. left. repeat split. right. split; [exact Huser|].
    do 6 right. exists f0. split; [reflexivity|].
    exact (proj2 (find_first_some _ _ Hrec)). }
  destruct (ObjectIDFromHex _) as [e|userID] eqn:Hhex.
  { repeat split. left. repeat split. auto 10. }
  rewrite run_FeedbackRepo_Create. cbv zeta. cbn [fst snd].
  set (doc := Feedback.withCreatedAt _ _).
  pose proof (feedbacks_InsertOne_world doc (tick (answered w))) as Hw. cbv zeta in Hw.
  pose proof (feedbacks_InsertOne_frame doc (tick (answered w))) as Hf. cbv zeta in Hf.
  destruct Hf as (Ht & Hu & Hl & Hg & Ho).
  destruct (fst (exec (feedbacks_InsertOne doc) (tick (answered w)))) as [err|id];
    cbn [fst snd].
  - split; [exact Ht|]. split; [exact Hu|]. split; [exact Ho|].
    left. split; [exact Hw|]. split; [exact Hg|]. right. split; [exact Huser|]. auto 10.
  - split; [exact Ht|]. split; [exact Hu|]. split; [exact Ho|].
    right. exists req, userID, (Feedback.withID id doc).
    split; [reflexivity|]. split; [reflexivity|]. split; [reflexivity|].
    split; [exact Hw|]. split; [|repeat split].
    unfold launched. cbn [goroutines set_goroutines]. rewrite Hg. reflexivity.
Qed.

(** X19: the checks a feedback request passes before the store is asked, in
    their order: without a user the answer is 401, and only then; with a
    user, an undecodable body, an empty text and an empty idempotency key
    are answered 400 each with its own message; a request refused by these
    checks leaves the world as it found it. *)
Theorem SubmitFeedback_checks_before_store
        (r : FeedbackHandler.FeedbackHTTP) (w : World) :
  let res := run (FeedbackHandler.SubmitFeedback r) w in
  (status (fst res) = StatusUnauthorized <-> FeedbackHandler.UserIDHex r = EmptyString) /\
  (FeedbackHandler.UserIDHex r = EmptyString -> res = (unauthorized, w)) /\
  (FeedbackHandler.UserIDHex r <> EmptyString ->
   (FeedbackHandler.Body r = None -> res = (invalid_request_body, w)) /\
   (forall req, FeedbackHandler.Body r = Some req ->
      (FeedbackHandler.Text req = EmptyString -> res = (feedback_text_required, w)) /\
      (FeedbackHandler.Text req <> EmptyString ->
       FeedbackHandler.IdempotencyKey req = EmptyString ->
       res = (idempotency_key_required, w)))).
Proof.
  cbv zeta. split; [|split].
  - split.
    + intros Hst.
      pose proof (SubmitFeedback_effect r w) as H. cbv zeta in H.
      destruct H as (_ & _ & _ & [(_ & _ & H) | (req & uid & f & _ & _ & H & _)]).
      * destruct H as [[_ E] | (_ & H)]; [exact E|]. exfalso. revert Hst.
        destruct H as [-> | [-> | [-> | [-> | [-> | [-> | (f & -> & _)]]]]]];
          differ_feedback.
      * exfalso. revert Hst. rewrite H. differ_feedback.
    + intros E. unfold FeedbackHandler.SubmitFeedback. rewrite E. reflexivity.
  - intros E. unfold FeedbackHandler.SubmitFeedback. rewrite E. reflexivity.
  - intros E. split.
    + intros Hb. unfold FeedbackHandler.SubmitFeedback.
      rewrite (eqb_empty_false E), Hb. reflexivity.
    + intros req Hb. split.
      * intros Ht. unfold FeedbackHandler.SubmitFeedback.
        rewrite (eqb_empty_false E), Hb, Ht. reflexivity.
      * intros Ht Hk. unfold FeedbackHandler.SubmitFeedback.
        rewrite (eqb_empty_false E), Hb, (eqb_empty_false Ht), Hk. reflexivity.
Qed.

(** X20: a feedback request never touches the tokens, the users or the mail;
    it stores a record and launches a notification exactly when it answers
    201, and then it is one record, carrying the request's user, text,
    rating and key and shown in the answer (the collection holds it with
    its creation time in whole milliseconds), and one message for that text
    and rating.  Every other answer is one of seven fixed payloads or 200
    with a record that was stored before. *)
Theorem SubmitFeedback_writes_only_on_201
        (r : FeedbackHandler.FeedbackHTTP) (w : World) :
  let resp := fst (run (FeedbackHandler.SubmitFeedback r) w) in
  let w' := snd (run (FeedbackHandler.SubmitFeedback r) w) in
  (auth_tokens (store w') = auth_tokens (store w) /\
   users (store w') = users (store w) /\ outbox w' = outbox w) /\
  (status resp <> StatusCreated ->
   feedbacks (store w') = feedbacks (store w) /\ goroutines w' = goroutines w /\
   (resp = unauthorized \/ resp = invalid_request_body \/
    resp = feedback_text_required \/ resp = idempotency_key_required \/
    resp = internal_server_error \/ resp = invalid_user_id \/ resp = feedback_failed \/
    exists f, resp = feedback_exists f /\ In f (feedbacks (store w)))) /\
  (status resp = StatusCreated ->
   exists req userID f,
     FeedbackHandler.Body r = Some req /\
     ObjectIDFromHex (FeedbackHandler.UserIDHex r) = inr userID /\
     resp = feedback_created f /\
     feedbacks (store w') = (feedbacks (store w) ++ [Feedback.bson f])%list /\
     goroutines w'
     = (goroutines w ++ [formatSlackMessage (FeedbackHandler.UserIDHex r)
                                            (FeedbackHandler.Text req)
                                            (FeedbackHandler.Rating req)])%list /\
     Feedback.UserID f = userID /\
     Feedback.Text f = FeedbackHandler.Text req /\
     Feedback.Rating f = FeedbackHandler.Rating req /\
     Feedback.IdempotencyKey f = FeedbackHandler.IdempotencyKey req).
Proof.
  cbv zeta. pose proof (SubmitFeedback_effect r w) as H. cbv zeta in H.
  destruct H as (Ht & Hu & Ho & H). split; [auto|].
  destruct H as [(Hf & Hg & H) | (req & uid & f & Hb & Hhex & Hresp & Hrest)].
  - split.
    + intros _. split; [exact Hf|]. split; [exact Hg|].
      destruct H as [[H _] | (_ & H)]; [auto|].
      destruct H as [H | [H | [H | [H | [H | [H | H]]]]]]; auto 12.
    + intros Hst. exfalso. revert Hst.
      destruct H as [[-> _] | (_ & H)]; [differ_feedback|].
      destruct H as [-> | [-> | [-> | [-> | [-> | [-> | (f & -> & _)]]]]]];
        differ_feedback.
  - split.
    + intros Hst. exfalso. apply Hst. rewrite Hresp. reflexivity.
    + intros _. exists req, uid, f. auto.
Qed.

(** X21: a first submission goes through.  A request with a user whose id
    parses, a text and a key no stored record has, on a server that is up
    and whose ObjectID counter is ahead of the stored records, is answered
    201 with the record it built: a fresh id, the user, the text, the
    rating as given (no range is checked), the key, and the clock reading
    of [FeedbackRepo.Create] as creation time.  The collection holds that
    record with the creation time rounded down to the millisecond, and
    that is what a lookup by the key returns from then on. *)
Theorem SubmitFeedback_new_key_created
        (r : FeedbackHandler.FeedbackHTTP) (req : FeedbackHandler.SubmitFeedbackRequest)
        (userID : ObjectID) (w : World) :
  FeedbackHandler.UserIDHex r <> EmptyString ->
  FeedbackHandler.Body r = Some req ->
  FeedbackHandler.Text req <> EmptyString ->
  FeedbackHandler.IdempotencyKey req <> EmptyString ->
  ObjectIDFromHex (FeedbackHandler.UserIDHex r) = inr userID ->
  feedback_record (FeedbackHandler.IdempotencyKey req) w = None ->
  faults (store w) = [] ->
  Forall (fun d => (Feedback.ID d <= oid_counter (store w))%N) (feedbacks (store w)) ->
  let f := Feedback.mk (N.succ (oid_counter (store w))) userID
                       (FeedbackHandler.Text req) (FeedbackHandler.Rating req)
                       (FeedbackHandler.IdempotencyKey req) (reading w) in
  let stored := Feedback.mk (N.succ (oid_counter (store w))) userID
                            (FeedbackHandler.Text req) (FeedbackHandler.Rating req)
                            (FeedbackHandler.IdempotencyKey req)
                            (through_bson (reading w)) in
  fst (run (FeedbackHandler.SubmitFeedback r) w) = feedback_created f /\
  feedbacks (store (snd (run (FeedbackHandler.SubmitFeedback r) w)))
  = (feedbacks (store w) ++ [stored])%list /\
  feedback_record (FeedbackHandler.IdempotencyKey req)
                  (snd (run (FeedbackHandler.SubmitFeedback r) w)) = Some stored.
Proof.
  intros Huser Hbody Htext Hkey Hhex Hnew Hup Hfresh. cbv zeta.
  assert (Hs : served w = true) by (unfold served; cbn; rewrite Hup; reflexivity).
  rewrite (SubmitFeedback_run r w Huser Hbody Htext Hkey), Hs, Hnew, Hhex.
  rewrite run_FeedbackRepo_Create. cbv zeta. cbn [fst snd].
  set (doc := Feedback.withCreatedAt _ _).
  assert (Hs1 : served (tick (answered w)) = true)
    by (unfold served; cbn; rewrite Hup; reflexivity).
  pose proof (@feedbacks_InsertOne_accepts doc (tick (answered w)) Hs1 eq_refl Hfresh
                (or_intror Hnew)) as Hins.
  pose proof (feedbacks_InsertOne_world doc (tick (answered w))) as Hw. cbv zeta in Hw.
  rewrite Hins in Hw. rewrite Hins. cbn [fst snd].
  split; [reflexivity|]. split; [exact Hw|].
  unfold feedback_record, launched. cbn [store set_goroutines].
  rewrite Hw. apply find_first_app_new; [exact Hnew|].
  unfold by_idempotency_key. apply String.eqb_refl.
Qed.

Lemma SubmitFeedback_new_key_created_witness :
  let w := set_clock 1500000 [] sample_world in
  let r := feedback_request "0123456789abcdef01234567" "meh" (-3) "k1" in
  fst (run (FeedbackHandler.SubmitFeedback r) w)
  = feedback_created
      (Feedback.mk 1%N 352125166730063718056674663%N "meh" (-3) "k1" 1500000) /\
  feedbacks (store (snd (run (FeedbackHandler.SubmitFeedback r) w)))
  = [Feedback.mk 1%N 352125166730063718056674663%N "meh" (-3) "k1" 1000000].
Proof.
  cbv zeta.
  destruct (@SubmitFeedback_new_key_created
              (feedback_request "0123456789abcdef01234567" "meh" (-3) "k1")
              (FeedbackHandler.mkSubmitFeedbackRequest "meh" (-3) "k1")
              352125166730063718056674663%N (set_clock 1500000 [] sample_world))
    as (Hresp & Hstored & _).
  - discriminate.
  - reflexivity.
  - discriminate.
  - discriminate.
  - reflexivity.
  - reflexivity.
  - reflexivity.
  - constructor.
  - split; [exact Hresp | exact Hstored].
Defined.

(** X22: the idempotency key is looked up before the user id is parsed.  A
    request whose user id is not an ObjectID, the lookup served: when a
    record has the key the answer is 200 with that record, whoever
    submitted it; when none has, the answer is 400 'invalid user ID'.
    Either way nothing is stored and nothing launched. *)
Theorem SubmitFeedback_malformed_user_id
        (r : FeedbackHandler.FeedbackHTTP) (req : FeedbackHandler.SubmitFeedbackRequest)
        (e : error) (w : World) :
  FeedbackHandler.UserIDHex r <> EmptyString ->
  FeedbackHandler.Body r = Some req ->
  FeedbackHandler.Text req <> EmptyString ->
  FeedbackHandler.IdempotencyKey req <> EmptyString ->
  ObjectIDFromHex (FeedbackHandler.UserIDHex r) = inl e ->
  served w = true ->
  let resp := fst (run (FeedbackHandler.SubmitFeedback r) w) in
  let w' := snd (run (FeedbackHandler.SubmitFeedback r) w) in
  resp = match feedback_record (FeedbackHandler.IdempotencyKey req) w with
         | Some existing => feedback_exists existing
         | None => invalid_user_id
         end /\
  feedbacks (store w') = feedbacks (store w) /\
  goroutines w' = goroutines w /\ log w' = log w.
Proof.
  intros Huser Hbody Htext Hkey Hhex Hup. cbv zeta.
  rewrite (SubmitFeedback_run r w Huser Hbody Htext Hkey), Hup, Hhex.
  destruct (feedback_record _ w); repeat split.
Qed.

Lemma SubmitFeedback_malformed_user_id_witness :
  let first := run (FeedbackHandler.SubmitFeedback
                      (feedback_request "0123456789abcdef01234567" "love it" 5 "k1"))
                   sample_world in
  fst (run (FeedbackHandler.SubmitFeedback (feedback_request "not-an-id" "mine" 1 "k1"))
           (snd first))
  = feedback_exists (Feedback.mk 1%N 352125166730063718056674663%N "love it" 5 "k1" 0) /\
  fst (run (FeedbackHandler.SubmitFeedback (feedback_request "not-an-id" "mine" 1 "k2"))
           (snd first))
  = invalid_user_id.
Proof.
  cbv zeta. split.
  - destruct (@SubmitFeedback_malformed_user_id
                (feedback_request "not-an-id" "mine" 1 "k1")
                (FeedbackHandler.mkSubmitFeedbackRequest "mine" 1 "k1") ErrInvalidHex
                (snd (run (FeedbackHandler.SubmitFeedback
                             (feedback_request "0123456789abcdef01234567" "love it" 5 "k1"))
                          sample_world)))
      as (Hresp & _);
      [discriminate | reflexivity | discriminate | discriminate | reflexivity
      | reflexivity | exact Hresp].
  - destruct (@SubmitFeedback_malformed_user_id
                (feedback_request "not-an-id" "mine" 1 "k2")
                (FeedbackHandler.mkSubmitFeedbackRequest "mine" 1 "k2") ErrInvalidHex
                (snd (run (FeedbackHandler.SubmitFeedback
                             (feedback_request "0123456789abcdef01234567" "love it" 5 "k1"))
                          sample_world)))
      as (Hresp & _);
      [discriminate | reflexivity | discriminate | discriminate | reflexivity
      | reflexivity | exact Hresp].
Defined.

(** X23: what the unique index on the idempotency key is there for.  On a
    server that came up without it, a submission whose lookup found no
    record and whose insert reaches the server once a record with the key
    is there is served too: it is answered 201, a second record with the
    key is stored (its creation time in whole milliseconds) and a second
    notification launched. *)
Theorem SubmitFeedback_without_index_stores_duplicate
        (r : FeedbackHandler.FeedbackHTTP) (req : FeedbackHandler.SubmitFeedbackRequest)
        (userID : ObjectID) (w w' : World) (winner : Feedback.t) :
  FeedbackHandler.UserIDHex r <> EmptyString ->
  FeedbackHandler.Body r = Some req ->
  FeedbackHandler.Text req <> EmptyString ->
  FeedbackHandler.IdempotencyKey req <> EmptyString ->
  ObjectIDFromHex (FeedbackHandler.UserIDHex r) = inr userID ->
  served w = true ->
  feedback_record (FeedbackHandler.IdempotencyKey req) w = None ->
  served w' = true ->
  unique_idempotency_key (store w') = false ->
  Forall (fun d => (Feedback.ID d <= oid_counter (store w'))%N) (feedbacks (store w')) ->
  feedback_record (FeedbackHandler.IdempotencyKey req) w' = Some winner ->
  let after_lookup := fst (step (FeedbackHandler.SubmitFeedback r) w) in
  let second := Feedback.mk (N.succ (oid_counter (store w'))) userID
                            (FeedbackHandler.Text req) (FeedbackHandler.Rating req)
                            (FeedbackHandler.IdempotencyKey req) (reading w') in
  fst (run after_lookup w') = feedback_created second /\
  feedbacks (store (snd (run after_lookup w')))
  = (feedbacks (store w') ++ [Feedback.bson second])%list /\
  Feedback.ID second <> Feedback.ID winner /\
  Feedback.IdempotencyKey second = Feedback.IdempotencyKey winner /\
  goroutines (snd (run after_lookup w'))
  = (goroutines w' ++ [formatSlackMessage (FeedbackHandler.UserIDHex r)
                                          (FeedbackHandler.Text req)
                                          (FeedbackHandler.Rating req)])%list.
Proof.
  intros Huser Hbody Htext Hkey Hhex Hup Hmiss Hup' Hdecl Hfresh Hdup. cbv zeta.
  unfold FeedbackHandler.SubmitFeedback.
  rewrite (eqb_empty_false Huser), Hbody, (eqb_empty_false Htext), (eqb_empty_false Hkey).
  unfold FeedbackRepo.FindByIdempotencyKey. expose. cbn [pbind call step].
  assert (Hlook : exec (feedbacks_FindOne (FeedbackHandler.IdempotencyKey req)) w
                  = (inl ErrNoDocuments, answered w)).
  { cbn [exec]. unfold on_store, find_one. cbn.
    unfold served in Hup. cbn in Hup.
    destruct (hd false (faults (store w))); [discriminate|].
    unfold feedback_record in Hmiss. rewrite Hmiss. reflexivity. }
  rewrite Hlook. cbn [fst pbind error_eqb_NoDocuments]. rewrite Hhex.
  fold (new_feedback userID req).
  rewrite run_bind, run_FeedbackRepo_Create. cbv zeta.
  set (doc := Feedback.withCreatedAt _ _).
  pose proof (@feedbacks_InsertOne_accepts doc (tick w') Hup' eq_refl Hfresh
                (or_introl Hdecl)) as Hins.
  pose proof (feedbacks_InsertOne_world doc (tick w')) as Hw. cbv zeta in Hw.
  pose proof (feedbacks_InsertOne_frame doc (tick w')) as Hf. cbv zeta in Hf.
  destruct Hf as (_ & _ & _ & Hg & _).
  rewrite Hins in Hw. rewrite Hins. cbn [fst snd].
  rewrite !run_Vis. cbn [exec fst snd]. rewrite run_writeJSON. cbn [fst snd].
  split; [reflexivity|]. split; [exact Hw|]. split; [|split].
  - destruct (find_first_some _ _ Hdup) as [_ Hin].
    rewrite Forall_forall in Hfresh. specialize (Hfresh _ Hin).
    cbn. intros E. rewrite <- E in Hfresh. cbn in Hfresh. lia.
  - destruct (find_first_some _ _ Hdup) as [Hp _].
    unfold by_idempotency_key in Hp. apply String.eqb_eq in Hp. symmetry. exact Hp.
  - exact (f_equal (fun l => (l ++ [formatSlackMessage (FeedbackHandler.UserIDHex r)
                                                       (FeedbackHandler.Text req)
                                                       (FeedbackHandler.Rating req)])%list)
                    Hg).
Qed.

Lemma SubmitFeedback_without_index_stores_duplicate_witness :
  let r := feedback_request "0123456789abcdef01234567" "love it" 5 "k1" in
  let w' := snd (run (FeedbackHandler.SubmitFeedback r) unindexed_world) in
  List.length
    (feedbacks (store (snd (run (fst (step (FeedbackHandler.SubmitFeedback r)
                                           unindexed_world)) w'))))
  = 2%nat.
Proof.
  cbv zeta.
  destruct (@SubmitFeedback_without_index_stores_duplicate
              (feedback_request "0123456789abcdef01234567" "love it" 5 "k1")
              (FeedbackHandler.mkSubmitFeedbackRequest "love it" 5 "k1")
              352125166730063718056674663%N
              unindexed_world
              (snd (run (FeedbackHandler.SubmitFeedback
                           (feedback_request "0123456789abcdef01234567" "love it" 5 "k1"))
                        unindexed_world))
              (Feedback.mk 2%N 352125166730063718056674663%N "love it" 5 "k1" 0))
    as (_ & Hstored & _).
  - discriminate.
  - reflexivity.
  - discriminate.
  - discriminate.
  - reflexivity.
  - reflexivity.
  - reflexivity.
  - reflexivity.
  - reflexivity.
  - repeat constructor. vm_compute. discriminate.
  - reflexivity.
  - rewrite Hstored. reflexivity.
Defined.

(* ------------------------------------------------------------------ *)
(** ** ObjectIDs and their hexadecimal form *)

Lemma hex_value_hex_digit (d : N) : (d < 16)%N -> hex_value (hex_digit d) = Some d.
Proof.
  intros H.
  assert (E : In d [0; 1; 2; 3; 4; 5; 6; 7; 8; 9; 10; 11; 12; 13; 14; 15]%N).
  { cbn. lia. }
  cbn in E.
  repeat (destruct E as [<-|E]; [reflexivity|]). contradiction.
Qed.

Lemma length_hex_fixed (n : nat) (x : N) (acc : string) :
  String.length (hex_fixed n x acc) = (n + String.length acc)%nat.
Proof.
  revert x acc. induction n as [|k IH]; intros x acc; [reflexivity|].
  cbn [hex_fixed]. rewrite IH. cbn [String.length]. lia.
Qed.

Lemma parse_hex_fixed (n : nat) (x : N) (acc : string) (a : N) :
  (x < 16 ^ N.of_nat n)%N ->
  parse_hex (hex_fixed n x acc) a = parse_hex acc (a * 16 ^ N.of_nat n + x)%N.
Proof.
  revert x acc a. induction n as [|k IH]; intros x acc a Hx.
  - cbn [hex_fixed]. change (16 ^ N.of_nat 0)%N with 1%N in *.
    f_equal. lia.
  - cbn [hex_fixed].
    assert (Hpow : (16 ^ N.of_nat (S k) = 16 * 16 ^ N.of_nat k)%N).
    { rewrite Nat2N.inj_succ, N.pow_succ_r'. reflexivity. }
    rewrite Hpow in Hx.
    rewrite IH.
    2:{ apply N.Div0.div_lt_upper_bound. exact Hx. }
    cbn [parse_hex]. rewrite hex_value_hex_digit by (apply N.mod_lt; discriminate).
    f_equal. rewrite Hpow.
    pose proof (N.div_mod x 16). lia.
Qed.

(** An id of twelve bytes is read back from its hexadecimal form. *)
Lemma ObjectIDFromHex_Hex (id : ObjectID) :
  (id < 2 ^ 96)%N -> ObjectIDFromHex (Hex id) = inr id.
Proof.
  intros H. unfold ObjectIDFromHex, Hex.
  rewrite length_hex_fixed. cbn [String.length Nat.add Nat.eqb].
  rewrite parse_hex_fixed.
  - cbn [parse_hex]. reflexivity.
  - exact H.
Qed.

Lemma Hex_not_empty (id : ObjectID) : Hex id <> EmptyString.
Proof.
  intros E. apply (f_equal String.length) in E.
  unfold Hex in E. rewrite length_hex_fixed in E. discriminate.
Qed.

(* ------------------------------------------------------------------ *)
(** ** The user handler *)

Lemma GetStatus_run (userIDHex : string) (userID : ObjectID) (w : World) :
  userIDHex <> EmptyString ->
  ObjectIDFromHex userIDHex = inr userID ->
  UserHandler.GetStatus userIDHex w =
  if served w then
    (match user_by_id userID w with
     | Some user => onboarding_status (User.OnboardingCompleted user)
     | None => user_not_found
     end, answered w)
  else (user_lookup_failed, logged ("Error finding user: " ++ Error unavailable) (answered w)).
Proof.
  intros Hne Hhex. unfold UserHandler.GetStatus.
  rewrite (eqb_empty_false Hne), Hhex.
  unfold UserRepoByID.FindByID, users_FindOne_id, served, answered, user_by_id.
  cbn [bind ret Monad_Act]. unfold on_store, find_one. cbn [next_fault fst snd].
  destruct (hd false (faults (store w))); cbn; [reflexivity|].
  destruct (find_first _ _); reflexivity.
Qed.

Lemma CompleteOnboarding_run (userIDHex : string) (userID : ObjectID) (w : World) :
  userIDHex <> EmptyString ->
  ObjectIDFromHex userIDHex = inr userID ->
  UserHandler.CompleteOnboarding userIDHex w =
  if served w then
    (onboarding_completed,
     set_store (set_users (update_first (by_id userID) (onboarded (through_bson (reading w)))
                                        (users (store w)))
                          (store (answered (tick w))))
               (tick w))
  else (onboarding_failed,
        logged ("Error updating onboarding: " ++ Error unavailable) (answered (tick w))).
Proof.
  intros Hne Hhex. unfold UserHandler.CompleteOnboarding.
  rewrite (eqb_empty_false Hne), Hhex.
  unfold UserRepoByID.UpdateOnboarding, users_UpdateOne_set_onboarding, perform,
         served, answered.
  cbn [bind ret Monad_Act]. rewrite run_call, exec_time_Now. cbn [fst snd].
  unfold on_store. cbn [next_fault fst snd].
  change (faults (store (tick w))) with (faults (store w)).
  destruct (hd false (faults (store w))); cbn [negb fst snd]; reflexivity.
Qed.

Lemma update_first_none (Doc : Type) (p : Doc -> bool) (f : Doc -> Doc) (l : list Doc) :
  find_first p l = None -> update_first p f l = l.
Proof.
  induction l as [|x l IH]; simpl; [reflexivity|].
  destruct (p x); [discriminate|]. intros H. rewrite IH by exact H. reflexivity.
Qed.

Lemma update_first_app_new (Doc : Type) (p : Doc -> bool) (f : Doc -> Doc)
      (l : list Doc) (d : Doc) :
  find_first p l = None -> p d = true ->
  update_first p f (l ++ [d]) = (l ++ [f d])%list.
Proof.
  induction l as [|x l IH]; simpl; intros Hn Hp.
  - rewrite Hp. reflexivity.
  - destruct (p x); [discriminate|]. rewrite IH by assumption. reflexivity.
Qed.

Lemma fresh_id_not_found (c : N) (l : list User.t) :
  Forall (fun u => (User.ID u <= c)%N) l -> find_first (by_id (N.succ c)) l = None.
Proof.
  induction 1 as [|u l Hu _ IH]; [reflexivity|].
  cbn [find_first]. unfold by_id at 1.
  destruct (N.eqb_spec (User.ID u) (N.succ c)) as [E|_]; [lia | exact IH].
Qed.

Lemma ObjectIDFromHex_not_empty (s : string) (id : ObjectID) :
  ObjectIDFromHex s = inr id -> s <> EmptyString.
Proof. intros H E. rewrite E in H. discriminate. Qed.

(** What the user handler answers, and that an answer with status 200 to
    GetStatus carries the flag. *)
Ltac differ_user :=
  unfold onboarding_status, onboarding_completed, user_not_found, user_lookup_failed,
         onboarding_failed, StatusOK, StatusNotFound, StatusInternalServerError,
         StatusBadRequest, StatusUnauthorized;
  cbn [user_status user_payload fst snd];
  first [discriminate | intros; discriminate | congruence].

(** X24: onboarding, written and read back.  For a user id that parses and a
    user that is stored under it, a CompleteOnboarding the server serves
    answers 200 and leaves that user with the flag set, its update time the
    clock reading of the request rounded down to the millisecond, and its
    id, email and creation time as they were; every GetStatus the server serves afterwards over the same
    users answers 200 with onboarding_completed true. *)
Theorem CompleteOnboarding_then_GetStatus
        (userIDHex : string) (userID : ObjectID) (w w2 : World) (u : User.t) :
  ObjectIDFromHex userIDHex = inr userID ->
  user_by_id userID w = Some u ->
  served w = true ->
  let done := UserHandler.CompleteOnboarding userIDHex w in
  fst done = onboarding_completed /\
  user_by_id userID (snd done)
  = Some (User.mk (User.ID u) (User.Email u) true (User.CreatedAt u)
                  (through_bson (reading w))) /\
  (users (store w2) = users (store (snd done)) ->
   served w2 = true ->
   fst (UserHandler.GetStatus userIDHex w2) = onboarding_status true).
Proof.
  intros Hhex Hu Hup. cbv zeta.
  pose proof (ObjectIDFromHex_not_empty Hhex) as Hne.
  rewrite (CompleteOnboarding_run w Hne Hhex), Hup. cbn [fst snd].
  assert (Hafter : find_first (by_id userID)
                     (update_first (by_id userID) (onboarded (through_bson (reading w))) (users (store w)))
                   = Some (onboarded (through_bson (reading w)) u)).
  { apply find_first_update_first; [exact Hu|].
    unfold by_id, onboarded. cbn [User.ID].
    exact (proj1 (find_first_some _ _ Hu)). }
  split; [reflexivity|]. split; [exact Hafter|].
  intros Hsame Hup2. rewrite (GetStatus_run w2 Hne Hhex), Hup2. cbn [fst].
  unfold user_by_id. rewrite Hsame. cbn [store set_store users set_users].
  rewrite Hafter. reflexivity.
Qed.

Lemma CompleteOnboarding_then_GetStatus_witness :
  let w := set_clock 1500000 [] unindexed_world in
  let w1 := snd (UserHandler.CompleteOnboarding "000000000000000000000001" w) in
  fst (UserHandler.GetStatus "000000000000000000000001" w) = onboarding_status false /\
  user_by_id 1%N w1 = Some (User.mk 1%N "new@ex.com" true 0 1000000) /\
  fst (UserHandler.GetStatus "000000000000000000000001" w1) = onboarding_status true.
Proof.
  cbv zeta. split; [reflexivity|].
  destruct (@CompleteOnboarding_then_GetStatus "000000000000000000000001" 1%N
              (set_clock 1500000 [] unindexed_world)
              (snd (UserHandler.CompleteOnboarding "000000000000000000000001"
                                                   (set_clock 1500000 [] unindexed_world)))
              (User.mk 1%N "new@ex.com" false 0 0))
    as (_ & Hstored & Hread); [reflexivity | reflexivity | reflexivity |].
  split; [exact Hstored|]. apply Hread; reflexivity.
Defined.

(** X25: CompleteOnboarding does not look at what the update matched.  For a
    user id that parses and that no stored user has, a request the server
    serves is answered 200 'onboarding marked as completed' all the same,
    no user is changed or created, and GetStatus for the id goes on
    answering 404. *)
Theorem CompleteOnboarding_unknown_user
        (userIDHex : string) (userID : ObjectID) (w : World) :
  ObjectIDFromHex userIDHex = inr userID ->
  user_by_id userID w = None ->
  served w = true ->
  let done := UserHandler.CompleteOnboarding userIDHex w in
  fst done = onboarding_completed /\
  users (store (snd done)) = users (store w) /\
  (served (snd done) = true ->
   fst (UserHandler.GetStatus userIDHex (snd done)) = user_not_found).
Proof.
  intros Hhex Hu Hup. cbv zeta.
  pose proof (ObjectIDFromHex_not_empty Hhex) as Hne.
  rewrite (CompleteOnboarding_run w Hne Hhex), Hup. cbn [fst snd].
  split; [reflexivity|].
  assert (Hsame : update_first (by_id userID) (onboarded (through_bson (reading w))) (users (store w))
                  = users (store w)) by (apply update_first_none; exact Hu).
  split; [exact Hsame|].
  intros Hup2. rewrite (GetStatus_run _ Hne Hhex), Hup2. cbn [fst].
  unfold user_by_id. cbn [store set_store users set_users].
  rewrite Hsame. unfold user_by_id in Hu. rewrite Hu. reflexivity.
Qed.

Lemma CompleteOnboarding_unknown_user_witness :
  fst (UserHandler.CompleteOnboarding "0123456789abcdef01234567" unindexed_world)
  = onboarding_completed /\
  users (store (snd (UserHandler.CompleteOnboarding "0123456789abcdef01234567"
                                                    unindexed_world)))
  = [User.mk 1%N "new@ex.com" false 0 0].
Proof.
  destruct (@CompleteOnboarding_unknown_user "0123456789abcdef01234567"
              352125166730063718056674663%N unindexed_world)
    as (Hresp & Husers & _); [reflexivity | reflexivity | reflexivity |].
  split; [exact Hresp | exact Husers].
Defined.

(** X26: CompleteOnboarding changes one user at most, and only its flag and
    update time.  Whatever the request, the tokens and the feedback are as
    before and no user is added or removed; every user a lookup by id
    returned is still returned, with the id, email and creation time it
    had, still onboarded if it was, and unchanged altogether unless it is
    the user of the request. *)
Theorem CompleteOnboarding_touches_one_user (userIDHex : string) (w : World) :
  let w' := snd (UserHandler.CompleteOnboarding userIDHex w) in
  auth_tokens (store w') = auth_tokens (store w) /\
  feedbacks (store w') = feedbacks (store w) /\
  List.length (users (store w')) = List.length (users (store w)) /\
  forall (id : ObjectID) (u : User.t),
    user_by_id id w = Some u ->
    exists u',
      user_by_id id w' = Some u' /\
      User.ID u' = User.ID u /\
      User.Email u' = User.Email u /\
      User.CreatedAt u' = User.CreatedAt u /\
      (User.OnboardingCompleted u = true -> User.OnboardingCompleted u' = true) /\
      (ObjectIDFromHex userIDHex <> inr id -> u' = u).
Proof.
  cbv zeta.
  assert (Hsame : forall w0 : World,
             users (store w0) = users (store w) ->
             forall (id : ObjectID) (u : User.t),
               user_by_id id w = Some u ->
               exists u',
                 user_by_id id w0 = Some u' /\
                 User.ID u' = User.ID u /\
                 User.Email u' = User.Email u /\
                 User.CreatedAt u' = User.CreatedAt u /\
                 (User.OnboardingCompleted u = true -> User.OnboardingCompleted u' = true) /\
                 (ObjectIDFromHex userIDHex <> inr id -> u' = u)).
  { intros w0 E id u Hu. exists u. unfold user_by_id. rewrite E. auto 10. }
  destruct (String.eqb_spec userIDHex EmptyString) as [E|Hne].
  { subst userIDHex. unfold UserHandler.CompleteOnboarding. cbn [String.eqb].
    split; [reflexivity|]. split; [reflexivity|]. split; [reflexivity|].
    apply Hsame. reflexivity. }
  destruct (ObjectIDFromHex userIDHex) as [e|userID] eqn:Hhex.
  { unfold UserHandler.CompleteOnboarding. rewrite (eqb_empty_false Hne), Hhex.
    split; [reflexivity|]. split; [reflexivity|]. split; [reflexivity|].
    apply Hsame. reflexivity. }
  rewrite (CompleteOnboarding_run w Hne Hhex).
  destruct (served w).
  2:{ split; [reflexivity|]. split; [reflexivity|]. split; [reflexivity|].
      apply Hsame. reflexivity. }
  cbn [snd store set_store users set_users auth_tokens feedbacks].
  split; [reflexivity|]. split; [reflexivity|].
  split; [apply update_first_length|].
  intros id u Hu. unfold user_by_id. cbn [store set_store users set_users].
  destruct (N.eq_dec userID id) as [<-|Hother].
  - exists (onboarded (through_bson (reading w)) u). split.
    + apply find_first_update_first; [exact Hu|].
      unfold by_id, onboarded. cbn [User.ID].
      exact (proj1 (find_first_some _ _ Hu)).
    + repeat split. intros Hneq. exfalso. apply Hneq. reflexivity.
  - exists u. split; [|auto 10].
    rewrite find_first_update_first_other; [exact Hu| |reflexivity].
    intros d Hd. unfold by_id in *. apply N.eqb_eq in Hd. apply N.eqb_neq. congruence.
Qed.

(** X27: GetStatus only reads.  Whatever the request, the collections, the
    mail and the goroutines are as before.  The answer is 401 exactly for
    a request without a user; 200 comes only with the flag of the user
    stored under the id of the request, and 404 only when no user is
    stored under it. *)
Theorem GetStatus_reads_only (userIDHex : string) (w : World) :
  let resp := fst (UserHandler.GetStatus userIDHex w) in
  let w' := snd (UserHandler.GetStatus userIDHex w) in
  (auth_tokens (store w') = auth_tokens (store w) /\
   users (store w') = users (store w) /\
   feedbacks (store w') = feedbacks (store w) /\
   outbox w' = outbox w /\ goroutines w' = goroutines w) /\
  (user_status resp = StatusUnauthorized <-> userIDHex = EmptyString) /\
  (user_status resp = StatusOK ->
   exists id u, ObjectIDFromHex userIDHex = inr id /\ user_by_id id w = Some u /\
                resp = onboarding_status (User.OnboardingCompleted u)) /\
  (user_status resp = StatusNotFound ->
   exists id, ObjectIDFromHex userIDHex = inr id /\ user_by_id id w = None).
Proof.
  cbv zeta.
  destruct (String.eqb_spec userIDHex EmptyString) as [E|Hne].
  { unfold UserHandler.GetStatus. rewrite E. cbn [String.eqb].
    split; [repeat split|]. split; [split; reflexivity|]. split; differ_user. }
  destruct (ObjectIDFromHex userIDHex) as [e|userID] eqn:Hhex.
  { unfold UserHandler.GetStatus. rewrite (eqb_empty_false Hne), Hhex.
    split; [repeat split|]. split; [split; [differ_user | contradiction]|].
    split; differ_user. }
  rewrite (GetStatus_run w Hne Hhex).
  destruct (served w).
  2:{ split; [repeat split|]. split; [split; [differ_user | contradiction]|].
      split; differ_user. }
  destruct (user_by_id userID w) as [u|] eqn:Hu; cbn [fst snd].
  - split; [repeat split|]. split; [split; [differ_user | contradiction]|]. split.
    + intros _. exists userID, u. auto.
    + differ_user.
  - split; [repeat split|]. split; [split; [differ_user | contradiction]|]. split.
    + differ_user.
    + intros _. exists userID. auto.
Qed.

(** A valid token for an email no user has, the server up: the world the
    request leaves. *)
Lemma VerifyToken_new_user_world
      (h : AuthHandler.t) (tok : string) (w : World) (a : AuthToken.t) :
  tok <> EmptyString ->
  token_record tok w = Some a ->
  AuthToken.IsUsed a = false ->
  reading w <= AuthToken.ExpiresAt a ->
  user_record (AuthToken.Email a) w = None ->
  faults (store w) = [] ->
  Forall (fun u => (User.ID u <= oid_counter (store w))%N) (users (store w)) ->
  (forall c, exists s, signer w c (AuthHandler.jwtSecret h) = inr s) ->
  exists (s : string) (user : User.t),
    fst (run (AuthHandler.VerifyToken h tok) w) = session s user /\
    users (store (snd (run (AuthHandler.VerifyToken h tok) w)))
    = (users (store w) ++ [User.bson user])%list /\
    faults (store (snd (run (AuthHandler.VerifyToken h tok) w))) = [] /\
    User.ID user = N.succ (oid_counter (store w)) /\
    User.Email user = AuthToken.Email a /\
    User.OnboardingCompleted user = false.
Proof.
  intros Htok Hrec Hunused Hnow Hnew Hup Hfresh Hsign.
  assert (Hs1 : served w = true) by (unfold served; cbn; rewrite Hup; reflexivity).
  assert (Hs2 : served (tick (answered w)) = true)
    by (unfold served; cbn; rewrite Hup; reflexivity).
  set (w1 := mark_used tok (answered (tick (answered w)))).
  assert (Hs3 : served w1 = true) by (unfold served; cbn; rewrite Hup; reflexivity).
  assert (Hs4 : served (tick (tick (answered w1))) = true)
    by (unfold served; cbn; rewrite Hup; reflexivity).
  set (u := new_user (AuthToken.Email a) (answered w1)).
  assert (Hins : fst (exec (users_InsertOne u) (tick (tick (answered w1))))
                 = inr (N.succ (oid_counter (store w)))).
  { apply (users_InsertOne_accepts u (tick (tick (answered w1))) Hs4 eq_refl).
    - exact Hfresh.
    - exact Hnew. }
  pose proof (users_InsertOne_world u (tick (tick (answered w1)))) as Hw.
  cbv zeta in Hw. rewrite Hins in Hw.
  destruct Hw as (_ & _ & _ & _ & _ & Hsig & _ & _ & Hf & Husers).
  set (w3 := snd (exec (users_InsertOne u) (tick (tick (answered w1))))) in *.
  set (user := User.withID (N.succ (oid_counter (store w))) u).
  assert (Hfc : run (UserRepo.FindOrCreate (AuthToken.Email a)) w1 = (inr user, w3)).
  { rewrite run_FindOrCreate, Hs3.
    change (user_record (AuthToken.Email a) w1) with (user_record (AuthToken.Email a) w).
    rewrite Hnew. cbv zeta. fold u. rewrite Hins. reflexivity. }
  destruct (Hsign (session_claims user (reading w3) (reading (tick w3)))) as [s Hs].
  assert (Hrun : run (AuthHandler.VerifyToken h tok) w = (session s user, tick (tick w3))).
  { rewrite (VerifyToken_run h w Htok), Hs1, Hrec.
    apply redeem_found_session.
    - unfold After. apply Z.ltb_ge. exact Hnow.
    - exact Hunused.
    - exact Hs2.
    - exact Hfc.
    - rewrite Hsig. exact Hs. }
  exists s, user. rewrite Hrun. cbn [fst snd].
  split; [reflexivity|]. split; [exact Husers|]. split.
  - change (faults (store (tick (tick w3)))) with (faults (store w3)).
    rewrite Hf. cbn. rewrite Hup. reflexivity.
  - repeat split.
Qed.

(** A CompleteOnboarding the server serves, for a stored user. *)
Lemma CompleteOnboarding_effect_found
      (userIDHex : string) (userID : ObjectID) (w : World) (u : User.t) :
  ObjectIDFromHex userIDHex = inr userID ->
  user_by_id userID w = Some u ->
  served w = true ->
  fst (UserHandler.CompleteOnboarding userIDHex w) = onboarding_completed /\
  user_by_id userID (snd (UserHandler.CompleteOnboarding userIDHex w))
  = Some (onboarded (through_bson (reading w)) u) /\
  served (snd (UserHandler.CompleteOnboarding userIDHex w)) = served (answered w).
Proof.
  intros Hhex Hu Hup.
  pose proof (ObjectIDFromHex_not_empty Hhex) as Hne.
  rewrite (CompleteOnboarding_run w Hne Hhex), Hup. cbn [fst snd].
  split; [reflexivity|]. split; [|reflexivity].
  unfold user_by_id. cbn [store set_store users set_users].
  apply find_first_update_first; [exact Hu|].
  unfold by_id, onboarded. cbn [User.ID].
  exact (proj1 (find_first_some _ _ Hu)).
Qed.

(** X28: from the login link to a completed onboarding.  A valid token for
    an email no user has, the server up, the signer signing and the
    ObjectID counter within twelve bytes: VerifyToken answers with a
    session; with the user id its claims carry (the user's ObjectID in
    hexadecimal), GetStatus answers onboarding_completed false,
    CompleteOnboarding answers 200, and GetStatus then answers
    onboarding_completed true. *)
Theorem new_user_onboarding_flow
        (h : AuthHandler.t) (tok : string) (w : World) (a : AuthToken.t) :
  tok <> EmptyString ->
  token_record tok w = Some a ->
  AuthToken.IsUsed a = false ->
  reading w <= AuthToken.ExpiresAt a ->
  user_record (AuthToken.Email a) w = None ->
  faults (store w) = [] ->
  Forall (fun u => (User.ID u <= oid_counter (store w))%N) (users (store w)) ->
  (N.succ (oid_counter (store w)) < 2 ^ 96)%N ->
  (forall c, exists s, signer w c (AuthHandler.jwtSecret h) = inr s) ->
  exists (s : string) (user : User.t),
    fst (run (AuthHandler.VerifyToken h tok) w) = session s user /\
    let userIDHex := claim_user_id (session_claims user 0 0) in
    let w1 := snd (run (AuthHandler.VerifyToken h tok) w) in
    let w2 := snd (UserHandler.GetStatus userIDHex w1) in
    let w3 := snd (UserHandler.CompleteOnboarding userIDHex w2) in
    fst (UserHandler.GetStatus userIDHex w1) = onboarding_status false /\
    fst (UserHandler.CompleteOnboarding userIDHex w2) = onboarding_completed /\
    fst (UserHandler.GetStatus userIDHex w3) = onboarding_status true.
Proof.
  intros Htok Hrec Hunused Hnow Hnew Hup Hfresh Hsmall Hsign.
  destruct (@VerifyToken_new_user_world h tok w a Htok Hrec Hunused Hnow Hnew Hup Hfresh Hsign)
    as (s & user & Hresp & Husers & Hfaults & Hid & _ & Hflag).
  exists s, user. split; [exact Hresp|]. cbv zeta.
  cbn [claim_user_id session_claims].
  set (w1 := snd (run (AuthHandler.VerifyToken h tok) w)) in *. clearbody w1.
  assert (Hhex : ObjectIDFromHex (Hex (User.ID user)) = inr (User.ID user))
    by (apply ObjectIDFromHex_Hex; rewrite Hid; exact Hsmall).
  pose proof (@Hex_not_empty (User.ID user)) as Hne.
  assert (Hfound : user_by_id (User.ID user) w1 = Some (User.bson user)).
  { unfold user_by_id. rewrite Husers. apply find_first_app_new.
    - rewrite Hid. apply fresh_id_not_found. exact Hfresh.
    - unfold by_id. apply N.eqb_refl. }
  assert (Hs1 : served w1 = true) by (unfold served; cbn; rewrite Hfaults; reflexivity).
  rewrite (GetStatus_run w1 Hne Hhex), Hs1, Hfound.
  cbn [User.bson User.OnboardingCompleted]. rewrite Hflag. cbn [fst snd].
  split; [reflexivity|].
  assert (Hs2 : served (answered w1) = true)
    by (unfold served; cbn; rewrite Hfaults; reflexivity).
  destruct (@CompleteOnboarding_effect_found (Hex (User.ID user)) (User.ID user)
              (answered w1) (User.bson user) Hhex Hfound Hs2) as (Hdone & Hafter & Hup3).
  split; [exact Hdone|].
  assert (Hs3 : served (answered (answered w1)) = true)
    by (unfold served; cbn; rewrite Hfaults; reflexivity).
  rewrite (GetStatus_run _ Hne Hhex), Hup3, Hs3, Hafter. reflexivity.
Qed.

Lemma new_user_onboarding_flow_witness :
  let w1 := snd (run (AuthHandler.VerifyToken sample_handler "t-1") (login_world 0 [])) in
  let w2 := snd (UserHandler.GetStatus "000000000000000000000002" w1) in
  let w3 := snd (UserHandler.CompleteOnboarding "000000000000000000000002" w2) in
  fst (UserHandler.GetStatus "000000000000000000000002" w1) = onboarding_status false /\
  fst (UserHandler.GetStatus "000000000000000000000002" w3) = onboarding_status true.
Proof.
  cbv zeta.
  destruct (@new_user_onboarding_flow sample_handler "t-1" (login_world 0 [])
              (issued 1%N "new@ex.com" "t-1" 0))
    as (s & user & Hresp & Hflow).
  - discriminate.
  - reflexivity.
  - reflexivity.
  - vm_compute. discriminate.
  - reflexivity.
  - reflexivity.
  - constructor.
  - reflexivity.
  - intros c. eexists. reflexivity.
  - cbv zeta in Hflow. destruct Hflow as (Hfirst & _ & Hlast).
    assert (Huser : User.ID user = 2%N).
    { vm_compute in Hresp. injection Hresp as _ <-. reflexivity. }
    cbn [claim_user_id session_claims] in Hfirst, Hlast. rewrite Huser in Hfirst, Hlast.
    split; [exact Hfirst | exact Hlast].
Defined.
